(** * NHFilter: the filter classifier of [opusfilter/classifier.py]

    A shallow embedding of the class [FilterClassifier] and the proofs of
    the properties its specification states.

    Modelling conventions.
    - A Python [float] is an exact rational ([Q]); the missing value of
      pandas, [NaN], is the [None] of [cell].  Rounding is not modelled.
    - A Python exception is a constructor of [exn]; code that can raise
      returns a [result].
    - pandas, scikit-learn, [json] and [math] are not part of the
      repository.  What the class asks of them is the interface [Backend],
      each call a function of its arguments; the structural operations of
      a DataFrame ([keys], [df[key]], [pop], [to_numpy], [shape]) and
      [json_normalize] on flat records are written out.  What a theorem
      needs of a library beyond that is a hypothesis of the theorem.
    - [self] is the record [FilterClassifier]; a method that assigns an
      attribute returns the new record. *)

From Stdlib Require Import List String Ascii Bool ZArith QArith Qabs Qround Lia Lqa.
Import ListNotations.

Set Implicit Arguments.

(** ** Exceptions and results *)

Inductive exn : Type :=
| JSONDecodeError
| FileNotFoundError
| KeyError
| TypeError
| ValueError
| AttributeError
| UnboundLocalError.

Inductive result (A : Type) : Type :=
| Ok (a : A)
| Raise (e : exn).

Arguments Ok {A} a.
Arguments Raise {A} e.

Definition bind {A B : Type} (r : result A) (k : A -> result B) : result B :=
  match r with
  | Ok a => k a
  | Raise e => Raise e
  end.

Declare Scope result_scope.
Delimit Scope result_scope with result.
Notation "x <- r ;; k" := (bind r (fun x => k))
  (at level 100, r at next level, right associativity) : result_scope.
Notation "' p <- r ;; k" := (bind r (fun p => k))
  (at level 100, p pattern, r at next level, right associativity) : result_scope.
Local Open Scope result_scope.

Definition is_ok {A : Type} (r : result A) : bool :=
  match r with Ok _ => true | Raise _ => false end.

(** ** Numbers *)

(** A table entry: a number, or [None] for NaN (a missing value). *)
Definition cell : Type := option Q.

(** Python's [<] and [>] on floats; a comparison with NaN is [False]. *)
Definition Qltb (x y : Q) : bool :=
  match x ?= y with
  | Lt => true
  | _ => false
  end.

Definition cell_ltb (a b : cell) : bool :=
  match a, b with
  | Some x, Some y => Qltb x y
  | _, _ => false
  end.

Definition cell_gtb (a b : cell) : bool := cell_ltb b a.

(** The comparisons the specification words its rules with. *)
Definition cell_leb (a b : cell) : bool :=
  match a, b with
  | Some x, Some y => Qle_bool x y
  | _, _ => false
  end.

Definition cell_geb (a b : cell) : bool := cell_leb b a.

(** [value < cutoff] where the cutoff is a dictionary value, which is the
    Python [None] until [set_cutoffs] has assigned it: ordering a float
    against [None] raises [TypeError]. *)
Definition py_lt (v : cell) (c : option cell) : result bool :=
  match c with
  | Some c => Ok (cell_ltb v c)
  | None => Raise TypeError
  end.

Definition py_gt (v : cell) (c : option cell) : result bool :=
  match c with
  | Some c => Ok (cell_gtb v c)
  | None => Raise TypeError
  end.

(** ** Strings *)

(** [sub in s] *)
Fixpoint contains (sub s : string) : bool :=
  match s with
  | EmptyString => prefix sub EmptyString
  | String _ rest => prefix sub s || contains sub rest
  end.

(** ** Dictionaries

    A [dict] keeps its keys in insertion order; assigning to a key that is
    present replaces the value in place. *)

Section Dict.
Variable V : Type.

Definition dict : Type := list (string * V).

Definition dict_keys (d : dict) : list string := map fst d.

Fixpoint dict_get (d : dict) (key : string) : result V :=
  match d with
  | [] => Raise KeyError
  | (k, v) :: rest => if String.eqb k key then Ok v else dict_get rest key
  end.

Fixpoint dict_set (d : dict) (key : string) (v : V) : dict :=
  match d with
  | [] => [(key, v)]
  | (k, w) :: rest =>
      if String.eqb k key then (k, v) :: rest
      else (k, w) :: dict_set rest key v
  end.

Fixpoint dict_del (d : dict) (key : string) : dict :=
  match d with
  | [] => []
  | (k, w) :: rest =>
      if String.eqb k key then rest else (k, w) :: dict_del rest key
  end.

Definition dict_mem (d : dict) (key : string) : bool :=
  existsb (String.eqb key) (dict_keys d).
End Dict.

(** ** DataFrames

    A DataFrame is its columns, in order, over a range index of
    [index_len] rows. *)

Definition Series : Type := list cell.

Record DataFrame : Type := mkDataFrame {
  index_len : nat;
  cols : dict Series
}.

Fixpoint distinct (l : list string) : bool :=
  match l with
  | [] => true
  | k :: rest => negb (existsb (String.eqb k) rest) && distinct rest
  end.

(** Every column has one entry per row of the index, and no name is used
    twice: what pandas guarantees of a frame built from records. *)
Definition well_formed (df : DataFrame) : bool :=
  distinct (dict_keys (cols df))
  && forallb (fun kc => Nat.eqb (List.length (snd kc)) (index_len df)) (cols df).

(** No entry of the frame is NaN. *)
Definition is_number (c : cell) : bool :=
  match c with Some _ => true | None => false end.

Definition complete (df : DataFrame) : bool :=
  forallb (fun kc => forallb is_number (snd kc)) (cols df).

(** [df.keys()] *)
Definition keys (df : DataFrame) : list string := dict_keys (cols df).

(** [df[key]] *)
Definition getitem (df : DataFrame) (key : string) : result Series :=
  dict_get (cols df) key.

(** [series[i]] over a range index *)
Definition series_get (s : Series) (i : nat) : result cell :=
  match nth_error s i with
  | Some v => Ok v
  | None => Raise KeyError
  end.

(** [df.shape] *)
Definition shape (df : DataFrame) : nat * nat :=
  (index_len df, List.length (cols df)).

(** [df.to_numpy()]: the rows of the frame. *)
Definition row (df : DataFrame) (i : nat) : list cell :=
  map (fun kc => nth i (snd kc) None) (cols df).

Definition to_numpy (df : DataFrame) : list (list cell) :=
  map (row df) (seq 0 (index_len df)).

(** [df.pop(key)]: the column, and the frame without it. *)
Definition pop (df : DataFrame) (key : string) : result (Series * DataFrame) :=
  col <- getitem df key ;;
  Ok (col, mkDataFrame (index_len df) (dict_del (cols df) key)).

(** ** Input records and [json_normalize]

    A line of the input holds one JSON object whose members are numbers;
    once decoded it is a [record].  [json_normalize] turns the records into
    a frame: one column per name, in the order the names first appear, one
    row per record, NaN where a record lacks the name. *)

Definition record : Type := dict cell.

Definition add_name (names : list string) (k : string) : list string :=
  if existsb (String.eqb k) names then names else names ++ [k].

Definition column_names (data : list record) : list string :=
  fold_left (fun names r => fold_left add_name (dict_keys r) names) data [].

Definition field (k : string) (r : record) : cell :=
  match dict_get r k with
  | Ok v => v
  | Raise _ => None
  end.

Definition json_normalize (data : list record) : DataFrame :=
  mkDataFrame (List.length data)
    (map (fun k => (k, map (field k) data)) (column_names data)).

(** ** The capabilities the class consumes *)

Class Backend (model : Type) : Type := {
  (** [json.loads(line)]; [None] when it raises [JSONDecodeError] *)
  json_loads : string -> option record;
  (** [series.quantile(q)] *)
  quantile : Series -> Q -> result cell;
  (** [LogisticRegression(solver='liblinear').fit(x, y)] *)
  fit : list (list cell) -> list Z -> result model;
  (** [model.predict(df)]: one class per row *)
  predict : model -> DataFrame -> result (list Z);
  (** [model.predict_proba(df)]: per row, the probability of class 0 and
      of class 1 *)
  predict_proba : model -> DataFrame -> result (list (Q * Q));
  (** [model.score(df, labels)] *)
  score : model -> DataFrame -> Series -> result Q;
  (** [roc_auc_score(labels, scores)] *)
  roc_auc_score : Series -> list Q -> result Q;
  (** the logarithm of [math.log], on positive numbers *)
  ln : Q -> Q
}.

(** A file system: the lines of each file that exists. *)
Definition filesystem : Type := string -> option (list string).

Definition fs_write (fs : filesystem) (path : string) (lines : list string)
  : filesystem :=
  fun p => if String.eqb p path then Some lines else fs p.

(** Code that reads or writes files: a result, and the file system it
    leaves (also when it raises). *)
Definition io (A : Type) : Type := filesystem -> result A * filesystem.

Definition ret {A : Type} (a : A) : io A := fun fs => (Ok a, fs).

Definition lift {A : Type} (r : result A) : io A := fun fs => (r, fs).

Definition io_bind {A B : Type} (m : io A) (k : A -> io B) : io B :=
  fun fs =>
    match m fs with
    | (Ok a, fs') => k a fs'
    | (Raise e, fs') => (Raise e, fs')
    end.

Declare Scope io_scope.
Delimit Scope io_scope with io.
Notation "x <~ m ;; k" := (io_bind m (fun x => k))
  (at level 100, m at next level, right associativity) : io_scope.
Notation "' p <~ m ;; k" := (io_bind m (fun p => k))
  (at level 100, p pattern, m at next level, right associativity) : io_scope.

(** The line feed that ends a written line. *)
Definition newline : string := String (ascii_of_nat 10) EmptyString.

(** ** The class *)

Record FilterClassifier : Type := mkFilterClassifier {
  training_data : DataFrame;
  df_training_data : DataFrame;
  tbc_data : DataFrame;
  discard_thresholds : list Q;
  output_file : string;
  (** set only when [dev_scores] is given *)
  dev_data : option DataFrame;
  dev_labels : option Series;
  (** set by [add_labels] *)
  labels_train : option (list Z)
}.

Definition set_labels_train (self : FilterClassifier) (labels : list Z)
  : FilterClassifier :=
  mkFilterClassifier (training_data self) (df_training_data self)
    (tbc_data self) (discard_thresholds self) (output_file self)
    (dev_data self) (dev_labels self) (Some labels).

(** Reading an attribute that was never assigned. *)
Definition attr {A : Type} (a : option A) : result A :=
  match a with
  | Some x => Ok x
  | None => Raise AttributeError
  end.

(** Reading a local variable that was never bound. *)
Definition local {A : Type} (a : option A) : result A :=
  match a with
  | Some x => Ok x
  | None => Raise UnboundLocalError
  end.

(** [max(a, b)]: the first of the largest. *)
Definition py_max (a b : Q) : Q := if Qltb a b then b else a.

(** [math.log(x)] *)
Definition math_log {model : Type} {B : Backend model} (x : Q) : result Q :=
  if Qltb 0 x then Ok (ln x) else Raise ValueError.

(** [a - b] for a list and an array of one dimension: element by element,
    where an operand of length one is stretched. *)
Definition array_sub (a b : list Z) : result (list Z) :=
  if Nat.eqb (List.length a) (List.length b)
  then Ok (map (fun p => (fst p - snd p)%Z) (combine a b))
  else match a, b with
       | [x], _ => Ok (map (fun y => (x - y)%Z) b)
       | _, [y] => Ok (map (fun x => (x - y)%Z) a)
       | _, _ => Raise ValueError
       end.

Definition py_sum (l : list Z) : Z := fold_left Z.add l 0%Z.

Definition is_truthy (s : option string) : bool :=
  match s with
  | None => false
  | Some EmptyString => false
  | Some _ => true
  end.

Section Classifier.
Context {model : Type} {B : Backend model}.

(** [with open(data_file) as dfile] *)
Definition open_read (fs : filesystem) (data_file : option string)
  : result (list string) :=
  match data_file with
  | None => Raise TypeError
  | Some path =>
      match fs path with
      | Some lines => Ok lines
      | None => Raise FileNotFoundError
      end
  end.

Fixpoint load_lines (lines : list string) (data : list record)
  : result (list record) :=
  match lines with
  | [] => Ok data
  | line :: rest =>
      match json_loads line with
      | Some r => load_lines rest (data ++ [r])
      | None => Raise JSONDecodeError
      end
  end.

(** [load_data] *)
Definition load_data (data_file : option string) : io (list record) :=
  fun fs => (lines <- open_read fs data_file ;; load_lines lines [], fs).

Definition default_thresholds : list Q :=
  map (fun i => (1 # 100) * inject_Z (Z.of_nat i)) (seq 5 16).

Definition __init__
    (training_scores to_be_classified : option string)
    (thresholds : option (list Q))
    (output : option string) (dev_scores : option string)
  : io FilterClassifier :=
  (nested_train_data <~ load_data training_scores ;;
   let training := json_normalize nested_train_data in
   nested_tbc_data <~ load_data to_be_classified ;;
   let tbc := json_normalize nested_tbc_data in
   let thresholds :=
     match thresholds with
     | None => default_thresholds
     | Some l => l
     end in
   out <~ lift (if is_truthy output then attr output
                else match to_be_classified with
                     | Some p => Ok (p ++ ".probabilities.txt")%string
                     | None => Raise TypeError
                     end) ;;
   if is_truthy dev_scores then
     nested_dev_data <~ load_data dev_scores ;;
     ' (labels, dev) <~ lift (pop (json_normalize nested_dev_data) "label") ;;
     ret (mkFilterClassifier training training tbc thresholds out
            (Some dev) (Some labels) None)
   else
     ret (mkFilterClassifier training training tbc thresholds out
            None None None))%io.
End Classifier.

Section Methods.
Context {model : Type} {B : Backend model}.

Definition cutoffs_t : Type := dict (option cell).

Definition is_cross_entropy (key : string) : bool :=
  contains "CrossEntropyFilter" key.

(** [set_cutoffs]: the loop over [cutoffs.keys()] *)
Fixpoint set_cutoffs_loop (self : FilterClassifier) (discard : Q)
    (ks : list string) (cutoffs : cutoffs_t) : result cutoffs_t :=
  match ks with
  | [] => Ok cutoffs
  | key :: rest =>
      col <- getitem (df_training_data self) key ;;
      c <- (if is_cross_entropy key
            then quantile col (1 - discard)
            else quantile col discard) ;;
      set_cutoffs_loop self discard rest (dict_set cutoffs key (Some c))
  end.

Definition set_cutoffs (self : FilterClassifier) (discard : Q)
    (cutoffs : cutoffs_t) : result cutoffs_t :=
  set_cutoffs_loop self discard (dict_keys cutoffs) cutoffs.

(** [add_labels]: the inner loop, over the keys, for row [i] *)
Fixpoint label_row (self : FilterClassifier) (cutoffs : cutoffs_t)
    (i : nat) (ks : list string) (label : Z) : result Z :=
  match ks with
  | [] => Ok label
  | key :: rest =>
      col <- getitem (training_data self) key ;;
      v <- series_get col i ;;
      c <- dict_get cutoffs key ;;
      out <- (if is_cross_entropy key then py_gt v c else py_lt v c) ;;
      label_row self cutoffs i rest (if out then 0%Z else label)
  end.

(** [add_labels]: the outer loop, over the rows *)
Fixpoint add_labels_loop (self : FilterClassifier) (cutoffs : cutoffs_t)
    (rows : list nat) (labels : list Z) : result (list Z) :=
  match rows with
  | [] => Ok labels
  | i :: rest =>
      label <- label_row self cutoffs i (dict_keys cutoffs) 1%Z ;;
      add_labels_loop self cutoffs rest (labels ++ [label])
  end.

Definition add_labels (self : FilterClassifier) (cutoffs : cutoffs_t)
  : result FilterClassifier :=
  labels <- add_labels_loop self cutoffs
              (seq 0 (index_len (df_training_data self))) [] ;;
  Ok (set_labels_train self labels).

Definition train_logreg (self : FilterClassifier) : result model :=
  let x_train := to_numpy (df_training_data self) in
  y_train <- attr (labels_train self) ;;
  fit x_train y_train.

Definition get_roc_auc (self : FilterClassifier) (m : model) : result Q :=
  dev <- attr (dev_data self) ;;
  pred <- predict m dev ;;
  probs <- predict_proba m dev ;;
  labels <- attr (dev_labels self) ;;
  score <- score m dev labels ;;
  auc1 <- roc_auc_score labels (map fst probs) ;;
  auc2 <- roc_auc_score labels (map snd probs) ;;
  Ok (py_max auc1 auc2).

Definition get_sse (self : FilterClassifier) (m : model) : result Q :=
  y_hat <- predict m (df_training_data self) ;;
  labels <- attr (labels_train self) ;;
  resid <- array_sub labels y_hat ;;
  let sse := inject_Z (py_sum (map (fun r => r ^ 2)%Z resid)) + (1 # 100) in
  Ok sse.

Definition get_aic (self : FilterClassifier) (m : model) : result Q :=
  sse <- get_sse self m ;;
  let k := snd (shape (df_training_data self)) in
  l <- math_log sse ;;
  let AIC := inject_Z (2 * Z.of_nat k) - 2 * l in
  Ok AIC.

Definition get_bic (self : FilterClassifier) (m : model) : result Q :=
  sse <- get_sse self m ;;
  let k := snd (shape (df_training_data self)) in
  let n := fst (shape (df_training_data self)) in
  ln_n <- math_log (inject_Z (Z.of_nat n)) ;;
  l <- math_log sse ;;
  let BIC := ln_n * inject_Z (Z.of_nat k) - 2 * l in
  Ok BIC.

Definition candidate : Type := (model * Q * Q)%type.

(** The second component, [best[1]]. *)
Definition crit_of (best : candidate) : Q := snd (fst best).

(** One turn of the loop of [find_best_model]. *)
Definition sweep_step (criterion : string) (discard_threshold : Q)
    (st : FilterClassifier * cutoffs_t * option candidate)
  : result (FilterClassifier * cutoffs_t * option candidate) :=
  let '(self, cutoffs, best) := st in
  cutoffs <- set_cutoffs self discard_threshold cutoffs ;;
  self <- add_labels self cutoffs ;;
  LR <- train_logreg self ;;
  crit_value <-
    (if String.eqb criterion "roc_auc"
     then v <- get_roc_auc self LR ;; Ok (Some v)
     else if String.eqb criterion "AIC"
     then v <- get_aic self LR ;; Ok (Some v)
     else if String.eqb criterion "BIC"
     then v <- get_bic self LR ;; Ok (Some v)
     else Ok None) ;;
  best <-
    (if String.eqb criterion "roc_auc" then
       match best with
       | None => v <- local crit_value ;; Ok (Some (LR, v, discard_threshold))
       | Some b =>
           v <- local crit_value ;;
           if Qltb (crit_of b) v
           then Ok (Some (LR, v, discard_threshold))
           else Ok best
       end
     else
       match best with
       | None => v <- local crit_value ;; Ok (Some (LR, v, discard_threshold))
       | Some b =>
           v <- local crit_value ;;
           if Qltb v (crit_of b)
           then Ok (Some (LR, v, discard_threshold))
           else Ok best
       end) ;;
  v <- local crit_value ;;
  Ok (self, cutoffs, best).

Fixpoint sweep (criterion : string) (thresholds : list Q)
    (st : FilterClassifier * cutoffs_t * option candidate)
  : result (FilterClassifier * cutoffs_t * option candidate) :=
  match thresholds with
  | [] => Ok st
  | discard_threshold :: rest =>
      st <- sweep_step criterion discard_threshold st ;;
      sweep criterion rest st
  end.

(** [{key: None for key in keys}] *)
Definition init_cutoffs (ks : list string) : cutoffs_t :=
  fold_left (fun d key => dict_set d key None) ks [].

Definition find_best_model (self : FilterClassifier) (criterion : string)
  : result (candidate * FilterClassifier) :=
  let cutoffs := init_cutoffs (keys (df_training_data self)) in
  let best := @None candidate in
  ' (self, cutoffs, best) <-
      sweep criterion (discard_thresholds self) (self, cutoffs, best) ;;
  match best with
  | Some b => Ok (b, self)
  | None => Raise TypeError
  end.
End Methods.

Arguments candidate model : clear implicits.

(** ** Writing the probabilities

    ['{0:.10f}'.format(x)]: the sign, then the magnitude rounded to ten
    decimals, a tie to the even neighbour. *)

Definition round_half_even (q : Q) : Z :=
  let f := Qfloor q in
  let r := q - inject_Z f in
  if Qltb r (1 # 2) then f
  else if Qltb (1 # 2) r then (f + 1)%Z
  else if Z.even f then f else (f + 1)%Z.

Definition digit_char (d : Z) : ascii := ascii_of_nat (48 + Z.to_nat d).

(** The [w] decimal digits of [n], the most significant first. *)
Fixpoint fixed_digits (w : nat) (n : Z) : string :=
  match w with
  | O => EmptyString
  | S w' =>
      String (digit_char (n / 10 ^ Z.of_nat w'))
             (fixed_digits w' (n mod 10 ^ Z.of_nat w'))
  end.

(** The decimal digits of [n >= 0], without leading zeros. *)
Fixpoint count_digits (fuel : nat) (n : Z) : nat :=
  match fuel with
  | O => 1
  | S fuel' => if (n <? 10)%Z then 1 else S (count_digits fuel' (n / 10))
  end.

Definition decimal (n : Z) : string :=
  fixed_digits (count_digits (Z.to_nat (Z.log2 n)) n) n.

Definition format_10f (x : Q) : string :=
  let scaled := round_half_even (Qabs x * inject_Z (10 ^ 10)) in
  ((if Qltb x 0 then "-" else "")
   ++ decimal (scaled / 10 ^ 10) ++ "." ++ fixed_digits 10 (scaled mod 10 ^ 10))%string.

Section Writer.
Context {model : Type} {B : Backend model}.

(** The loop of [assign_probabilities]: one [output.write] per value. *)
Definition write_all (column : list Q) : list string :=
  fold_left (fun output proba => output ++ [(format_10f proba ++ newline)%string])
            column [].

Definition assign_probabilities (self : FilterClassifier) (m : model)
  : io unit :=
  (probas <~ lift (predict_proba m (tbc_data self)) ;;
   fun fs => (Ok tt, fs_write fs (output_file self) (write_all (map snd probas))))%io.
End Writer.

(** Reading a written line back: digits, a point, digits, then the line
    feed; the value is the decimal number they spell. *)

Definition digit_value (c : ascii) : option Z :=
  let n := nat_of_ascii c in
  if (48 <=? n)%nat && (n <=? 57)%nat then Some (Z.of_nat (n - 48)) else None.

(** The digits at the head of [s] (as a number, with their count) and
    what follows them. *)
Fixpoint read_digits (s : string) (acc : Z) (count : nat) : Z * nat * string :=
  match s with
  | EmptyString => (acc, count, s)
  | String c rest =>
      match digit_value c with
      | Some d => read_digits rest (10 * acc + d)%Z (S count)
      | None => (acc, count, s)
      end
  end.

Definition parse_line (line : string) : option Q :=
  let '(ip, ni, rest) := read_digits line 0%Z 0 in
  match ni, rest with
  | S _, String "." rest =>
      let '(fp, nf, rest) := read_digits rest 0%Z 0 in
      match nf with
      | S _ =>
          if String.eqb rest newline
          then Some (inject_Z ip + inject_Z fp / inject_Z (10 ^ Z.of_nat nf))
          else None
      | O => None
      end
  | _, _ => None
  end.

(** ** A small backend to run the class on

    An executable instance of [Backend], used to evaluate the class on
    concrete inputs: a decoder for the JSON objects of the input format,
    the quantile by linear interpolation, a one-feature threshold
    classifier that refuses a single class, and the area under the ROC
    curve as the share of correctly ordered pairs.  The theorems below hold
    for every backend. *)

Module Toy.

Definition dquote : ascii := ascii_of_nat 34.

Definition quoted (s : string) : string :=
  String dquote (s ++ String dquote EmptyString).

Definition is_space (c : ascii) : bool :=
  let n := nat_of_ascii c in
  Nat.eqb n 32 || Nat.eqb n 9 || Nat.eqb n 10 || Nat.eqb n 13.

Fixpoint skip_ws (s : string) : string :=
  match s with
  | String c rest => if is_space c then skip_ws rest else s
  | EmptyString => s
  end.

(** The characters up to the closing quote, and what follows it. *)
Fixpoint read_name (s : string) : option (string * string) :=
  match s with
  | EmptyString => None
  | String c rest =>
      if Ascii.eqb c dquote then Some (EmptyString, rest)
      else match read_name rest with
           | Some (name, rest') => Some (String c name, rest')
           | None => None
           end
  end.

Definition read_unsigned (s : string) : option (Q * string) :=
  let '(ip, ni, rest) := read_digits s 0%Z 0 in
  match ni with
  | O => None
  | S _ =>
      match rest with
      | String "." rest' =>
          let '(fp, nf, rest'') := read_digits rest' 0%Z 0 in
          match nf with
          | O => None
          | S _ =>
              Some (inject_Z ip + inject_Z fp / inject_Z (10 ^ Z.of_nat nf),
                    rest'')
          end
      | _ => Some (inject_Z ip, rest)
      end
  end.

(** A number, or the [NaN] that [json.loads] accepts. *)
Definition read_number (s : string) : option (cell * string) :=
  match s with
  | String "N" (String "a" (String "N" rest)) => Some (None, rest)
  | String "-" rest =>
      match read_unsigned rest with
      | Some (q, rest') => Some (Some (- q), rest')
      | None => None
      end
  | _ =>
      match read_unsigned s with
      | Some (q, rest') => Some (Some q, rest')
      | None => None
      end
  end.

Fixpoint read_members (fuel : nat) (s : string) (acc : record)
  : option record :=
  match fuel with
  | O => None
  | S fuel' =>
      match skip_ws s with
      | String c rest =>
          if Ascii.eqb c dquote then
            match read_name rest with
            | Some (name, rest) =>
                match skip_ws rest with
                | String ":" rest =>
                    match read_number (skip_ws rest) with
                    | Some (v, rest) =>
                        match skip_ws rest with
                        | String "," rest =>
                            read_members fuel' rest (dict_set acc name v)
                        | String "}" rest =>
                            match skip_ws rest with
                            | EmptyString => Some (dict_set acc name v)
                            | _ => None
                            end
                        | _ => None
                        end
                    | None => None
                    end
                | _ => None
                end
            | None => None
            end
          else None
      | EmptyString => None
      end
  end.

Definition loads (line : string) : option record :=
  match skip_ws line with
  | String "{" rest =>
      match skip_ws rest with
      | String "}" rest' =>
          match skip_ws rest' with
          | EmptyString => Some []
          | _ => None
          end
      | _ => read_members (String.length line) rest []
      end
  | _ => None
  end.

(** Quantile by linear interpolation between the order statistics. *)
Fixpoint insert_sorted (x : Q) (l : list Q) : list Q :=
  match l with
  | [] => [x]
  | y :: rest => if Qle_bool x y then x :: l else y :: insert_sorted x rest
  end.

Definition sort (l : list Q) : list Q := fold_right insert_sorted [] l.

Fixpoint numbers (s : Series) : list Q :=
  match s with
  | [] => []
  | Some x :: rest => x :: numbers rest
  | None :: rest => numbers rest
  end.

Definition quantile (s : Series) (q : Q) : result cell :=
  if Qltb q 0 || Qltb 1 q then Raise ValueError
  else
    match sort (numbers s) with
    | [] => Ok None
    | (x0 :: _) as xs =>
        let h := inject_Z (Z.of_nat (List.length xs) - 1) * q in
        let lo := Z.to_nat (Qfloor h) in
        let a := nth lo xs x0 in
        let b := nth (S lo) xs a in
        Ok (Some (a + (h - inject_Z (Qfloor h)) * (b - a)))
    end.

(** A threshold on the first feature. *)
Record stump : Type := mkStump { threshold : Q; upward : bool }.

Definition feature (r : list cell) : Q :=
  match r with
  | Some x :: _ => x
  | _ => 0
  end.

Definition mean (l : list Q) : Q :=
  fold_right Qplus 0 l / inject_Z (Z.of_nat (List.length l)).

Definition select (label : Z) (x : list (list cell)) (y : list Z) : list Q :=
  map (fun p => feature (fst p))
      (filter (fun p => Z.eqb (snd p) label) (combine x y)).

Definition fit (x : list (list cell)) (y : list Z) : result stump :=
  if negb (Nat.eqb (List.length x) (List.length y)) then Raise ValueError
  else
    match select 0 x y, select 1 x y with
    | (_ :: _) as neg, (_ :: _) as pos =>
        Ok (mkStump ((mean neg + mean pos) / 2)
                    (Qle_bool (mean neg) (mean pos)))
    | _, _ => Raise ValueError
    end.

Definition classify (m : stump) (r : list cell) : Z :=
  if Bool.eqb (Qle_bool (threshold m) (feature r)) (upward m)
  then 1%Z else 0%Z.

Definition predict (m : stump) (df : DataFrame) : result (list Z) :=
  Ok (map (classify m) (to_numpy df)).

Definition predict_proba (m : stump) (df : DataFrame)
  : result (list (Q * Q)) :=
  Ok (map (fun r => if Z.eqb (classify m r) 1
                    then (1 # 4, 3 # 4) else (3 # 4, 1 # 4))
          (to_numpy df)).

Definition as_label (c : cell) : Z :=
  match c with
  | Some q => Qfloor q
  | None => 0%Z
  end.

Definition score (m : stump) (df : DataFrame) (labels : Series)
  : result Q :=
  let pred := map (classify m) (to_numpy df) in
  if negb (Nat.eqb (List.length pred) (List.length labels))
  then Raise ValueError
  else
    let hits :=
      filter (fun p => Z.eqb (fst p) (as_label (snd p))) (combine pred labels) in
    Ok (inject_Z (Z.of_nat (List.length hits))
        / inject_Z (Z.of_nat (List.length pred))).

Definition pair_credit (p n : Q) : Q :=
  if Qltb n p then 1 else if Qltb p n then 0 else 1 # 2.

Definition roc_auc_score (labels : Series) (scores : list Q) : result Q :=
  if negb (Nat.eqb (List.length labels) (List.length scores))
  then Raise ValueError
  else
    let tagged := combine (map as_label labels) scores in
    let pos := map snd (filter (fun p => Z.eqb (fst p) 1) tagged) in
    let neg := map snd (filter (fun p => Z.eqb (fst p) 0) tagged) in
    match pos, neg with
    | _ :: _, _ :: _ =>
        Ok (fold_right Qplus 0
              (flat_map (fun p => map (pair_credit p) neg) pos)
            / inject_Z (Z.of_nat (List.length pos * List.length neg)))
    | _, _ => Raise ValueError
    end.

(** A rational stand-in for the logarithm. *)
Definition ln (x : Q) : Q := (x - 1) / x.

Definition backend : Backend stump :=
  Build_Backend loads quantile fit predict predict_proba score
                roc_auc_score ln.
End Toy.

(** ** The vocabulary of the specification *)

(** The fraction whose quantile is the cutoff of a feature. *)
Definition cutoff_fraction (key : string) (discard : Q) : Q :=
  if is_cross_entropy key then 1 - discard else discard.

(** The rule a value passes: at most the cutoff for a cross-entropy
    feature, at least the cutoff for any other. *)
Definition passes (key : string) (value cutoff : cell) : bool :=
  if is_cross_entropy key then cell_leb value cutoff else cell_geb value cutoff.

(** What the code tests: the value lies on the wrong side of the cutoff. *)
Definition rejects (key : string) (value cutoff : cell) : bool :=
  if is_cross_entropy key then cell_gtb value cutoff else cell_ltb value cutoff.

(** The entry of row [i] in column [key], and the cutoff of [key]. *)
Definition value_at (df : DataFrame) (key : string) (i : nat) : cell :=
  match getitem df key with
  | Ok col => nth i col None
  | Raise _ => None
  end.

Definition cutoff_at (cutoffs : cutoffs_t) (key : string) : cell :=
  match dict_get cutoffs key with
  | Ok (Some c) => c
  | _ => None
  end.

(** Every cutoff has been assigned, and none is NaN. *)
Definition cutoffs_are_numbers (cutoffs : cutoffs_t) : bool :=
  forallb (fun kc => match snd kc with
                     | Some (Some _) => true
                     | _ => false
                     end) cutoffs.

(** Row [i] passes the rule of every feature. *)
Definition row_passes (df : DataFrame) (cutoffs : cutoffs_t) (i : nat) : bool :=
  forallb (fun key => passes key (value_at df key i) (cutoff_at cutoffs key))
          (keys df).

(** Two states of the classifier with the same tables and settings: they
    differ at most in the labels [add_labels] assigned. *)
Definition same_tables (s s' : FilterClassifier) : Prop :=
  set_labels_train s [] = set_labels_train s' [].

Section Selection.
Context {model : Type} {B : Backend model}.

(** The cutoffs of a sweep step, computed from nothing but the table and
    the discard fraction. *)
Fixpoint fresh_cutoffs (self : FilterClassifier) (discard : Q)
    (ks : list string) : result cutoffs_t :=
  match ks with
  | [] => Ok []
  | key :: rest =>
      col <- getitem (df_training_data self) key ;;
      c <- quantile col (cutoff_fraction key discard) ;;
      more <- fresh_cutoffs self discard rest ;;
      Ok ((key, Some c) :: more)
  end.

(** The value of the chosen criterion for a fitted model. *)
Definition criterion_value (self : FilterClassifier) (criterion : string)
    (LR : model) : result Q :=
  if String.eqb criterion "roc_auc" then get_roc_auc self LR
  else if String.eqb criterion "AIC" then get_aic self LR
  else if String.eqb criterion "BIC" then get_bic self LR
  else Raise UnboundLocalError.

(** The model of one discard fraction and its criterion value: labels
    from the cutoffs, a classifier from the labels, the criterion of the
    classifier. *)
Definition trial (self : FilterClassifier) (criterion : string) (discard : Q)
  : result (model * Q) :=
  cutoffs <- set_cutoffs self discard
               (init_cutoffs (keys (df_training_data self))) ;;
  self <- add_labels self cutoffs ;;
  LR <- train_logreg self ;;
  v <- criterion_value self criterion LR ;;
  Ok (LR, v).

(** The comparison against the incumbent: a strictly larger
    discrimination score, a strictly smaller information criterion. *)
Definition improves (criterion : string) (v incumbent : Q) : bool :=
  if String.eqb criterion "roc_auc" then Qltb incumbent v else Qltb v incumbent.

Definition retain (criterion : string) (best : option (candidate model))
    (c : candidate model) : option (candidate model) :=
  match best with
  | None => Some c
  | Some b => if improves criterion (crit_of c) (crit_of b) then Some c else best
  end.

(** The candidate of a discard fraction from its trial. *)
Definition as_candidate (d : Q) (mv : model * Q) : candidate model :=
  (fst mv, snd mv, d).
End Selection.

(** The criteria of [find_best_model]. *)
Definition criteria : list string := ["roc_auc"; "AIC"; "BIC"]%string.

(** [v] is at least as good as [w] under the criterion, and strictly
    better. *)
Definition as_good (criterion : string) (v w : Q) : Prop :=
  if String.eqb criterion "roc_auc" then w <= v else v <= w.

Definition better (criterion : string) (v w : Q) : Prop :=
  if String.eqb criterion "roc_auc" then w < v else v < w.

(** The criterion value on the scale on which larger is better. *)
Definition rank (criterion : string) (v : Q) : Q :=
  if String.eqb criterion "roc_auc" then v else - v.

(** The candidates of a sweep, from the trials of its discard fractions. *)
Definition candidates {model : Type} (ds : list Q) (mvs : list (model * Q))
  : list (candidate model) :=
  map (fun p => as_candidate (fst p) (snd p)) (combine ds mvs).

(** [b], at position [i], is the first of the best candidates of [seen]. *)
Definition first_best {model : Type} (criterion : string)
    (seen : list (candidate model)) (b : candidate model) (i : nat) : Prop :=
  nth_error seen i = Some b
  /\ (forall j c, nth_error seen j = Some c ->
        rank criterion (crit_of c) <= rank criterion (crit_of b))
  /\ (forall j c, (j < i)%nat -> nth_error seen j = Some c ->
        rank criterion (crit_of c) < rank criterion (crit_of b)).

(** The states a sweep over the tables of [self] passes through. *)
Definition reachable (self s : FilterClassifier) (cutoffs : cutoffs_t) : Prop :=
  same_tables self s
  /\ NoDup (dict_keys cutoffs)
  /\ dict_keys cutoffs = dict_keys (init_cutoffs (keys (df_training_data self))).

(** The sum of the squared differences of two vectors of equal length. *)
Fixpoint sum_squared_residuals (labels y_hat : list Z) : Z :=
  match labels, y_hat with
  | y :: labels', p :: y_hat' =>
      ((y - p) * (y - p) + sum_squared_residuals labels' y_hat')%Z
  | _, _ => 0%Z
  end.

(** The amount by which BIC exceeds AIC on a table of [n] rows and [k]
    columns. *)
Definition bic_offset {model : Type} {B : Backend model} (df : DataFrame) : Q :=
  inject_Z (Z.of_nat (snd (shape df)))
  * (ln (inject_Z (Z.of_nat (fst (shape df)))) - 2).

(** Two candidates with the same model and discard fraction whose
    criterion values differ by [c], and two incumbents so related. *)
Definition shifted {model : Type} (c : Q) (a b : candidate model) : Prop :=
  fst (fst a) = fst (fst b) /\ snd a = snd b /\ crit_of b == crit_of a + c.

Definition shifted_best {model : Type} (c : Q)
    (a b : option (candidate model)) : Prop :=
  match a, b with
  | Some x, Some y => shifted c x y
  | None, None => True
  | _, _ => False
  end.

(** All the labels are the same. *)
Definition single_class (labels : list Z) : bool :=
  match labels with
  | [] => true
  | y :: rest => forallb (Z.eqb y) rest
  end.

(** What scikit-learn documents of the [liblinear] solver: fitting labels
    of a single class raises [ValueError]. *)
Definition refuses_single_class {model : Type} (B : Backend model) : Prop :=
  forall x y, single_class y = true -> fit x y = Raise ValueError.

(** The same backend with the two classes exchanged in the predicted
    probabilities: what was the probability of class 1 is reported for
    class 0, and the other way round. *)
Definition swap_classes {model : Type} (B : Backend model) : Backend model :=
  Build_Backend json_loads quantile fit predict
    (fun m df => probs <- predict_proba m df ;;
                 Ok (map (fun p => (snd p, fst p)) probs))
    score roc_auc_score ln.

(** Two records have the same set of names; all the records of a file
    do. *)
Definition same_names (r r' : record) : bool :=
  forallb (dict_mem r') (dict_keys r) && forallb (dict_mem r) (dict_keys r').

Definition uniform (data : list record) : bool :=
  match data with
  | [] => true
  | r :: rest => forallb (same_names r) rest
  end.

(** Every character of the string is a decimal digit. *)
Fixpoint all_digits (s : string) : bool :=
  match s with
  | EmptyString => true
  | String c rest =>
      match digit_value c with
      | Some _ => all_digits rest
      | None => false
      end
  end.

(** ** A run on small files *)

Module Demo.
Import Toy.
Local Open Scope string_scope.

#[local] Existing Instance backend.

Definition member (name value : string) : string :=
  quoted name ++ ": " ++ value.

Definition scores (f1 f2 : string) : string :=
  "{" ++ member "f1" f1 ++ ", " ++ member "CrossEntropyFilter_f2" f2 ++ "}"
  ++ newline.

Definition labelled (f1 f2 label : string) : string :=
  "{" ++ member "f1" f1 ++ ", " ++ member "CrossEntropyFilter_f2" f2
  ++ ", " ++ member "label" label ++ "}" ++ newline.

Definition train_lines : list string :=
  [scores "0.1" "0.9"; scores "0.4" "0.2"; scores "0.7" "0.5";
   scores "0.9" "0.3"; scores "0.6" "0.1"].

Definition tbc_lines : list string :=
  [scores "0.8" "0.2"; scores "0.2" "0.7"; scores "0.5" "0.5"].

Definition dev_lines : list string :=
  [labelled "0.9" "0.1" "1"; labelled "0.2" "0.8" "0";
   labelled "0.6" "0.3" "1"; labelled "0.3" "0.6" "0"].

(** Two rows that do not name the same features. *)
Definition ragged_lines : list string :=
  ["{" ++ member "f1" "0.5" ++ "}" ++ newline;
   "{" ++ member "f2" "0.25" ++ "}" ++ newline].

Definition files : filesystem :=
  fs_write
    (fs_write (fs_write (fs_write (fun _ => None) "train.jsonl" train_lines)
                        "tbc.jsonl" tbc_lines)
              "dev.jsonl" dev_lines)
    "ragged.jsonl" ragged_lines.

(** The records of the lines that decode. *)
Definition records (lines : list string) : list record :=
  flat_map (fun line => match loads line with
                        | Some r => [r]
                        | None => []
                        end) lines.

Definition empty_self : FilterClassifier :=
  mkFilterClassifier (json_normalize []) (json_normalize [])
    (json_normalize []) [] "" None None None.

(** The classifier [FilterClassifier("train.jsonl", "tbc.jsonl",
    [0.2, 0.4], None, "dev.jsonl")]. *)
Definition self : FilterClassifier :=
  Eval vm_compute in
    match __init__ (Some "train.jsonl") (Some "tbc.jsonl")
               (Some [2 # 10; 4 # 10]) None (Some "dev.jsonl") files with
    | (Ok s, _) => s
    | (Raise _, _) => empty_self
    end.

(** The cutoffs of the first sweep step, at discard fraction 0.2. *)
Definition cutoffs : cutoffs_t :=
  Eval vm_compute in
    match set_cutoffs self (2 # 10)
            (init_cutoffs (keys (df_training_data self))) with
    | Ok c => c
    | Raise _ => []
    end.

(** The trials of the sweep [[0.2, 0.4]] under each criterion. *)
Definition trials (criterion : string) : list (stump * Q) :=
  flat_map (fun d => match trial self criterion d with
                     | Ok mv => [mv]
                     | Raise _ => []
                     end) (discard_thresholds self).

Definition trials_roc_auc : list (stump * Q) :=
  Eval vm_compute in trials "roc_auc".

Definition trials_aic : list (stump * Q) :=
  Eval vm_compute in trials "AIC".

Definition trials_bic : list (stump * Q) :=
  Eval vm_compute in trials "BIC".

(** The classifier after [add_labels] at discard fraction 0.2, and the
    model fitted to its labels. *)
Definition labelled_self : FilterClassifier :=
  Eval vm_compute in
    match add_labels self cutoffs with
    | Ok s => s
    | Raise _ => self
    end.

Definition fitted : stump :=
  Eval vm_compute in
    match train_logreg labelled_self with
    | Ok m => m
    | Raise _ => mkStump 0 true
    end.

(** The same classifier with another sweep, and without held-out data. *)
Definition with_sweep (thresholds : list Q) : FilterClassifier :=
  mkFilterClassifier (training_data self) (df_training_data self)
    (tbc_data self) thresholds (output_file self) (dev_data self)
    (dev_labels self) None.

Definition without_dev : FilterClassifier :=
  mkFilterClassifier (training_data self) (df_training_data self)
    (tbc_data self) (discard_thresholds self) (output_file self) None None
    None.

(** The sweep [[0]]: at discard fraction 0 every row passes every rule. *)
Definition degenerate_self : FilterClassifier := with_sweep [0].

Definition predictions : list Z :=
  Eval vm_compute in
    match Toy.predict fitted (df_training_data labelled_self) with
    | Ok y_hat => y_hat
    | Raise _ => []
    end.
End Demo.

(** ** The vocabulary of the further properties *)

(** Every cutoff has been assigned a value, NaN or not. *)
Definition assigned (cutoffs : cutoffs_t) : bool :=
  forallb (fun kc => match snd kc with
                     | Some _ => true
                     | None => false
                     end) cutoffs.

(** Some entry of row [i] lies on the wrong side of its cutoff. *)
Definition row_rejected (df : DataFrame) (cutoffs : cutoffs_t) (i : nat) : bool :=
  existsb (fun key => rejects key (value_at df key i) (cutoff_at cutoffs key))
          (keys df).

(** The cutoff [c'] asks at least as much of a value as the cutoff [c]:
    it is lower for a cross-entropy feature, higher for any other. *)
Definition tighter (key : string) (c c' : cell) : Prop :=
  match c, c' with
  | Some x, Some y => if is_cross_entropy key then y <= x else x <= y
  | _, _ => False
  end.

(** Every class is 0 or 1. *)
Definition binary (l : list Z) : bool :=
  forallb (fun y => Z.eqb y 0 || Z.eqb y 1) l.

(** The number of positions at which two vectors differ. *)
Fixpoint mismatches (labels y_hat : list Z) : Z :=
  match labels, y_hat with
  | y :: labels', p :: y_hat' =>
      ((if Z.eqb y p then 0 else 1) + mismatches labels' y_hat')%Z
  | _, _ => 0%Z
  end.

(** The logarithm of the backend grows with its argument. *)
Definition ln_increasing {model : Type} (B : Backend model) : Prop :=
  forall x y, 0 < x -> x < y -> ln x < ln y.

(** The classifier with the labels of a discard fraction: [set_cutoffs]
    on fresh cutoffs, then [add_labels]. *)
Definition labelled_at {model : Type} {B : Backend model}
    (self : FilterClassifier) (discard : Q) : result FilterClassifier :=
  cutoffs <- set_cutoffs self discard
               (init_cutoffs (keys (df_training_data self))) ;;
  add_labels self cutoffs.

(** The quantile of a column at the fraction [q] is a number, and at
    most the quantile at the fraction [q']. *)
Definition quantile_grows {model : Type} {B : Backend model}
    (col : Series) (q q' : Q) : Prop :=
  exists a b,
    quantile col q = Ok (Some a) /\ quantile col q' = Ok (Some b) /\ a <= b.

(** ** More small inputs *)

Module Cases.
Import Toy.
Local Open Scope string_scope.

#[local] Existing Instance backend.

(** The classifier built on the file whose two rows name different
    features: each row lacks an entry. *)
Definition ragged_self : FilterClassifier :=
  Eval vm_compute in
    match __init__ (Some "ragged.jsonl") (Some "tbc.jsonl") None None None
                   Demo.files with
    | (Ok s, _) => s
    | (Raise _, _) => Demo.empty_self
    end.

Definition zero_cutoffs : cutoffs_t :=
  [("f1", Some (Some 0)); ("f2", Some (Some 0))].

(** The cutoffs of the demonstration table at discard fraction 0.4. *)
Definition cutoffs_04 : cutoffs_t :=
  Eval vm_compute in
    match set_cutoffs Demo.self (4 # 10)
            (init_cutoffs (keys (df_training_data Demo.self))) with
    | Ok c => c
    | Raise _ => []
    end.

(** A model that predicts class 0 for every row of the demonstration
    table. *)
Definition all_zero : stump := mkStump 10 true.

(** A classifier without rows, after [add_labels]. *)
Definition no_rows : FilterClassifier :=
  mkFilterClassifier (json_normalize []) (json_normalize [])
    (json_normalize []) [] "" None None (Some []).

(** What [find_best_model] returns on the demonstration table under the
    discrimination score, and the classifier it leaves. *)
Definition best_roc_auc : candidate stump :=
  Eval vm_compute in
    match find_best_model Demo.self "roc_auc" with
    | Ok (b, _) => b
    | Raise _ => (mkStump 0 true, 0, 0)
    end.

Definition swept : FilterClassifier :=
  Eval vm_compute in
    match find_best_model Demo.self "roc_auc" with
    | Ok (_, s) => s
    | Raise _ => Demo.self
    end.
End Cases.

(** * Properties *)

Unset Implicit Arguments.

(** ** Dictionaries *)

Lemma distinct_NoDup (l : list string) : distinct l = true -> NoDup l.
Proof.
  induction l as [|k rest IH]; simpl; intros H; constructor.
  - apply andb_prop in H as [H _]. intros Hin.
    apply negb_true_iff in H.
    assert (existsb (String.eqb k) rest = true) as E
      by (apply existsb_exists; exists k; split; [assumption | apply String.eqb_refl]).
    congruence.
  - apply IH. apply andb_prop in H as [_ H]. exact H.
Qed.

Section DictFacts.
Context {V : Type}.
Implicit Types (d : dict V) (k : string) (v : V).

Lemma dict_get_set_eq d k v : dict_get (dict_set d k v) k = Ok v.
Proof.
  induction d as [|[k0 w] rest IH]; simpl.
  - now rewrite String.eqb_refl.
  - destruct (String.eqb k0 k) eqn:E; simpl; rewrite E; auto.
Qed.

Lemma dict_get_set_neq d k k' v :
  k <> k' -> dict_get (dict_set d k v) k' = dict_get d k'.
Proof.
  intros Hne. induction d as [|[k0 w] rest IH]; simpl.
  - apply String.eqb_neq in Hne. now rewrite Hne.
  - destruct (String.eqb k0 k) eqn:E; simpl.
    + apply String.eqb_eq in E. subst k0.
      apply String.eqb_neq in Hne. now rewrite Hne.
    + now rewrite IH.
Qed.

Lemma dict_keys_set_mem d k v :
  In k (dict_keys d) -> dict_keys (dict_set d k v) = dict_keys d.
Proof.
  induction d as [|[k0 w] rest IH]; simpl; intros Hin.
  - contradiction.
  - destruct (String.eqb k0 k) eqn:E; simpl.
    + reflexivity.
    + f_equal. apply IH. destruct Hin as [->|Hin]; [|exact Hin].
      rewrite String.eqb_refl in E. discriminate.
Qed.

Lemma dict_keys_set_new d k v :
  ~ In k (dict_keys d) -> dict_keys (dict_set d k v) = dict_keys d ++ [k].
Proof.
  induction d as [|[k0 w] rest IH]; simpl; intros Hnin.
  - reflexivity.
  - destruct (String.eqb k0 k) eqn:E; simpl.
    + apply String.eqb_eq in E. subst. exfalso. apply Hnin. now left.
    + f_equal. apply IH. intros Hin. apply Hnin. now right.
Qed.

Lemma dict_get_In d k v :
  NoDup (dict_keys d) -> In (k, v) d -> dict_get d k = Ok v.
Proof.
  induction d as [|[k0 w] rest IH]; simpl; intros Hnd Hin.
  - contradiction.
  - inversion Hnd as [|? ? Hnotin Hnd']; subst.
    destruct Hin as [Heq|Hin].
    + inversion Heq; subst. now rewrite String.eqb_refl.
    + destruct (String.eqb k0 k) eqn:E.
      * apply String.eqb_eq in E. subst k0. exfalso. apply Hnotin.
        change k with (fst (k, v)). now apply in_map.
      * now apply IH.
Qed.

Lemma dict_get_Ok_In d k v : dict_get d k = Ok v -> In (k, v) d.
Proof.
  induction d as [|[k0 w] rest IH]; simpl; intros H.
  - discriminate.
  - destruct (String.eqb k0 k) eqn:E.
    + apply String.eqb_eq in E. inversion H; subst. now left.
    + right. now apply IH.
Qed.

Lemma dict_get_mem d k :
  In k (dict_keys d) -> exists v, dict_get d k = Ok v.
Proof.
  induction d as [|[k0 w] rest IH]; simpl; intros Hin.
  - contradiction.
  - destruct (String.eqb k0 k) eqn:E.
    + now exists w.
    + apply IH. destruct Hin as [->|Hin]; [|exact Hin].
      rewrite String.eqb_refl in E. discriminate.
Qed.

Lemma dict_get_absent d k :
  ~ In k (dict_keys d) -> dict_get d k = Raise KeyError.
Proof.
  induction d as [|[k0 w] rest IH]; simpl; intros H; [reflexivity|].
  destruct (String.eqb k0 k) eqn:E.
  - apply String.eqb_eq in E. exfalso. apply H. now left.
  - apply IH. intros Hin. apply H. now right.
Qed.
End DictFacts.

Lemma init_cutoffs_from (ks : list string) (d : cutoffs_t) :
  NoDup ks -> (forall k, In k ks -> ~ In k (dict_keys d)) ->
  dict_keys (fold_left (fun d key => dict_set d key None) ks d)
  = dict_keys d ++ ks.
Proof.
  revert d. induction ks as [|k rest IH]; simpl; intros d Hnd Hdisj.
  - now rewrite app_nil_r.
  - inversion Hnd as [|? ? Hnotin Hnd']; subst.
    rewrite IH; [| exact Hnd' |].
    + rewrite dict_keys_set_new by (apply Hdisj; now left).
      now rewrite <- app_assoc.
    + intros k' Hin.
      rewrite dict_keys_set_new by (apply Hdisj; now left).
      intros Hin'. apply in_app_or in Hin' as [Hin'|[->|[]]].
      * apply (Hdisj k'); [now right | exact Hin'].
      * contradiction.
Qed.

Lemma init_cutoffs_keys (ks : list string) :
  NoDup ks -> dict_keys (init_cutoffs ks) = ks.
Proof.
  intros Hnd. unfold init_cutoffs.
  rewrite init_cutoffs_from; [reflexivity | exact Hnd | intros ? ? []].
Qed.

(** ** Comparisons *)

Lemma Qltb_lt (x y : Q) : Qltb x y = true <-> x < y.
Proof.
  unfold Qltb. rewrite Qlt_alt. destruct (x ?= y); split; congruence.
Qed.

Lemma Qltb_ge (x y : Q) : Qltb x y = false <-> y <= x.
Proof.
  rewrite <- not_true_iff_false, Qltb_lt. split.
  - apply Qnot_lt_le.
  - intros H1 H2. exact (Qlt_not_le _ _ H2 H1).
Qed.

Lemma Qltb_negb_le (x y : Q) : Qltb x y = negb (Qle_bool y x).
Proof.
  destruct (Qltb x y) eqn:E; symmetry.
  - apply negb_true_iff, not_true_iff_false. rewrite Qle_bool_iff.
    apply Qltb_lt in E. intros H. exact (Qlt_not_le _ _ E H).
  - apply negb_false_iff, Qle_bool_iff, Qltb_ge, E.
Qed.

Lemma rejects_passes (key : string) (v c : Q) :
  rejects key (Some v) (Some c) = negb (passes key (Some v) (Some c)).
Proof.
  unfold rejects, passes, cell_gtb, cell_geb, cell_ltb, cell_leb.
  destruct (is_cross_entropy key); now rewrite Qltb_negb_le.
Qed.

(** What the loop of [add_labels] tests: both the value and the cutoff
    are numbers, and the value lies strictly on the wrong side. *)
Lemma rejects_wrong_side (key : string) (v c : cell) :
  rejects key v c = true
  <-> exists x y : Q,
        v = Some x /\ c = Some y
        /\ if is_cross_entropy key then y < x else x < y.
Proof.
  unfold rejects, cell_gtb, cell_ltb. split.
  - destruct v as [x|], c as [y|];
      try (destruct (is_cross_entropy key); discriminate).
    intros H. exists x, y. split; [reflexivity|]. split; [reflexivity|].
    destruct (is_cross_entropy key); now apply Qltb_lt.
  - intros (x & y & -> & -> & H).
    destruct (is_cross_entropy key); now apply Qltb_lt.
Qed.

(** ** Frames *)

Lemma well_formed_NoDup (df : DataFrame) :
  well_formed df = true -> NoDup (keys df).
Proof.
  unfold well_formed. intros H. apply andb_prop in H as [H _].
  now apply distinct_NoDup.
Qed.

Lemma well_formed_length (df : DataFrame) (key : string) (col : Series) :
  well_formed df = true -> In (key, col) (cols df) ->
  List.length col = index_len df.
Proof.
  unfold well_formed. intros H Hin. apply andb_prop in H as [_ H].
  rewrite forallb_forall in H. specialize (H _ Hin). simpl in H.
  now apply Nat.eqb_eq.
Qed.

Lemma getitem_In (df : DataFrame) (key : string) (col : Series) :
  well_formed df = true -> In (key, col) (cols df) -> getitem df key = Ok col.
Proof.
  intros Hwf Hin. apply dict_get_In; [|exact Hin].
  now apply well_formed_NoDup.
Qed.

Lemma getitem_key (df : DataFrame) (key : string) :
  In key (keys df) -> exists col, getitem df key = Ok col /\ In (key, col) (cols df).
Proof.
  intros Hin. destruct (dict_get_mem (cols df) key Hin) as [col Hcol].
  exists col. split; [exact Hcol | now apply dict_get_Ok_In].
Qed.

Lemma complete_number (df : DataFrame) (key : string) (col : Series) (i : nat) :
  complete df = true -> In (key, col) (cols df) -> (i < List.length col)%nat ->
  exists v, nth_error col i = Some (Some v).
Proof.
  unfold complete. intros H Hin Hi. rewrite forallb_forall in H.
  specialize (H _ Hin). simpl in H. rewrite forallb_forall in H.
  destruct (nth_error col i) as [c|] eqn:E.
  - apply nth_error_In in E as Hc. specialize (H _ Hc).
    destruct c as [v|]; [now exists v | discriminate].
  - apply nth_error_None in E. lia.
Qed.

(** ** The cutoff labeler *)

Section Labeler.
Context {model : Type} {B : Backend model}.
Variable self : FilterClassifier.

Lemma set_cutoffs_loop_spec (discard : Q) (ks : list string) :
  forall cutoffs cutoffs' : cutoffs_t,
  set_cutoffs_loop self discard ks cutoffs = Ok cutoffs' ->
  (forall k, In k ks -> In k (dict_keys cutoffs)) ->
  dict_keys cutoffs' = dict_keys cutoffs
  /\ (forall key, In key ks ->
        exists col c,
          getitem (df_training_data self) key = Ok col
          /\ quantile col (cutoff_fraction key discard) = Ok c
          /\ dict_get cutoffs' key = Ok (Some c))
  /\ (forall key, ~ In key ks -> dict_get cutoffs' key = dict_get cutoffs key).
Proof.
  induction ks as [|k rest IH]; simpl; intros cutoffs cutoffs' Hrun Hsub.
  - inversion Hrun; subst.
    split; [reflexivity | split; [intros ? [] | reflexivity]].
  - destruct (getitem (df_training_data self) k) as [col|] eqn:Ecol;
      simpl in Hrun; [|discriminate].
    assert (Eq : (if is_cross_entropy k
                  then quantile col (1 - discard)
                  else quantile col discard)
                 = quantile col (cutoff_fraction k discard))
      by (unfold cutoff_fraction; now destruct (is_cross_entropy k)).
    rewrite Eq in Hrun. clear Eq.
    destruct (quantile col (cutoff_fraction k discard)) as [c|] eqn:Ec;
      simpl in Hrun; [|discriminate].
    assert (Hk : In k (dict_keys cutoffs)) by (apply Hsub; now left).
    apply IH in Hrun as (Hkeys & Hin & Hout).
    2:{ intros k' Hk'. rewrite dict_keys_set_mem by exact Hk.
        apply Hsub. now right. }
    rewrite dict_keys_set_mem in Hkeys by exact Hk.
    split; [exact Hkeys|]. split.
    + intros key [<-|Hkey]; [|now apply Hin].
      destruct (in_dec string_dec k rest) as [Hr|Hr]; [now apply Hin|].
      exists col, c. repeat split; try assumption.
      rewrite (Hout _ Hr). apply dict_get_set_eq.
    + intros key Hkey. rewrite Hout by (intros H; apply Hkey; now right).
      apply dict_get_set_neq. intros ->. apply Hkey. now left.
Qed.

Lemma label_row_spec (cutoffs : cutoffs_t) (i : nat) (ks : list string) :
  (forall key, In key ks ->
     exists col v c,
       getitem (training_data self) key = Ok col
       /\ nth_error col i = Some v
       /\ dict_get cutoffs key = Ok (Some c)) ->
  forall label,
  label_row self cutoffs i ks label
  = Ok (if existsb (fun key => rejects key (value_at (training_data self) key i)
                                        (cutoff_at cutoffs key)) ks
        then 0%Z else label).
Proof.
  induction ks as [|k rest IH]; simpl; intros Hks label; [reflexivity|].
  destruct (Hks k (or_introl eq_refl)) as (col & v & c & Ecol & Ev & Ec).
  assert (Hv : value_at (training_data self) k i = v)
    by (unfold value_at; rewrite Ecol; apply nth_error_nth; exact Ev).
  assert (Hc : cutoff_at cutoffs k = c)
    by (unfold cutoff_at; now rewrite Ec).
  rewrite Hv, Hc, Ecol. simpl.
  unfold series_get. rewrite Ev. simpl. rewrite Ec. simpl.
  unfold rejects at 1.
  destruct (is_cross_entropy k); simpl;
    (rewrite IH by (intros key Hkey; apply Hks; now right));
    match goal with |- context [if ?b then 0%Z else label] =>
      destruct b; simpl; [|reflexivity]
    end;
    now destruct (existsb _ rest).
Qed.

Lemma add_labels_loop_spec (cutoffs : cutoffs_t) (rows : list nat) :
  (forall i key, In i rows -> In key (dict_keys cutoffs) ->
     exists col v c,
       getitem (training_data self) key = Ok col
       /\ nth_error col i = Some v
       /\ dict_get cutoffs key = Ok (Some c)) ->
  forall labels,
  add_labels_loop self cutoffs rows labels
  = Ok (labels
        ++ map (fun i =>
                  if existsb (fun key => rejects key
                                           (value_at (training_data self) key i)
                                           (cutoff_at cutoffs key))
                             (dict_keys cutoffs)
                  then 0%Z else 1%Z) rows).
Proof.
  induction rows as [|i rest IH]; simpl; intros Hrows labels.
  - now rewrite app_nil_r.
  - rewrite label_row_spec by (intros key Hkey; apply Hrows; auto).
    simpl. rewrite IH by (intros j key Hj Hkey; apply Hrows; auto).
    now rewrite <- app_assoc.
Qed.
End Labeler.

Lemma nth_map_seq {A : Type} (f : nat -> A) (n i : nat) (d : A) :
  (i < n)%nat -> nth i (map f (seq 0 n)) d = f i.
Proof.
  intros Hi.
  rewrite (nth_indep _ d (f 0%nat)) by (now rewrite length_map, length_seq).
  rewrite map_nth, seq_nth by exact Hi. reflexivity.
Qed.

Lemma cutoffs_are_numbers_get (cutoffs : cutoffs_t) (key : string) (c : option cell) :
  cutoffs_are_numbers cutoffs = true -> dict_get cutoffs key = Ok c ->
  exists q, c = Some (Some q).
Proof.
  unfold cutoffs_are_numbers. intros H Hget. rewrite forallb_forall in H.
  specialize (H _ (dict_get_Ok_In _ _ _ Hget)). simpl in H.
  destruct c as [[q|]|]; try discriminate. now exists q.
Qed.

(** ** The sweep *)

Lemma same_tables_refl (s : FilterClassifier) : same_tables s s.
Proof. reflexivity. Qed.

Lemma same_tables_labels (s : FilterClassifier) (labels : list Z) :
  same_tables s (set_labels_train s labels).
Proof. reflexivity. Qed.

Lemma same_tables_fields (s s' : FilterClassifier) :
  same_tables s s' ->
  training_data s = training_data s'
  /\ df_training_data s = df_training_data s'
  /\ forall labels, set_labels_train s labels = set_labels_train s' labels.
Proof.
  unfold same_tables, set_labels_train. destruct s, s'; simpl.
  intros H. inversion H; subst. repeat split.
Qed.

Lemma dict_set_app {V : Type} (pre suf : dict V) (k : string) (w v : V) :
  ~ In k (dict_keys pre) ->
  dict_set (pre ++ (k, w) :: suf) k v = pre ++ (k, v) :: suf.
Proof.
  induction pre as [|[k0 w0] pre IH]; simpl; intros Hnin.
  - now rewrite String.eqb_refl.
  - destruct (String.eqb k0 k) eqn:E.
    + apply String.eqb_eq in E. exfalso. apply Hnin. now left.
    + f_equal. apply IH. intros H. apply Hnin. now right.
Qed.

Section SweepFacts.
Context {model : Type} {B : Backend model}.

Lemma quantile_fraction (key : string) (col : Series) (discard : Q) :
  (if is_cross_entropy key
   then quantile col (1 - discard)
   else quantile col discard)
  = quantile col (cutoff_fraction key discard).
Proof. unfold cutoff_fraction. now destruct (is_cross_entropy key). Qed.

Lemma set_cutoffs_loop_fresh (self : FilterClassifier) (discard : Q) :
  forall suf pre : cutoffs_t,
  NoDup (dict_keys (pre ++ suf)) ->
  set_cutoffs_loop self discard (dict_keys suf) (pre ++ suf)
  = (more <- fresh_cutoffs self discard (dict_keys suf) ;; Ok (pre ++ more)).
Proof.
  induction suf as [|[k w] suf IH]; simpl; intros pre Hnd; [reflexivity|].
  destruct (getitem (df_training_data self) k) as [col|e]; simpl; [|reflexivity].
  rewrite quantile_fraction.
  destruct (quantile col (cutoff_fraction k discard)) as [c|e]; simpl;
    [|reflexivity].
  assert (Hk : ~ In k (dict_keys pre)).
  { unfold dict_keys in Hnd. rewrite map_app in Hnd. simpl in Hnd.
    apply NoDup_remove_2 in Hnd. intros H. apply Hnd.
    apply in_or_app. now left. }
  rewrite dict_set_app by exact Hk.
  change (pre ++ (k, Some c) :: suf) with (pre ++ [(k, Some c)] ++ suf).
  rewrite app_assoc, IH.
  - destruct (fresh_cutoffs self discard (dict_keys suf)); simpl;
      [|reflexivity].
    now rewrite <- app_assoc.
  - unfold dict_keys in *. rewrite <- app_assoc.
    rewrite map_app in *. exact Hnd.
Qed.

Lemma set_cutoffs_fresh (self : FilterClassifier) (discard : Q)
    (cutoffs : cutoffs_t) :
  NoDup (dict_keys cutoffs) ->
  set_cutoffs self discard cutoffs
  = fresh_cutoffs self discard (dict_keys cutoffs).
Proof.
  intros Hnd. unfold set_cutoffs.
  pose proof (set_cutoffs_loop_fresh self discard cutoffs [] Hnd) as E.
  simpl in E. rewrite E.
  now destruct (fresh_cutoffs self discard (dict_keys cutoffs)).
Qed.

Lemma fresh_cutoffs_keys (self : FilterClassifier) (discard : Q) :
  forall ks cutoffs,
  fresh_cutoffs self discard ks = Ok cutoffs -> dict_keys cutoffs = ks.
Proof.
  induction ks as [|k ks IH]; simpl; intros cutoffs H.
  - now inversion H.
  - destruct (getitem (df_training_data self) k); simpl in H; [|discriminate].
    destruct (quantile _ _); simpl in H; [|discriminate].
    destruct (fresh_cutoffs self discard ks) as [more|]; simpl in H;
      [|discriminate].
    inversion H; subst. simpl. f_equal. now apply IH.
Qed.

Lemma fresh_cutoffs_same (s s' : FilterClassifier) (discard : Q) (ks : list string) :
  same_tables s s' -> fresh_cutoffs s discard ks = fresh_cutoffs s' discard ks.
Proof.
  intros H. apply same_tables_fields in H as (_ & Hdf & _).
  induction ks as [|k ks IH]; simpl; [reflexivity|].
  now rewrite Hdf, IH.
Qed.

Lemma label_row_same (s s' : FilterClassifier) (cutoffs : cutoffs_t) (i : nat) :
  same_tables s s' ->
  forall ks label, label_row s cutoffs i ks label = label_row s' cutoffs i ks label.
Proof.
  intros H. apply same_tables_fields in H as (Htd & _ & _).
  induction ks as [|k ks IH]; simpl; intros label; [reflexivity|].
  rewrite Htd. destruct (getitem (training_data s') k); simpl; [|reflexivity].
  destruct (series_get _ i); simpl; [|reflexivity].
  destruct (dict_get cutoffs k); simpl; [|reflexivity].
  destruct (if is_cross_entropy k then _ else _); simpl; [|reflexivity].
  apply IH.
Qed.

Lemma add_labels_same (s s' : FilterClassifier) (cutoffs : cutoffs_t) :
  same_tables s s' -> add_labels s cutoffs = add_labels s' cutoffs.
Proof.
  intros H. unfold add_labels.
  destruct (same_tables_fields s s' H) as (_ & Hdf & Hset).
  rewrite Hdf.
  assert (E : forall rows labels,
            add_labels_loop s cutoffs rows labels
            = add_labels_loop s' cutoffs rows labels).
  { induction rows as [|i rows IH]; simpl; intros labels; [reflexivity|].
    rewrite (label_row_same s s' cutoffs i H).
    destruct (label_row s' cutoffs i (dict_keys cutoffs) 1%Z); simpl;
      [apply IH | reflexivity]. }
  rewrite E. destruct (add_labels_loop s' cutoffs _ []); simpl;
    [now rewrite Hset | reflexivity].
Qed.

Lemma add_labels_same_tables (s s1 : FilterClassifier) (cutoffs : cutoffs_t) :
  add_labels s cutoffs = Ok s1 -> same_tables s s1.
Proof.
  unfold add_labels. destruct (add_labels_loop s cutoffs _ []); simpl;
    intros H; inversion H. apply same_tables_labels.
Qed.

Lemma dict_set_NoDup {V : Type} (d : dict V) (k : string) (v : V) :
  NoDup (dict_keys d) -> NoDup (dict_keys (dict_set d k v)).
Proof.
  intros Hnd. destruct (in_dec string_dec k (dict_keys d)) as [Hin|Hnin].
  - now rewrite dict_keys_set_mem.
  - rewrite dict_keys_set_new by exact Hnin.
    apply NoDup_app; [exact Hnd | repeat constructor; intros [] |].
    intros x Hx [<-|[]]. contradiction.
Qed.

Lemma init_cutoffs_NoDup (ks : list string) : NoDup (dict_keys (init_cutoffs ks)).
Proof.
  unfold init_cutoffs.
  assert (G : forall d : cutoffs_t, NoDup (dict_keys d) ->
            NoDup (dict_keys (fold_left (fun d key => dict_set d key None) ks d))).
  { induction ks as [|k ks IH]; simpl; intros d Hd; [exact Hd|].
    apply IH. now apply dict_set_NoDup. }
  apply G. constructor.
Qed.

(** A turn of the loop from any state the sweep reaches is the trial of its
    discard fraction: neither the cutoffs nor the labels of an earlier turn
    play a part. *)
Lemma sweep_step_trial (self : FilterClassifier) (criterion : string)
    (d : Q) (s : FilterClassifier) (cutoffs : cutoffs_t)
    (best : option (candidate model)) :
  same_tables self s ->
  NoDup (dict_keys cutoffs) ->
  dict_keys cutoffs = dict_keys (init_cutoffs (keys (df_training_data self))) ->
  match trial self criterion d with
  | Ok mv =>
      exists s1 c1,
        sweep_step criterion d (s, cutoffs, best)
        = Ok (s1, c1, retain criterion best (as_candidate d mv))
        /\ same_tables self s1
        /\ NoDup (dict_keys c1)
        /\ dict_keys c1 = dict_keys cutoffs
  | Raise e => sweep_step criterion d (s, cutoffs, best) = Raise e
  end.
Proof.
  intros Hs Hnd Hkeys. unfold trial, sweep_step.
  rewrite (set_cutoffs_fresh self) by apply init_cutoffs_NoDup.
  rewrite (set_cutoffs_fresh s) by exact Hnd.
  rewrite <- (fresh_cutoffs_same self s) by exact Hs.
  rewrite <- Hkeys.
  destruct (fresh_cutoffs self d (dict_keys cutoffs)) as [c1|e] eqn:Ec;
    simpl; [|reflexivity].
  rewrite <- (add_labels_same self s) by exact Hs.
  destruct (add_labels self c1) as [s1|e] eqn:Es; simpl; [|reflexivity].
  destruct (train_logreg s1) as [LR|e]; simpl; [|reflexivity].
  assert (Hc1 : dict_keys c1 = dict_keys cutoffs)
    by (now apply fresh_cutoffs_keys in Ec).
  assert (Hfin : forall v,
    exists s1' c1',
      Ok (s1, c1, retain criterion best (as_candidate d (LR, v)))
      = Ok (s1', c1', retain criterion best (as_candidate d (LR, v)))
      /\ same_tables self s1' /\ NoDup (dict_keys c1')
      /\ dict_keys c1' = dict_keys cutoffs).
  { intros v. exists s1, c1. repeat split.
    - now apply add_labels_same_tables in Es.
    - now rewrite Hc1.
    - exact Hc1. }
  unfold criterion_value, retain, improves, as_candidate, crit_of.
  destruct (String.eqb criterion "roc_auc") eqn:E1.
  { destruct (get_roc_auc s1 LR) as [v|e]; simpl; [|reflexivity].
    destruct (Hfin v) as (s1' & c1' & Heq & H1 & H2 & H3).
    exists s1', c1'. inversion Heq; subst s1' c1'.
    split; [|auto].
    destruct best as [b|]; simpl; [|reflexivity].
    now destruct (Qltb (snd (fst b)) v). }
  destruct (String.eqb criterion "AIC") eqn:E2.
  { destruct (get_aic s1 LR) as [v|e]; simpl; [|reflexivity].
    destruct (Hfin v) as (s1' & c1' & Heq & H1 & H2 & H3).
    exists s1', c1'. inversion Heq; subst s1' c1'.
    split; [|auto].
    destruct best as [b|]; simpl; [|reflexivity].
    now destruct (Qltb v (snd (fst b))). }
  destruct (String.eqb criterion "BIC") eqn:E3.
  { destruct (get_bic s1 LR) as [v|e]; simpl; [|reflexivity].
    destruct (Hfin v) as (s1' & c1' & Heq & H1 & H2 & H3).
    exists s1', c1'. inversion Heq; subst s1' c1'.
    split; [|auto].
    destruct best as [b|]; simpl; [|reflexivity].
    now destruct (Qltb v (snd (fst b))). }
  simpl. now destruct best.
Qed.
End SweepFacts.

Lemma fresh_cutoffs_total {model : Type} {B : Backend model}
    (self : FilterClassifier) (discard : Q) (ks : list string) :
  (forall key, In key ks ->
     exists col c,
       getitem (df_training_data self) key = Ok col
       /\ quantile col (cutoff_fraction key discard) = Ok c) ->
  exists cutoffs, fresh_cutoffs self discard ks = Ok cutoffs.
Proof.
  induction ks as [|k ks IH]; intros H; simpl.
  - now exists [].
  - destruct (H k (or_introl eq_refl)) as (col & c & -> & Hc).
    simpl. rewrite Hc. simpl.
    destruct IH as [more ->]; [intros key Hkey; apply H; now right|].
    simpl. now eexists.
Qed.

(** C1, amended (cutoffs and pseudo-labels).  For every training table
    and every discard fraction for which the quantiles are defined: the
    cutoff of a feature whose name contains [CrossEntropyFilter] is the
    [(1 - discard)]-quantile of its column and a value passes when it is at
    most the cutoff; the cutoff of any other feature is the
    [discard]-quantile and a value passes when it is at least the cutoff;
    [add_labels] gives one label per row, each 0 or 1, and the label of a
    row is 0 exactly when one of its entries is a number that lies
    strictly on the wrong side of a cutoff that is a number (above it for
    a cross-entropy feature, below it for any other), whatever the other
    entries are.  On a table without missing entries whose cutoffs are
    numbers this is the rule of the claim: the label is 1 when the row
    passes the rule of every feature and 0 otherwise. *)
Theorem cutoffs_and_labels {model : Type} {B : Backend model}
    (self : FilterClassifier) (discard : Q) :
  let df := df_training_data self in
  training_data self = df ->
  well_formed df = true ->
  (forall key col, In (key, col) (cols df) ->
     is_ok (quantile col (if is_cross_entropy key then 1 - discard else discard))
     = true) ->
  exists cutoffs,
    set_cutoffs self discard (init_cutoffs (keys df)) = Ok cutoffs
    /\ (forall key col, In (key, col) (cols df) ->
          exists c,
            quantile col (if is_cross_entropy key then 1 - discard else discard)
            = Ok c
            /\ dict_get cutoffs key = Ok (Some c))
    /\ (forall key (v c : Q),
          passes key (Some v) (Some c) = true
          <-> if is_cross_entropy key then v <= c else c <= v)
    /\ exists labels,
         add_labels self cutoffs = Ok (set_labels_train self labels)
         /\ List.length labels = index_len df
         /\ (forall i, (i < index_len df)%nat ->
               nth i labels 0%Z = 0%Z \/ nth i labels 0%Z = 1%Z)
         /\ (forall i, (i < index_len df)%nat ->
               nth i labels 0%Z = 0%Z
               <-> exists key (v c : Q),
                     In key (keys df)
                     /\ value_at df key i = Some v
                     /\ cutoff_at cutoffs key = Some c
                     /\ if is_cross_entropy key then c < v else v < c)
         /\ (complete df = true -> cutoffs_are_numbers cutoffs = true ->
             forall i, (i < index_len df)%nat ->
               nth i labels 0%Z = if row_passes df cutoffs i then 1%Z else 0%Z).
Proof.
  intros df Htd Hwf Hquantile.
  pose proof (well_formed_NoDup df Hwf) as Hnd.
  destruct (fresh_cutoffs_total self discard (keys df)) as [cutoffs Hset].
  { intros key Hkey. destruct (getitem_key df key Hkey) as (col & Ecol & Hcol).
    specialize (Hquantile key col Hcol).
    fold (cutoff_fraction key discard) in Hquantile.
    destruct (quantile col (cutoff_fraction key discard)) as [c|] eqn:Ec;
      [|discriminate].
    now exists col, c. }
  rewrite <- (init_cutoffs_keys (keys df) Hnd) in Hset at 1.
  rewrite <- set_cutoffs_fresh in Hset by apply init_cutoffs_NoDup.
  exists cutoffs. split; [exact Hset|].
  unfold set_cutoffs in Hset.
  assert (Hkeys0 : dict_keys (init_cutoffs (keys df)) = keys df)
    by now apply init_cutoffs_keys.
  rewrite Hkeys0 in Hset.
  apply set_cutoffs_loop_spec in Hset as (Hkeys & Hin & _);
    [| now rewrite Hkeys0].
  rewrite Hkeys0 in Hkeys. fold df in Hin.
  split; [|split].
  - intros key col Hcol.
    assert (Hkey : In key (keys df))
      by (change key with (fst (key, col)); now apply in_map).
    destruct (Hin key Hkey) as (col' & c & Ecol & Eq & Ec).
    rewrite (getitem_In df key col Hwf Hcol) in Ecol. inversion Ecol; subst col'.
    exists c. split; [exact Eq | exact Ec].
  - intros key v c. unfold passes, cell_geb, cell_leb.
    destruct (is_cross_entropy key); apply Qle_bool_iff.
  - assert (Hcells : forall i key, In i (seq 0 (index_len df)) ->
                       In key (dict_keys cutoffs) ->
              exists col v c,
                getitem (training_data self) key = Ok col
                /\ In (key, col) (cols df)
                /\ nth_error col i = Some v
                /\ dict_get cutoffs key = Ok (Some c)).
    { intros i key Hi Hkey. rewrite Hkeys in Hkey. rewrite Htd.
      destruct (getitem_key df key Hkey) as (col & Ecol & Hcol).
      apply in_seq in Hi.
      destruct (nth_error col i) as [v|] eqn:Ev.
      - destruct (Hin key Hkey) as (_ & c & _ & _ & Ec).
        exists col, v, c. repeat split; assumption.
      - apply nth_error_None in Ev.
        rewrite (well_formed_length df key col Hwf Hcol) in Ev. lia. }
    eexists. split; [|split; [|split; [|split]]].
    + unfold add_labels. fold df.
      rewrite add_labels_loop_spec.
      * simpl. reflexivity.
      * intros i key Hi Hkey.
        destruct (Hcells i key Hi Hkey) as (col & v & c & H1 & _ & H2 & H3).
        now exists col, v, c.
    + simpl. now rewrite length_map, length_seq.
    + intros i Hi. simpl. rewrite nth_map_seq by exact Hi.
      destruct (existsb _ (dict_keys cutoffs)); [now left | now right].
    + intros i Hi. simpl. rewrite nth_map_seq by exact Hi.
      rewrite Hkeys, Htd.
      destruct (existsb _ (keys df)) eqn:E.
      * split; [intros _ | reflexivity].
        apply existsb_exists in E as (key & Hkey & Hrej).
        apply rejects_wrong_side in Hrej as (v & c & Hv & Hc & Hside).
        now exists key, v, c.
      * split; [discriminate|].
        intros (key & v & c & Hkey & Hv & Hc & Hside). exfalso.
        apply not_true_iff_false in E. apply E.
        apply existsb_exists. exists key. split; [exact Hkey|].
        apply rejects_wrong_side. now exists v, c.
    + intros Hcomplete Hnum i Hi. simpl.
      rewrite nth_map_seq by exact Hi.
      rewrite Hkeys. unfold row_passes.
      assert (E : forall key, In key (keys df) ->
                rejects key (value_at (training_data self) key i)
                        (cutoff_at cutoffs key)
                = negb (passes key (value_at df key i) (cutoff_at cutoffs key))).
      { intros key Hkey.
        destruct (Hcells i key) as (col & v & c & H1 & Hcol & H2 & H3).
        - apply in_seq. lia.
        - now rewrite Hkeys.
        - destruct (complete_number df key col i Hcomplete Hcol) as [x Hx].
          { apply nth_error_Some. congruence. }
          destruct (cutoffs_are_numbers_get cutoffs key _ Hnum H3) as [q Hq].
          rewrite Hx in H2. inversion H2; subst v. inversion Hq; subst c.
          rewrite <- Htd. unfold value_at, cutoff_at. rewrite H1, H3.
          cbn iota. erewrite nth_error_nth by exact Hx. apply rejects_passes. }
      clear - E. induction (keys df) as [|k rest IH]; simpl; [reflexivity|].
      rewrite E by now left.
      destruct (passes k _ _); simpl; [|reflexivity].
      apply IH. intros key Hkey. apply E. now right.
Qed.

(** C1 on the demonstration run, at discard fraction 0.2: a table
    without missing entries, where both forms of the label rule hold. *)
Lemma cutoffs_and_labels_witness :
  exists cutoffs labels,
    set_cutoffs (B := Toy.backend) Demo.self (2 # 10)
      (init_cutoffs (keys (df_training_data Demo.self))) = Ok cutoffs
    /\ add_labels Demo.self cutoffs = Ok (set_labels_train Demo.self labels)
    /\ List.length labels = 5%nat
    /\ (forall i, (i < 5)%nat ->
          nth i labels 0%Z = 0%Z
          <-> exists key (v c : Q),
                In key (keys (df_training_data Demo.self))
                /\ value_at (df_training_data Demo.self) key i = Some v
                /\ cutoff_at cutoffs key = Some c
                /\ if is_cross_entropy key then c < v else v < c)
    /\ (forall i, (i < 5)%nat ->
          nth i labels 0%Z
          = if row_passes (df_training_data Demo.self) cutoffs i
            then 1%Z else 0%Z).
Proof.
  destruct (cutoffs_and_labels (B := Toy.backend) Demo.self (2 # 10))
    as (cutoffs & Hset & _ & _ & labels & Hadd & Hlen & _ & Hrule & Hpass).
  - reflexivity.
  - reflexivity.
  - intros key col [H|[H|[]]]; inversion H; vm_compute; reflexivity.
  - assert (E : set_cutoffs (B := Toy.backend) Demo.self (2 # 10)
                  (init_cutoffs (keys (df_training_data Demo.self)))
                = Ok Demo.cutoffs) by (vm_compute; reflexivity).
    rewrite E in Hset. injection Hset as <-.
    exists Demo.cutoffs, labels.
    split; [exact E|]. split; [exact Hadd|]. split; [exact Hlen|].
    split; [exact Hrule|]. apply Hpass; reflexivity.
Defined.

(** C1 as stated fails on a table with missing entries.  On the table of
    the file whose two rows name different features, at discard fraction
    0.5, the cutoffs are numbers and neither row passes the rule of every
    feature, since each lacks an entry; both rows are labelled 1. *)
Lemma missing_entry_keeps_label_1 :
  exists cutoffs labels,
    set_cutoffs (B := Toy.backend) Cases.ragged_self (1 # 2)
      (init_cutoffs (keys (df_training_data Cases.ragged_self))) = Ok cutoffs
    /\ cutoffs_are_numbers cutoffs = true
    /\ add_labels Cases.ragged_self cutoffs
       = Ok (set_labels_train Cases.ragged_self labels)
    /\ labels = [1; 1]%Z
    /\ row_passes (df_training_data Cases.ragged_self) cutoffs 0 = false
    /\ row_passes (df_training_data Cases.ragged_self) cutoffs 1 = false.
Proof.
  eexists. eexists. split; [vm_compute; reflexivity|].
  split; [vm_compute; reflexivity|].
  split; [vm_compute; reflexivity|].
  split; [reflexivity|]. split; vm_compute; reflexivity.
Qed.

(** ** Keeping the first best candidate *)

Lemma improves_rank (criterion : string) (v b : Q) :
  improves criterion v b = true <-> rank criterion b < rank criterion v.
Proof.
  unfold improves, rank. destruct (String.eqb criterion "roc_auc");
    rewrite Qltb_lt; [reflexivity|]. split; intros H; lra.
Qed.

Lemma improves_rank_false (criterion : string) (v b : Q) :
  improves criterion v b = false <-> rank criterion v <= rank criterion b.
Proof.
  unfold improves, rank. destruct (String.eqb criterion "roc_auc");
    rewrite Qltb_ge; [reflexivity|]. split; intros H; lra.
Qed.

Lemma as_good_rank (criterion : string) (v w : Q) :
  as_good criterion v w <-> rank criterion w <= rank criterion v.
Proof.
  unfold as_good, rank. destruct (String.eqb criterion "roc_auc");
    [reflexivity|]. split; intros H; lra.
Qed.

Lemma better_rank (criterion : string) (v w : Q) :
  better criterion v w <-> rank criterion w < rank criterion v.
Proof.
  unfold better, rank. destruct (String.eqb criterion "roc_auc");
    [reflexivity|]. split; intros H; lra.
Qed.

Section FirstBest.
Context {model : Type}.
Variable criterion : string.

Lemma first_best_step (seen : list (candidate model)) (b c : candidate model)
    (i : nat) :
  first_best criterion seen b i ->
  exists r k, retain criterion (Some b) c = Some r
              /\ first_best criterion (seen ++ [c]) r k.
Proof.
  intros (Hb & Hall & Hbefore). unfold retain.
  assert (Hi : (i < List.length seen)%nat)
    by (apply nth_error_Some; congruence).
  destruct (improves criterion (crit_of c) (crit_of b)) eqn:E.
  - apply improves_rank in E.
    exists c, (List.length seen). split; [reflexivity|]. repeat split.
    + rewrite nth_error_app2 by lia. now rewrite Nat.sub_diag.
    + intros j x Hx.
      destruct (Nat.lt_ge_cases j (List.length seen)) as [Hj|Hj].
      * rewrite nth_error_app1 in Hx by exact Hj.
        specialize (Hall _ _ Hx). lra.
      * rewrite nth_error_app2 in Hx by exact Hj.
        destruct (j - List.length seen)%nat as [|n]; simpl in Hx.
        -- inversion Hx; subst. lra.
        -- now destruct n.
    + intros j x Hj Hx. rewrite nth_error_app1 in Hx by exact Hj.
      specialize (Hall _ _ Hx). lra.
  - apply improves_rank_false in E.
    exists b, i. split; [reflexivity|]. repeat split.
    + now rewrite nth_error_app1.
    + intros j x Hx.
      destruct (Nat.lt_ge_cases j (List.length seen)) as [Hj|Hj].
      * rewrite nth_error_app1 in Hx by exact Hj. now apply (Hall j).
      * rewrite nth_error_app2 in Hx by exact Hj.
        destruct (j - List.length seen)%nat as [|n]; simpl in Hx.
        -- inversion Hx; subst. exact E.
        -- now destruct n.
    + intros j x Hj Hx. rewrite nth_error_app1 in Hx by lia.
      now apply (Hbefore j).
Qed.

Lemma first_best_fold (cs : list (candidate model)) :
  forall seen b i,
  first_best criterion seen b i ->
  exists r k, fold_left (retain criterion) cs (Some b) = Some r
              /\ first_best criterion (seen ++ cs) r k.
Proof.
  induction cs as [|c cs IH]; intros seen b i Hb.
  - exists b, i. rewrite app_nil_r. now split.
  - destruct (first_best_step seen b c i Hb) as (r & k & Hr & Hk).
    cbn [fold_left]. rewrite Hr.
    destruct (IH _ _ _ Hk) as (r' & k' & Hr' & Hk').
    exists r', k'. split; [exact Hr'|].
    now rewrite <- app_assoc in Hk'.
Qed.

Lemma first_best_sweep (c : candidate model) (cs : list (candidate model)) :
  exists r k, fold_left (retain criterion) (c :: cs) None = Some r
              /\ first_best criterion (c :: cs) r k.
Proof.
  apply (first_best_fold cs [c] c 0%nat). repeat split.
  - intros [|[|j]] x Hx; simpl in Hx; inversion Hx; subst. lra.
  - intros j x Hj. lia.
Qed.
End FirstBest.

Section SelectorFacts.
Context {model : Type} {B : Backend model}.
Variable self : FilterClassifier.
Variable criterion : string.

Lemma reachable_init :
  reachable self self (init_cutoffs (keys (df_training_data self))).
Proof.
  repeat split. apply init_cutoffs_NoDup.
Qed.

(** When every trial succeeds, the sweep folds [retain] over the
    candidates. *)
Lemma sweep_trials :
  forall ds mvs s cutoffs best,
  reachable self s cutoffs ->
  Forall2 (fun d mv => trial self criterion d = Ok mv) ds mvs ->
  exists s1 c1,
    sweep criterion ds (s, cutoffs, best)
    = Ok (s1, c1, fold_left (retain criterion) (candidates ds mvs) best)
    /\ reachable self s1 c1.
Proof.
  induction ds as [|d ds IH]; intros mvs s cutoffs best Hr Hall.
  - inversion Hall; subst. exists s, cutoffs. now split.
  - inversion Hall as [|? mv ? mvs' Hd Hrest]; subst.
    destruct Hr as (Hs & Hnd & Hkeys).
    pose proof (sweep_step_trial self criterion d s cutoffs best Hs Hnd Hkeys)
      as Hstep.
    rewrite Hd in Hstep. destruct Hstep as (s1 & c1 & Hstep & Hs1 & Hnd1 & Hk1).
    cbn [sweep]. rewrite Hstep. cbn [bind].
    apply IH; [|exact Hrest]. repeat split; try assumption. congruence.
Qed.

(** The trial that raises ends the sweep with its exception. *)
Lemma sweep_raise :
  forall pre mvs d post e s cutoffs best,
  reachable self s cutoffs ->
  Forall2 (fun d mv => trial self criterion d = Ok mv) pre mvs ->
  trial self criterion d = Raise e ->
  sweep criterion (pre ++ d :: post) (s, cutoffs, best) = Raise e.
Proof.
  induction pre as [|d0 pre IH]; intros mvs d post e s cutoffs best Hr Hall Hd.
  - destruct Hr as (Hs & Hnd & Hkeys).
    pose proof (sweep_step_trial self criterion d s cutoffs best Hs Hnd Hkeys)
      as Hstep.
    rewrite Hd in Hstep. cbn [app sweep]. now rewrite Hstep.
  - inversion Hall as [|? mv ? mvs' Hd0 Hrest]; subst.
    destruct Hr as (Hs & Hnd & Hkeys).
    pose proof (sweep_step_trial self criterion d0 s cutoffs best Hs Hnd Hkeys)
      as Hstep.
    rewrite Hd0 in Hstep. destruct Hstep as (s1 & c1 & Hstep & Hs1 & Hnd1 & Hk1).
    cbn [app sweep]. rewrite Hstep. cbn [bind].
    apply (IH mvs'); try assumption. repeat split; try assumption. congruence.
Qed.
End SelectorFacts.

Lemma nth_error_candidates {model : Type} (ds : list Q) :
  forall (mvs : list (model * Q)) (j : nat),
  nth_error (candidates ds mvs) j
  = match nth_error ds j, nth_error mvs j with
    | Some d, Some mv => Some (as_candidate d mv)
    | _, _ => None
    end.
Proof.
  unfold candidates.
  induction ds as [|d ds IH]; intros [|mv mvs] [|j]; simpl; try reflexivity.
  - now destruct (nth_error ds j).
  - apply IH.
Qed.

(** C2 (the selector keeps the first best candidate).  For a sweep that is
    not empty and whose trials all succeed, [find_best_model] returns the
    model, criterion value and discard fraction of one sweep position; no
    position has a better value (larger for [roc_auc], smaller for [AIC]
    and [BIC]), and every earlier position has a strictly worse one, so
    that among equal values the earliest position is kept. *)
Theorem find_best_model_first_best {model : Type} {B : Backend model}
    (self : FilterClassifier) (criterion : string) (mvs : list (model * Q)) :
  discard_thresholds self <> [] ->
  Forall2 (fun d mv => trial self criterion d = Ok mv)
          (discard_thresholds self) mvs ->
  exists i m v d self',
    find_best_model self criterion = Ok ((m, v, d), self')
    /\ nth_error (discard_thresholds self) i = Some d
    /\ nth_error mvs i = Some (m, v)
    /\ (forall j mw, nth_error mvs j = Some mw ->
          as_good criterion v (snd mw))
    /\ (forall j mw, (j < i)%nat -> nth_error mvs j = Some mw ->
          better criterion v (snd mw)).
Proof.
  intros Hne Hall.
  destruct (sweep_trials self criterion _ _ self _ None
              (reachable_init self) Hall) as (s1 & c1 & Hsweep & _).
  assert (Hlen : List.length (discard_thresholds self) = List.length mvs)
    by (eapply Forall2_length; exact Hall).
  unfold find_best_model. rewrite Hsweep. cbn [bind].
  destruct (discard_thresholds self) as [|d0 ds] eqn:Eds; [contradiction|].
  destruct mvs as [|mv0 mvs]; [discriminate|].
  destruct (first_best_sweep criterion (as_candidate d0 mv0) (candidates ds mvs))
    as (r & k & Hr & Hk & Hall' & Hbefore).
  change (candidates (d0 :: ds) (mv0 :: mvs))
    with (as_candidate d0 mv0 :: candidates ds mvs).
  rewrite Hr.
  change (as_candidate d0 mv0 :: candidates ds mvs)
    with (candidates (d0 :: ds) (mv0 :: mvs)) in *.
  rewrite nth_error_candidates in Hk.
  destruct (nth_error (d0 :: ds) k) as [d|] eqn:Ed; [|discriminate].
  destruct (nth_error (mv0 :: mvs) k) as [[m v]|] eqn:Emv; [|discriminate].
  inversion Hk; subst r. clear Hk.
  exists k, m, v, d, s1. unfold as_candidate. simpl fst. simpl snd.
  split; [reflexivity|]. split; [exact Ed|]. split; [exact Emv|].
  assert (Hcand : forall j mw, nth_error (mv0 :: mvs) j = Some mw ->
            exists dj, nth_error (candidates (d0 :: ds) (mv0 :: mvs)) j
                       = Some (as_candidate dj mw)).
  { intros j mw Hj. rewrite nth_error_candidates, Hj.
    destruct (nth_error (d0 :: ds) j) as [dj|] eqn:Edj; [now exists dj|].
    apply nth_error_None in Edj.
    assert (j < List.length (mv0 :: mvs))%nat
      by (apply nth_error_Some; congruence).
    lia. }
  split.
  - intros j mw Hj. destruct (Hcand j mw Hj) as [dj Hdj].
    apply as_good_rank. exact (Hall' _ _ Hdj).
  - intros j mw Hlt Hj. destruct (Hcand j mw Hj) as [dj Hdj].
    apply better_rank. exact (Hbefore _ _ Hlt Hdj).
Qed.

(** C2 on the demonstration run, under the criterion AIC. *)
Lemma find_best_model_first_best_witness :
  exists i m v d self',
    find_best_model (B := Toy.backend) Demo.self "AIC" = Ok ((m, v, d), self')
    /\ nth_error (discard_thresholds Demo.self) i = Some d
    /\ nth_error Demo.trials_aic i = Some (m, v).
Proof.
  destruct (find_best_model_first_best (B := Toy.backend) Demo.self "AIC"
              Demo.trials_aic)
    as (i & m & v & d & self' & H1 & H2 & H3 & _).
  - discriminate.
  - repeat constructor.
  - exists i, m, v, d, self'. repeat split; assumption.
Defined.

(** C6 (an empty sweep).  With no discard fraction to try,
    [find_best_model] has no candidate to return: reading the discard
    fraction of the best candidate raises [TypeError]. *)
Theorem find_best_model_empty_sweep {model : Type} {B : Backend model}
    (self : FilterClassifier) (criterion : string) :
  discard_thresholds self = [] ->
  find_best_model self criterion = Raise TypeError.
Proof.
  intros H. unfold find_best_model. now rewrite H.
Qed.

(** C6 on a classifier whose sweep is empty. *)
Lemma find_best_model_empty_sweep_witness :
  find_best_model (B := Toy.backend) Demo.empty_self "AIC" = Raise TypeError.
Proof.
  apply find_best_model_empty_sweep. reflexivity.
Defined.

(** ** The information criteria *)

Lemma py_sum_from (l : list Z) (a : Z) :
  fold_left Z.add l a = (a + fold_left Z.add l 0)%Z.
Proof.
  revert a. induction l as [|x l IH]; simpl; intros a; [lia|].
  rewrite (IH (a + x)%Z), (IH x). lia.
Qed.

Lemma py_sum_squares (labels : list Z) :
  forall y_hat, List.length labels = List.length y_hat ->
  py_sum (map (fun r => r ^ 2)%Z
              (map (fun p => (fst p - snd p)%Z) (combine labels y_hat)))
  = sum_squared_residuals labels y_hat.
Proof.
  unfold py_sum.
  induction labels as [|y labels IH]; intros [|p y_hat] Hlen;
    try discriminate; [reflexivity|].
  cbn [combine map fold_left fst snd sum_squared_residuals].
  rewrite py_sum_from, IH by (simpl in Hlen; lia).
  rewrite Z.pow_2_r. ring.
Qed.

Lemma sum_squared_residuals_nonneg (labels : list Z) :
  forall y_hat, (0 <= sum_squared_residuals labels y_hat)%Z.
Proof.
  induction labels as [|y labels IH]; intros [|p y_hat]; simpl; try lia.
  specialize (IH y_hat). pose proof (Z.square_nonneg (y - p)). lia.
Qed.

Lemma array_sub_same_length (a b : list Z) :
  List.length a = List.length b ->
  array_sub a b = Ok (map (fun p => (fst p - snd p)%Z) (combine a b)).
Proof.
  intros H. unfold array_sub. apply Nat.eqb_eq in H. now rewrite H.
Qed.

Lemma inject_Z_pos (n : nat) :
  (0 < n)%nat -> Qltb 0 (inject_Z (Z.of_nat n)) = true.
Proof.
  intros H. apply Qltb_lt. change 0 with (inject_Z 0).
  rewrite <- Zlt_Qlt. lia.
Qed.

Section Criteria.
Context {model : Type} {B : Backend model}.

Lemma math_log_rows (df : DataFrame) :
  (0 < index_len df)%nat ->
  math_log (inject_Z (Z.of_nat (fst (shape df))))
  = Ok (ln (inject_Z (Z.of_nat (fst (shape df))))).
Proof.
  intros Hn. unfold math_log, shape. cbn [fst].
  now rewrite inject_Z_pos by exact Hn.
Qed.

(** C3 (AIC and BIC).  For a model that predicts one class per label of
    the training table of [n] rows and [k] columns: [get_sse] returns the sum
    of the squared residuals plus 0.01, which is at least 0.01, so that its
    logarithm is defined; [get_aic] returns [2*k - 2*ln(SSE)] and, the
    table having a row, [get_bic] returns [ln(n)*k - 2*ln(SSE)]. *)
Theorem information_criteria (self : FilterClassifier) (m : model)
    (labels y_hat : list Z) :
  let k := inject_Z (Z.of_nat (List.length (cols (df_training_data self)))) in
  let n := inject_Z (Z.of_nat (index_len (df_training_data self))) in
  let sse := inject_Z (sum_squared_residuals labels y_hat) + (1 # 100) in
  labels_train self = Some labels ->
  predict m (df_training_data self) = Ok y_hat ->
  List.length labels = List.length y_hat ->
  get_sse self m = Ok sse
  /\ 1 # 100 <= sse
  /\ math_log sse = Ok (ln sse)
  /\ (exists aic, get_aic self m = Ok aic /\ aic == 2 * k - 2 * ln sse)
  /\ ((0 < index_len (df_training_data self))%nat ->
      exists bic, get_bic self m = Ok bic /\ bic == ln n * k - 2 * ln sse).
Proof.
  intros k n sse Hlabels Hpred Hlen.
  assert (Hsse : get_sse self m = Ok sse).
  { unfold get_sse. rewrite Hpred, Hlabels. simpl.
    rewrite array_sub_same_length by exact Hlen. simpl.
    now rewrite py_sum_squares. }
  assert (Hge : 1 # 100 <= sse).
  { unfold sse.
    pose proof (sum_squared_residuals_nonneg labels y_hat) as H.
    rewrite Zle_Qle in H. change (inject_Z 0) with 0 in H. lra. }
  assert (Hlog : math_log sse = Ok (ln sse)).
  { unfold math_log.
    replace (Qltb 0 sse) with true; [reflexivity|].
    symmetry. apply Qltb_lt. lra. }
  repeat split; try assumption.
  - eexists. split.
    + unfold get_aic. rewrite Hsse. cbn [bind]. rewrite Hlog. cbn [bind].
      reflexivity.
    + unfold k, shape. cbn [snd]. rewrite inject_Z_mult. reflexivity.
  - intros Hn. eexists. split.
    + unfold get_bic. rewrite Hsse. cbn [bind].
      rewrite math_log_rows by exact Hn.
      cbn [bind]. rewrite Hlog. cbn [bind]. reflexivity.
    + reflexivity.
Qed.

(** On a table without rows the logarithm of [n] is not defined. *)
Lemma get_bic_no_rows (self : FilterClassifier) (m : model) (sse : Q) :
  index_len (df_training_data self) = 0%nat ->
  get_sse self m = Ok sse ->
  get_bic self m = Raise ValueError.
Proof.
  intros Hn Hsse. unfold get_bic. rewrite Hsse. cbn [bind].
  unfold shape. cbn [fst]. now rewrite Hn.
Qed.

(** BIC is AIC plus [k * (ln(n) - 2)], and raises what AIC raises. *)
Lemma get_bic_get_aic (s : FilterClassifier) (m : model) :
  (0 < index_len (df_training_data s))%nat ->
  match get_aic s m, get_bic s m with
  | Ok aic, Ok bic => bic == aic + bic_offset (df_training_data s)
  | Raise e, Raise e' => e = e'
  | _, _ => False
  end.
Proof.
  intros Hn. unfold get_aic, get_bic, bic_offset.
  destruct (get_sse s m) as [sse|e]; cbn [bind]; [|reflexivity].
  rewrite math_log_rows by exact Hn. cbn [bind].
  destruct (math_log sse) as [l|e]; cbn [bind]; [|reflexivity].
  unfold shape. cbn [fst snd]. rewrite inject_Z_mult. ring.
Qed.
End Criteria.

(** C3 on the demonstration run: the model fitted at discard fraction
    0.2. *)
Lemma information_criteria_witness :
  exists aic bic,
    get_aic (B := Toy.backend) Demo.labelled_self Demo.fitted = Ok aic
    /\ get_bic (B := Toy.backend) Demo.labelled_self Demo.fitted = Ok bic.
Proof.
  destruct (information_criteria (B := Toy.backend) Demo.labelled_self
              Demo.fitted [0; 1; 1; 1; 1]%Z Demo.predictions
              eq_refl eq_refl eq_refl)
    as (_ & _ & _ & (aic & Haic & _) & Hbic).
  destruct Hbic as (bic & Hbic & _); [vm_compute; lia|].
  exists aic, bic. split; assumption.
Defined.

(** ** AIC against BIC *)

Lemma Qltb_shift (v w v' w' c : Q) :
  v' == v + c -> w' == w + c -> Qltb v' w' = Qltb v w.
Proof.
  intros Hv Hw.
  destruct (Qltb v w) eqn:E.
  - apply Qltb_lt in E. apply Qltb_lt. lra.
  - apply Qltb_ge in E. apply Qltb_ge. lra.
Qed.

Section AicBic.
Context {model : Type} {B : Backend model}.
Variable self : FilterClassifier.
Hypothesis rows : (0 < index_len (df_training_data self))%nat.

Lemma retain_shifted (a b : option (candidate model)) (x y : candidate model) :
  shifted_best (bic_offset (df_training_data self)) a b ->
  shifted (bic_offset (df_training_data self)) x y ->
  shifted_best (bic_offset (df_training_data self))
               (retain "AIC" a x) (retain "BIC" b y).
Proof.
  intros Hab Hxy. destruct a as [a|], b as [b|]; simpl in Hab; try contradiction.
  - unfold retain, improves. cbn [String.eqb Ascii.eqb Bool.eqb].
    destruct Hab as (Ha1 & Ha2 & Hab'). destruct Hxy as (Hx1 & Hx2 & Hx3).
    rewrite (Qltb_shift (crit_of x) (crit_of a) _ _ _ Hx3 Hab').
    destruct (Qltb (crit_of x) (crit_of a)); simpl;
      repeat split; assumption.
  - exact Hxy.
Qed.

Lemma trial_bic_aic (d : Q) :
  match trial self "AIC" d, trial self "BIC" d with
  | Ok (m, a), Ok (m', b) =>
      m = m' /\ b == a + bic_offset (df_training_data self)
  | Raise e, Raise e' => e = e'
  | _, _ => False
  end.
Proof.
  unfold trial.
  destruct (set_cutoffs self d _) as [c1|e]; cbn [bind]; [|reflexivity].
  destruct (add_labels self c1) as [s1|e] eqn:Es; cbn [bind]; [|reflexivity].
  destruct (train_logreg s1) as [LR|e]; cbn [bind]; [|reflexivity].
  apply add_labels_same_tables in Es.
  apply same_tables_fields in Es as (_ & Hdf & _).
  pose proof (get_bic_get_aic s1 LR) as H. rewrite <- Hdf in H.
  specialize (H rows).
  unfold criterion_value. cbn [String.eqb Ascii.eqb Bool.eqb].
  destruct (get_aic s1 LR) as [a|e], (get_bic s1 LR) as [b|e'];
    cbn [bind]; try contradiction; [now split | exact H].
Qed.

Lemma sweep_shifted :
  forall ds s c best s' c' best',
  reachable self s c -> reachable self s' c' ->
  shifted_best (bic_offset (df_training_data self)) best best' ->
  match sweep "AIC" ds (s, c, best), sweep "BIC" ds (s', c', best') with
  | Ok (_, _, b), Ok (_, _, b') =>
      shifted_best (bic_offset (df_training_data self)) b b'
  | Raise e, Raise e' => e = e'
  | _, _ => False
  end.
Proof.
  induction ds as [|d ds IH]; intros s c best s' c' best' Hr Hr' Hb;
    [exact Hb|].
  cbn [sweep].
  destruct Hr as (Hs & Hnd & Hkeys), Hr' as (Hs' & Hnd' & Hkeys').
  pose proof (sweep_step_trial self "AIC" d s c best Hs Hnd Hkeys) as Ha.
  pose proof (sweep_step_trial self "BIC" d s' c' best' Hs' Hnd' Hkeys') as Hb'.
  pose proof (trial_bic_aic d) as Ht.
  destruct (trial self "AIC" d) as [[m a]|e], (trial self "BIC" d) as [[m' b]|e'];
    try contradiction.
  - destruct Ha as (s1 & c1 & Ha & H1 & H2 & H3).
    destruct Hb' as (s1' & c1' & Hb' & H1' & H2' & H3').
    rewrite Ha, Hb'. cbn [bind]. apply IH.
    + repeat split; try assumption. congruence.
    + repeat split; try assumption. congruence.
    + apply retain_shifted; [exact Hb|].
      destruct Ht as [-> Ht]. repeat split. exact Ht.
  - rewrite Ha, Hb'. exact Ht.
Qed.

(** C10 (BIC against AIC).  On a training table of [n >= 1] rows and [k]
    columns the BIC of a model is its AIC plus [k * (ln(n) - 2)], a
    quantity the model plays no part in; hence [find_best_model] under
    [AIC] and under [BIC] return the same model and the same discard
    fraction, with criterion values that differ by that quantity, or
    raise the same exception. *)
Theorem bic_selects_as_aic :
  (forall s m, same_tables self s ->
     match get_aic s m, get_bic s m with
     | Ok aic, Ok bic => bic == aic + bic_offset (df_training_data self)
     | Raise e, Raise e' => e = e'
     | _, _ => False
     end)
  /\ match find_best_model self "AIC", find_best_model self "BIC" with
     | Ok ((m, aic, d), _), Ok ((m', bic, d'), _) =>
         m = m' /\ d = d' /\ bic == aic + bic_offset (df_training_data self)
     | Raise e, Raise e' => e = e'
     | _, _ => False
     end.
Proof.
  split.
  - intros s m Hs. apply same_tables_fields in Hs as (_ & Hdf & _).
    rewrite Hdf. apply get_bic_get_aic. now rewrite <- Hdf.
  - unfold find_best_model.
    pose proof (sweep_shifted (discard_thresholds self)
                  self _ None self _ None
                  (reachable_init self) (reachable_init self) I) as H.
    destruct (sweep "AIC" _ _) as [[[s1 c1] b]|e],
             (sweep "BIC" _ _) as [[[s1' c1'] b']|e'];
      cbn [bind]; try contradiction; [|exact H].
    destruct b as [[[m a] d]|], b' as [[[m' a'] d']|]; simpl in H;
      try contradiction; [|reflexivity].
    destruct H as (H1 & H2 & H3). simpl in *. auto.
Qed.
End AicBic.

(** C10 on the demonstration run. *)
Lemma bic_selects_as_aic_witness :
  match find_best_model (B := Toy.backend) Demo.self "AIC",
        find_best_model (B := Toy.backend) Demo.self "BIC" with
  | Ok ((m, aic, d), _), Ok ((m', bic, d'), _) =>
      m = m' /\ d = d'
      /\ bic == aic + bic_offset (B := Toy.backend) (df_training_data Demo.self)
  | Raise e, Raise e' => e = e'
  | _, _ => False
  end.
Proof.
  apply (bic_selects_as_aic (B := Toy.backend) Demo.self).
  vm_compute. lia.
Defined.

(** ** Labels of a single class *)

Lemma toy_select_other (a label : Z) (x : list (list cell)) :
  forall y, forallb (Z.eqb a) y = true -> a <> label ->
  Toy.select label x y = [].
Proof.
  unfold Toy.select. revert x.
  assert (G : forall (y : list Z) (x : list (list cell)),
            forallb (Z.eqb a) y = true -> a <> label ->
            filter (fun p : list cell * Z => Z.eqb (snd p) label) (combine x y) = []).
  { induction y as [|b y IH]; intros [|r x] Hall Hne; simpl; try reflexivity.
    simpl in Hall. apply andb_prop in Hall as [Hb Hall].
    apply Z.eqb_eq in Hb. subst b.
    apply Z.eqb_neq in Hne. rewrite Hne. now apply IH; [|apply Z.eqb_neq]. }
  intros x y Hall Hne. now rewrite G.
Qed.

Lemma toy_refuses_single_class : refuses_single_class Toy.backend.
Proof.
  intros x y Hy. simpl. unfold Toy.fit.
  destruct (negb (Nat.eqb (List.length x) (List.length y))); [reflexivity|].
  destruct y as [|a y]; simpl in Hy.
  - unfold Toy.select. destruct x; reflexivity.
  - assert (Hall : forallb (Z.eqb a) (a :: y) = true)
      by (simpl; now rewrite Z.eqb_refl).
    destruct (Z.eq_dec a 0) as [->|Hne].
    + rewrite (toy_select_other 0 1 x (0%Z :: y) Hall) by discriminate.
      now destruct (Toy.select 0 x (0%Z :: y)).
    + now rewrite (toy_select_other a 0 x (a :: y) Hall Hne).
Qed.

(** C5 (a sweep step of a single class).  With a classifier library that
    refuses labels of a single class, as scikit-learn does: [train_logreg]
    raises on such labels, and when the labels of a sweep step are of a
    single class (the steps before it having succeeded) the exception
    leaves [find_best_model], which returns no candidate and no criterion
    value. *)
Theorem single_class_is_raised {model : Type} {B : Backend model}
    (self : FilterClassifier) (criterion : string)
    (pre post : list Q) (d : Q) (mvs : list (model * Q))
    (cutoffs : cutoffs_t) (s1 : FilterClassifier) (labels : list Z) :
  refuses_single_class B ->
  discard_thresholds self = pre ++ d :: post ->
  Forall2 (fun d mv => trial self criterion d = Ok mv) pre mvs ->
  set_cutoffs self d (init_cutoffs (keys (df_training_data self))) = Ok cutoffs ->
  add_labels self cutoffs = Ok s1 ->
  labels_train s1 = Some labels ->
  single_class labels = true ->
  train_logreg s1 = Raise ValueError
  /\ trial self criterion d = Raise ValueError
  /\ find_best_model self criterion = Raise ValueError.
Proof.
  intros Hfit Hds Hpre Hset Hadd Hlabels Hsingle.
  assert (Htrain : train_logreg s1 = Raise ValueError).
  { unfold train_logreg. rewrite Hlabels. simpl. now apply Hfit. }
  assert (Htrial : trial self criterion d = Raise ValueError).
  { unfold trial. rewrite Hset. cbn [bind]. rewrite Hadd. cbn [bind].
    now rewrite Htrain. }
  repeat split; try assumption.
  unfold find_best_model. rewrite Hds.
  rewrite (sweep_raise self criterion pre mvs d post ValueError self _ None
             (reachable_init self) Hpre Htrial).
  reflexivity.
Qed.

(** C5 on the demonstration table, swept at discard fraction 0. *)
Lemma single_class_is_raised_witness :
  find_best_model (B := Toy.backend) Demo.degenerate_self "AIC"
  = Raise ValueError.
Proof.
  refine (proj2 (proj2
    (single_class_is_raised (B := Toy.backend) Demo.degenerate_self "AIC"
       [] [] 0 [] _ _ [1; 1; 1; 1; 1]%Z
       toy_refuses_single_class eq_refl (Forall2_nil _) _ _ _ eq_refl))).
  - vm_compute. reflexivity.
  - vm_compute. reflexivity.
  - reflexivity.
Defined.

(** ** The discrimination score *)

Lemma py_max_bounds (a b : Q) :
  a <= py_max a b /\ b <= py_max a b /\ (py_max a b = a \/ py_max a b = b).
Proof.
  unfold py_max. destruct (Qltb a b) eqn:E.
  - apply Qltb_lt in E. repeat split; [lra | lra | now right].
  - apply Qltb_ge in E. repeat split; [lra | lra | now left].
Qed.

Lemma py_max_comm (a b : Q) : py_max a b == py_max b a.
Proof.
  unfold py_max. destruct (Qltb a b) eqn:E1, (Qltb b a) eqn:E2;
    try reflexivity.
  - apply Qltb_lt in E1, E2. lra.
  - apply Qltb_ge in E1, E2. lra.
Qed.

(** C8 (the discrimination score).  When the library calls on the held-out
    table return, [get_roc_auc] returns the larger of the area under the
    ROC curve of the class-0 probabilities and that of the class-1
    probabilities; with the two classes exchanged it returns the same
    number. *)
Theorem discrimination_score_symmetric {model : Type} {B : Backend model}
    (self : FilterClassifier) (m : model) (dev : DataFrame) (labels : Series)
    (pred : list Z) (probs : list (Q * Q)) (accuracy auc0 auc1 : Q) :
  dev_data self = Some dev ->
  dev_labels self = Some labels ->
  predict m dev = Ok pred ->
  predict_proba m dev = Ok probs ->
  score m dev labels = Ok accuracy ->
  roc_auc_score labels (map fst probs) = Ok auc0 ->
  roc_auc_score labels (map snd probs) = Ok auc1 ->
  exists r,
    get_roc_auc self m = Ok r
    /\ auc0 <= r /\ auc1 <= r /\ (r = auc0 \/ r = auc1)
    /\ exists r', get_roc_auc (B := swap_classes B) self m = Ok r' /\ r' == r.
Proof.
  intros Hdev Hlabels Hpred Hprobs Hscore H0 H1.
  exists (py_max auc0 auc1).
  destruct (py_max_bounds auc0 auc1) as (Hb0 & Hb1 & Hb).
  repeat split; try assumption.
  - unfold get_roc_auc.
    rewrite Hdev, Hlabels. cbn [attr bind].
    rewrite Hpred. cbn [bind]. rewrite Hprobs. cbn [bind].
    rewrite Hscore. cbn [bind]. rewrite H0. cbn [bind]. now rewrite H1.
  - exists (py_max auc1 auc0). split; [|apply py_max_comm].
    unfold get_roc_auc.
    rewrite Hdev, Hlabels. cbn [attr bind].
    cbn [swap_classes predict predict_proba score roc_auc_score].
    rewrite Hpred. cbn [bind]. rewrite Hprobs. cbn [bind].
    rewrite Hscore. cbn [bind].
    rewrite !map_map. cbn [fst snd].
    change (map (fun x : Q * Q => snd x) probs) with (map snd probs).
    change (map (fun x : Q * Q => fst x) probs) with (map fst probs).
    rewrite H1. cbn [bind]. now rewrite H0.
Qed.

(** C8 on the demonstration run: the model fitted at discard fraction 0.2,
    scored on the held-out table. *)
Lemma discrimination_score_symmetric_witness :
  exists r r',
    get_roc_auc (B := Toy.backend) Demo.self Demo.fitted = Ok r
    /\ get_roc_auc (B := swap_classes Toy.backend) Demo.self Demo.fitted = Ok r'
    /\ r' == r.
Proof.
  edestruct (discrimination_score_symmetric (B := Toy.backend)
               Demo.self Demo.fitted)
    as (r & Hr & _ & _ & _ & r' & Hr' & Heq);
    [reflexivity | reflexivity | reflexivity | reflexivity
     | vm_compute; reflexivity | vm_compute; reflexivity
     | vm_compute; reflexivity |].
  exists r, r'. repeat split; assumption.
Defined.

(** ** The loader *)

Lemma NoDup_distinct (l : list string) : NoDup l -> distinct l = true.
Proof.
  induction 1 as [|k l Hnin Hnd IH]; simpl; [reflexivity|].
  rewrite IH, andb_true_r. apply negb_true_iff, not_true_iff_false.
  intros H. apply existsb_exists in H as (k' & Hin & Heq).
  apply String.eqb_eq in Heq. now subst.
Qed.

Lemma add_name_NoDup (names : list string) (k : string) :
  NoDup names -> NoDup (add_name names k).
Proof.
  intros Hnd. unfold add_name.
  destruct (existsb (String.eqb k) names) eqn:E; [exact Hnd|].
  apply NoDup_app; [exact Hnd | repeat constructor; intros [] |].
  intros x Hx [<-|[]].
  assert (existsb (String.eqb k) names = true) as E'
    by (apply existsb_exists; exists k; split; [exact Hx | apply String.eqb_refl]).
  congruence.
Qed.

Lemma column_names_NoDup (data : list record) : NoDup (column_names data).
Proof.
  unfold column_names.
  assert (G : forall (ks : list string) names,
            NoDup names -> NoDup (fold_left add_name ks names)).
  { induction ks as [|k ks IH]; simpl; intros names H; [exact H|].
    apply IH. now apply add_name_NoDup. }
  assert (G' : forall (rs : list record) names,
            NoDup names ->
            NoDup (fold_left (fun names r => fold_left add_name (dict_keys r) names)
                             rs names)).
  { induction rs as [|r rs IH]; simpl; intros names H; [exact H|].
    apply IH. now apply G. }
  apply G'. constructor.
Qed.

Lemma json_normalize_keys (data : list record) :
  keys (json_normalize data) = column_names data.
Proof.
  unfold keys, json_normalize, dict_keys. simpl.
  rewrite map_map. simpl. apply map_id.
Qed.

(** A frame built from records is well formed, whatever the records. *)
Lemma json_normalize_well_formed (data : list record) :
  well_formed (json_normalize data) = true.
Proof.
  unfold well_formed. apply andb_true_intro. split.
  - change (dict_keys (cols (json_normalize data)))
      with (keys (json_normalize data)).
    rewrite json_normalize_keys. apply NoDup_distinct, column_names_NoDup.
  - apply forallb_forall. intros [k col] Hin. simpl in *.
    apply in_map_iff in Hin as (k' & Heq & _). inversion Heq; subst.
    rewrite length_map. apply Nat.eqb_refl.
Qed.

Lemma add_name_In (names : list string) (k k' : string) :
  In k' (add_name names k) <-> In k' names \/ k' = k.
Proof.
  unfold add_name. destruct (existsb (String.eqb k) names) eqn:E.
  - split; [now left|]. intros [H| ->]; [exact H|].
    apply existsb_exists in E as (x & Hx & Ex).
    apply String.eqb_eq in Ex. now subst.
  - rewrite in_app_iff. simpl. split.
    + intros [H|[H|[]]]; [now left | now right].
    + intros [H| ->]; [now left | right; now left].
Qed.

Lemma add_names_In (ks names : list string) (k : string) :
  In k (fold_left add_name ks names) <-> In k names \/ In k ks.
Proof.
  revert names. induction ks as [|k0 ks IH]; intros names; simpl.
  - tauto.
  - rewrite IH, add_name_In. split.
    + intros [[H|H]|H]; auto.
    + intros [H|[H|H]]; auto.
Qed.

(** The columns of the frame are the names that some record carries. *)
Lemma column_names_In (data : list record) (k : string) :
  In k (column_names data) <-> exists r, In r data /\ In k (dict_keys r).
Proof.
  unfold column_names.
  assert (G : forall (rs : list record) names,
            In k (fold_left (fun names r => fold_left add_name (dict_keys r) names)
                            rs names)
            <-> In k names \/ exists r, In r rs /\ In k (dict_keys r)).
  { induction rs as [|r rs IH]; intros names; simpl.
    - split; [now left|]. intros [H|(r & [] & _)]. exact H.
    - rewrite IH, add_names_In. split.
      + intros [[H|H]|(r' & Hr' & Hk)].
        * now left.
        * right. exists r. split; [now left | exact H].
        * right. exists r'. split; [now right | exact Hk].
      + intros [H|(r' & [<-|Hr'] & Hk)].
        * left. now left.
        * left. now right.
        * right. now exists r'. }
  rewrite G. simpl. split.
  - intros [[]|H]. exact H.
  - intros H. now right.
Qed.

(** The column of a name holds, row by row, the value the record gives
    the name. *)
Lemma json_normalize_column (data : list record) (k : string) :
  In k (column_names data) ->
  getitem (json_normalize data) k = Ok (map (field k) data).
Proof.
  intros Hk. unfold getitem, json_normalize. cbn [cols].
  induction (column_names data) as [|k0 names IH]; [contradiction|].
  cbn [map dict_get]. destruct (String.eqb k0 k) eqn:E.
  - apply String.eqb_eq in E. now subst.
  - apply IH. destruct Hk as [->|Hk]; [|exact Hk].
    rewrite String.eqb_refl in E. discriminate.
Qed.

Lemma dict_del_keys {V : Type} (d : dict V) (k : string) :
  NoDup (dict_keys d) -> ~ In k (dict_keys (dict_del d k)).
Proof.
  induction d as [|[k0 w] d IH]; simpl; intros Hnd; [tauto|].
  inversion Hnd as [|? ? Hnin Hnd']; subst.
  destruct (String.eqb k0 k) eqn:E.
  - apply String.eqb_eq in E. now subst.
  - simpl. intros [->|Hin].
    + rewrite String.eqb_refl in E. discriminate.
    + now apply IH.
Qed.

Lemma dict_get_del {V : Type} (d : dict V) (k k' : string) :
  k' <> k -> dict_get (dict_del d k) k' = dict_get d k'.
Proof.
  intros Hne. induction d as [|[k0 w] d IH]; simpl; [reflexivity|].
  destruct (String.eqb k0 k) eqn:E; simpl.
  - apply String.eqb_eq in E. subst k0.
    assert (String.eqb k k' = false) as ->
      by (apply String.eqb_neq; congruence).
    reflexivity.
  - now rewrite IH.
Qed.

Section Loader.
Context {model : Type} {B : Backend model}.

Lemma load_lines_spec (lines : list string) :
  forall data,
  match load_lines lines data with
  | Ok out =>
      exists rs, out = data ++ rs
                 /\ Forall2 (fun line r => json_loads line = Some r) lines rs
  | Raise e =>
      e = JSONDecodeError
      /\ exists line, In line lines /\ json_loads line = None
  end.
Proof.
  induction lines as [|line lines IH]; simpl; intros data.
  - exists []. now rewrite app_nil_r.
  - destruct (json_loads line) as [r|] eqn:E.
    + specialize (IH (data ++ [r])).
      destruct (load_lines lines (data ++ [r])) as [out|e].
      * destruct IH as (rs & -> & Hrs). exists (r :: rs).
        rewrite <- app_assoc. split; [reflexivity|]. now constructor.
      * destruct IH as (-> & l & Hl & Hnone). split; [reflexivity|].
        exists l. split; [now right | exact Hnone].
    + split; [reflexivity|]. exists line. split; [now left | exact E].
Qed.


(** C7, amended (what makes a load fail).  Loading a file fails exactly
    when one of its lines is not valid JSON, with the exception of the
    decoder; when every line is valid the records are returned in the
    order of the lines, whatever names they carry.  The table made of
    them is well formed: one row per line, one column per name that some
    record carries, and in the row of a record the value the record gives
    the name, or NaN when the record lacks the name.  Failing or not, the
    load leaves the file system as it was. *)
Theorem load_data_decodes (fs : filesystem) (path : string)
    (lines : list string) :
  fs path = Some lines ->
  snd (load_data (Some path) fs) = fs
  /\ ((exists line, In line lines /\ json_loads line = None)
      <-> fst (load_data (Some path) fs) = Raise JSONDecodeError)
  /\ ((forall line, In line lines -> json_loads line <> None)
      <-> exists data, fst (load_data (Some path) fs) = Ok data)
  /\ (forall data, fst (load_data (Some path) fs) = Ok data ->
        Forall2 (fun line r => json_loads line = Some r) lines data
        /\ well_formed (json_normalize data) = true
        /\ index_len (json_normalize data) = List.length lines
        /\ (forall k, In k (keys (json_normalize data))
                      <-> exists r, In r data /\ In k (dict_keys r))
        /\ (forall i r k,
              nth_error data i = Some r ->
              In k (keys (json_normalize data)) ->
              exists col,
                getitem (json_normalize data) k = Ok col
                /\ nth_error col i
                   = Some (match dict_get r k with
                           | Ok v => v
                           | Raise _ => None
                           end))
        /\ (forall i r k,
              nth_error data i = Some r ->
              In k (keys (json_normalize data)) ->
              ~ In k (dict_keys r) ->
              exists col,
                getitem (json_normalize data) k = Ok col
                /\ nth_error col i = Some None)).
Proof.
  intros Hfile. unfold load_data. cbn [fst snd]. unfold open_read.
  rewrite Hfile. cbn [bind].
  pose proof (load_lines_spec lines []) as H.
  destruct (load_lines lines []) as [out|e].
  - destruct H as (rs & -> & Hrs). simpl app.
    assert (Hvalid : forall line, In line lines -> json_loads line <> None).
    { intros line Hin. clear - Hrs Hin.
      induction Hrs as [|l r ls rs Hl _ IH]; [contradiction|].
      destruct Hin as [<-|Hin]; [congruence | now apply IH]. }
    split; [reflexivity|]. split; [|split].
    + split; [|discriminate].
      intros (line & Hin & Hnone). now apply Hvalid in Hin.
    + split; [now exists rs | intros _; exact Hvalid].
    + intros data Hdata. inversion Hdata; subst.
      assert (Hentry : forall i r k,
                nth_error data i = Some r ->
                In k (keys (json_normalize data)) ->
                exists col,
                  getitem (json_normalize data) k = Ok col
                  /\ nth_error col i
                     = Some (match dict_get r k with
                             | Ok v => v
                             | Raise _ => None
                             end)).
      { intros i r k Hr Hk. rewrite json_normalize_keys in Hk.
        exists (map (field k) data).
        split; [now apply json_normalize_column|].
        rewrite nth_error_map, Hr. reflexivity. }
      split; [exact Hrs|]. split; [apply json_normalize_well_formed|].
      split; [cbn [json_normalize index_len];
              symmetry; exact (Forall2_length Hrs)|].
      split; [intros k; rewrite json_normalize_keys; apply column_names_In|].
      split; [exact Hentry|].
      intros i r k Hr Hk Hlack.
      destruct (Hentry i r k Hr Hk) as (col & Hcol & Hv).
      exists col. split; [exact Hcol|].
      now rewrite (dict_get_absent r k Hlack) in Hv.
  - destruct H as (-> & line & Hin & Hnone).
    split; [reflexivity|]. split; [|split].
    + split; [reflexivity | intros _; now exists line].
    + split.
      * intros Hvalid. now apply Hvalid in Hin.
      * intros (data & Hdata). discriminate.
    + intros data Hdata. discriminate.
Qed.
End Loader.

(** C7 on the file whose two rows name different features: it loads,
    and the first row, which lacks [f2], holds NaN there. *)
Lemma load_data_decodes_witness :
  exists data col,
    fst (load_data (B := Toy.backend) (Some "ragged.jsonl"%string) Demo.files)
    = Ok data
    /\ snd (load_data (B := Toy.backend) (Some "ragged.jsonl"%string) Demo.files)
       = Demo.files
    /\ getitem (json_normalize data) "f2" = Ok col
    /\ nth_error col 0 = Some None.
Proof.
  destruct (load_data_decodes (B := Toy.backend) Demo.files
              "ragged.jsonl"%string Demo.ragged_lines eq_refl)
    as (Hfs & _ & _ & Hdata).
  assert (E : fst (load_data (B := Toy.backend) (Some "ragged.jsonl"%string)
                     Demo.files)
              = Ok (Demo.records Demo.ragged_lines))
    by (vm_compute; reflexivity).
  destruct (Hdata _ E) as (_ & _ & _ & _ & _ & Hlack).
  destruct (Hlack 0%nat [("f1"%string, Some (5 # 10))] "f2"%string)
    as (col & Hcol & Hv).
  - vm_compute. reflexivity.
  - vm_compute. right. now left.
  - intros [H|[]]. discriminate.
  - exists (Demo.records Demo.ragged_lines), col.
    split; [exact E|]. split; [exact Hfs|]. split; assumption.
Defined.

(** C7 as stated fails: two rows that name different features are loaded,
    and the classifier is built on a table with the entries they lack
    missing. *)
Lemma ragged_rows_are_loaded :
  exists data s,
    load_data (B := Toy.backend) (Some "ragged.jsonl"%string) Demo.files
    = (Ok data, Demo.files)
    /\ uniform data = false
    /\ fst (__init__ (B := Toy.backend) (Some "ragged.jsonl"%string)
              (Some "tbc.jsonl"%string) None None None Demo.files) = Ok s
    /\ complete (training_data s) = false.
Proof.
  eexists. eexists. split; [vm_compute; reflexivity|].
  split; [vm_compute; reflexivity|].
  split; vm_compute; reflexivity.
Qed.

(** ** The label column *)

Lemma pop_spec (df : DataFrame) (key : string) (col : Series) (df' : DataFrame) :
  well_formed df = true -> pop df key = Ok (col, df') ->
  getitem df key = Ok col
  /\ index_len df' = index_len df
  /\ ~ In key (keys df')
  /\ forall key', key' <> key -> getitem df' key' = getitem df key'.
Proof.
  intros Hwf. unfold pop. destruct (getitem df key) as [c|e] eqn:E;
    simpl; intros H; inversion H; subst. clear H.
  repeat split.
  - apply dict_del_keys. now apply well_formed_NoDup.
  - intros key' Hne. unfold getitem. simpl. now apply dict_get_del.
Qed.

Section Labels.
Context {model : Type} {B : Backend model}.

End Labels.



(** ** The probability writer *)

Lemma write_all_map (column : list Q) :
  write_all column = map (fun proba => (format_10f proba ++ newline)%string) column.
Proof.
  unfold write_all.
  assert (G : forall acc,
            fold_left (fun output proba =>
                         output ++ [(format_10f proba ++ newline)%string])
                      column acc
            = acc ++ map (fun proba => (format_10f proba ++ newline)%string) column).
  { induction column as [|p column IH]; simpl; intros acc.
    - now rewrite app_nil_r.
    - rewrite IH, <- app_assoc. reflexivity. }
  apply G.
Qed.

Lemma digit_value_char (d : Z) :
  (0 <= d < 10)%Z -> digit_value (digit_char d) = Some d.
Proof.
  intros H.
  assert (d = 0 \/ d = 1 \/ d = 2 \/ d = 3 \/ d = 4 \/ d = 5 \/ d = 6
          \/ d = 7 \/ d = 8 \/ d = 9)%Z as Hd by lia.
  repeat (destruct Hd as [->|Hd]; [reflexivity|]). now subst.
Qed.

Lemma fixed_digits_length (w : nat) :
  forall n, String.length (fixed_digits w n) = w.
Proof.
  induction w as [|w IH]; simpl; intros n; [reflexivity|]. now rewrite IH.
Qed.

Lemma ten_pow_pos (w : nat) : (0 < 10 ^ Z.of_nat w)%Z.
Proof. apply Z.pow_pos_nonneg; lia. Qed.

Lemma ten_pow_succ (w : nat) :
  (10 ^ Z.of_nat (S w) = 10 * 10 ^ Z.of_nat w)%Z.
Proof. rewrite Nat2Z.inj_succ, Z.pow_succ_r by lia. reflexivity. Qed.

Lemma leading_digit (w : nat) (n : Z) :
  (0 <= n < 10 ^ Z.of_nat (S w))%Z ->
  (0 <= n / 10 ^ Z.of_nat w < 10)%Z
  /\ (0 <= n mod 10 ^ Z.of_nat w < 10 ^ Z.of_nat w)%Z.
Proof.
  intros [H0 H1]. pose proof (ten_pow_pos w) as Hp.
  rewrite ten_pow_succ in H1. split.
  - split; [now apply Z.div_pos|].
    apply Z.div_lt_upper_bound; lia.
  - now apply Z.mod_pos_bound.
Qed.

Lemma fixed_digits_all_digits (w : nat) :
  forall n, (0 <= n < 10 ^ Z.of_nat w)%Z -> all_digits (fixed_digits w n) = true.
Proof.
  induction w as [|w IH]; intros n Hn; [reflexivity|].
  destruct (leading_digit w n Hn) as [Hd Hm].
  cbn [fixed_digits all_digits]. rewrite digit_value_char by exact Hd.
  now apply IH.
Qed.

Lemma read_fixed_digits (w : nat) :
  forall n rest acc count,
  (0 <= n < 10 ^ Z.of_nat w)%Z ->
  read_digits (fixed_digits w n ++ rest) acc count
  = read_digits rest (acc * 10 ^ Z.of_nat w + n)%Z (count + w).
Proof.
  induction w as [|w IH]; intros n rest acc count Hn.
  - simpl in *. f_equal; [f_equal; lia | lia].
  - destruct (leading_digit w n Hn) as [Hd Hm].
    cbn [fixed_digits append read_digits].
    rewrite digit_value_char by exact Hd.
    rewrite IH by exact Hm. f_equal; [|lia].
    rewrite ten_pow_succ.
    pose proof (Z.div_mod n (10 ^ Z.of_nat w)) as Hdm.
    pose proof (ten_pow_pos w). lia.
Qed.

Lemma Qabs_nonneg_eq (x : Q) : 0 <= x -> Qabs x = x.
Proof.
  destruct x as [n d]. unfold Qle, Qabs. simpl. intros H.
  f_equal. apply Z.abs_eq. lia.
Qed.

Lemma round_half_even_near (y : Q) :
  Qabs (inject_Z (round_half_even y) - y) <= 1 # 2.
Proof.
  unfold round_half_even.
  pose proof (Qfloor_le y) as Hlo. pose proof (Qlt_floor y) as Hhi.
  rewrite inject_Z_plus in Hhi. change (inject_Z 1) with 1 in Hhi.
  apply Qabs_Qle_condition.
  destruct (Qltb (y - inject_Z (Qfloor y)) (1 # 2)) eqn:E1.
  { apply Qltb_lt in E1. split; lra. }
  apply Qltb_ge in E1.
  destruct (Qltb (1 # 2) (y - inject_Z (Qfloor y))) eqn:E2.
  { rewrite inject_Z_plus. change (inject_Z 1) with 1. split; lra. }
  apply Qltb_ge in E2.
  destruct (Z.even (Qfloor y)).
  - split; lra.
  - rewrite inject_Z_plus. change (inject_Z 1) with 1. split; lra.
Qed.

Lemma round_half_even_bounds (y : Q) (M : Z) :
  0 <= y -> y <= inject_Z M ->
  (0 <= round_half_even y <= M)%Z.
Proof.
  intros H0 HM. unfold round_half_even.
  pose proof (Qfloor_le y) as Hlo.
  assert (Hf0 : (0 <= Qfloor y)%Z).
  { change 0%Z with (Qfloor 0). now apply Qfloor_resp_le. }
  assert (HfM : (Qfloor y <= M)%Z).
  { rewrite <- (Qfloor_Z M). now apply Qfloor_resp_le. }
  assert (Hup : 0 < y - inject_Z (Qfloor y) -> (Qfloor y + 1 <= M)%Z).
  { intros Hr. assert (inject_Z (Qfloor y) < inject_Z M) as Hlt by lra.
    rewrite <- Zlt_Qlt in Hlt. lia. }
  destruct (Qltb (y - inject_Z (Qfloor y)) (1 # 2)) eqn:E1; [lia|].
  apply Qltb_ge in E1.
  assert (0 < y - inject_Z (Qfloor y)) as Hr by lra.
  specialize (Hup Hr).
  destruct (Qltb (1 # 2) (y - inject_Z (Qfloor y))); [lia|].
  destruct (Z.even (Qfloor y)); lia.
Qed.

Lemma read_digits_stop (c : ascii) (rest : string) (acc : Z) (count : nat) :
  digit_value c = None ->
  read_digits (String c rest) acc count = (acc, count, String c rest).
Proof. intros H. cbn [read_digits]. now rewrite H. Qed.

Lemma parse_fixed_point (ip fp : Z) (w : nat) :
  (0 <= ip < 10)%Z -> (0 <= fp < 10 ^ Z.of_nat (S w))%Z ->
  parse_line (fixed_digits 1 ip ++ "." ++ fixed_digits (S w) fp ++ newline)
  = Some (inject_Z ip + inject_Z fp / inject_Z (10 ^ Z.of_nat (S w))).
Proof.
  intros Hip Hfp. unfold parse_line.
  rewrite read_fixed_digits by (change (10 ^ Z.of_nat 1)%Z with 10%Z; exact Hip).
  change ("." ++ fixed_digits (S w) fp ++ newline)%string
    with (String "." (fixed_digits (S w) fp ++ newline)).
  rewrite read_digits_stop by reflexivity.
  cbn [Nat.add].
  rewrite read_fixed_digits by exact Hfp.
  unfold newline at 1. rewrite read_digits_stop by reflexivity.
  cbn [Nat.add]. fold newline. rewrite String.eqb_refl.
  now rewrite !Z.mul_0_l, !Z.add_0_l.
Qed.

Lemma format_10f_probability (x : Q) :
  0 <= x <= 1 ->
  exists whole digits q,
    format_10f x = (whole ++ "." ++ digits)%string
    /\ (whole = "0" \/ whole = "1")%string
    /\ String.length digits = 10%nat
    /\ all_digits digits = true
    /\ parse_line (whole ++ "." ++ digits ++ newline) = Some q
    /\ 0 <= q <= 1
    /\ Qabs (q - x) <= 1 # 20000000000.
Proof.
  intros [H0 H1]. unfold format_10f.
  rewrite (Qabs_nonneg_eq x H0).
  replace (Qltb x 0) with false by (symmetry; now apply Qltb_ge).
  set (T := (10 ^ 10)%Z).
  assert (HT : inject_Z T == 10000000000 # 1) by reflexivity.
  set (N := round_half_even (x * inject_Z T)).
  assert (HN : (0 <= N <= T)%Z).
  { apply round_half_even_bounds; rewrite HT; lra. }
  pose proof (round_half_even_near (x * inject_Z T)) as Hnear.
  fold N in Hnear.
  assert (HTpos : (0 < T)%Z) by reflexivity.
  assert (Hfp : (0 <= N mod T < T)%Z) by now apply Z.mod_pos_bound.
  assert (Hdm : (N = T * (N / T) + N mod T)%Z) by (apply Z.div_mod; lia).
  assert (Hip : (N / T = 0 \/ N / T = 1)%Z).
  { assert (0 <= N / T)%Z by (apply Z.div_pos; lia).
    assert (N / T < 2)%Z by (apply Z.div_lt_upper_bound; lia). lia. }
  assert (Hwhole : decimal (N / T) = fixed_digits 1 (N / T)
                   /\ (decimal (N / T) = "0" \/ decimal (N / T) = "1")%string).
  { destruct Hip as [-> | ->]; split; try reflexivity; [now left | now right]. }
  destruct Hwhole as [Hwhole Hcase].
  exists (decimal (N / T)), (fixed_digits 10 (N mod T)),
         (inject_Z (N / T) + inject_Z (N mod T) / inject_Z T).
  assert (Hq : inject_Z (N / T) + inject_Z (N mod T) / inject_Z T
               == inject_Z N / inject_Z T).
  { rewrite Hdm at 3. rewrite inject_Z_plus, inject_Z_mult. field.
    rewrite HT. discriminate. }
  assert (HNq : 0 <= inject_Z N /\ inject_Z N <= inject_Z T).
  { destruct HN as [Ha Hb]. rewrite Zle_Qle in Ha, Hb. now split. }
  split; [reflexivity|]. split; [exact Hcase|].
  split; [apply fixed_digits_length|].
  split; [now apply fixed_digits_all_digits|].
  split.
  { rewrite Hwhole. apply (parse_fixed_point (N / T) (N mod T) 9); [lia | exact Hfp]. }
  rewrite Hq. rewrite HT in *.
  apply Qabs_Qle_condition in Hnear. destruct Hnear as [Hn1 Hn2].
  split.
  - split.
    + apply Qle_shift_div_l; [reflexivity | lra].
    + apply Qle_shift_div_r; [reflexivity | lra].
  - apply Qabs_Qle_condition. split.
    + apply Qplus_le_l with (z := x). ring_simplify.
      apply Qle_shift_div_l; [reflexivity | lra].
    + apply Qplus_le_l with (z := x). ring_simplify.
      apply Qle_shift_div_r; [reflexivity | lra].
Qed.

Lemma string_append_assoc (a b c : string) :
  ((a ++ b) ++ c = a ++ (b ++ c))%string.
Proof.
  induction a as [|ch a IH]; simpl; [reflexivity | now rewrite IH].
Qed.

Section WriterFacts.
Context {model : Type} {B : Backend model}.

(** C9 (the probability file).  When the model gives one pair of
    probabilities per row of the table to classify, each in [0, 1],
    [assign_probabilities] replaces the content of the output file by one
    line per row, in the order of the rows; line [i] is the class-1
    probability of row [i] written as ["0"] or ["1"], a point, exactly ten
    decimal digits and a line feed; read back, it is a number in [0, 1],
    within half a unit of the tenth decimal of the probability. *)
Theorem probabilities_are_written (self : FilterClassifier) (m : model)
    (fs : filesystem) (probas : list (Q * Q)) :
  predict_proba m (tbc_data self) = Ok probas ->
  List.length probas = index_len (tbc_data self) ->
  (forall p, In p probas -> 0 <= snd p <= 1) ->
  exists lines,
    assign_probabilities self m fs
    = (Ok tt, fs_write fs (output_file self) lines)
    /\ List.length lines = index_len (tbc_data self)
    /\ forall i p, nth_error probas i = Some p ->
         exists whole digits q,
           nth_error lines i = Some (whole ++ "." ++ digits ++ newline)%string
           /\ format_10f (snd p) = (whole ++ "." ++ digits)%string
           /\ (whole = "0" \/ whole = "1")%string
           /\ String.length digits = 10%nat
           /\ all_digits digits = true
           /\ parse_line (whole ++ "." ++ digits ++ newline) = Some q
           /\ 0 <= q <= 1
           /\ Qabs (q - snd p) <= 1 # 20000000000.
Proof.
  intros Hprobas Hlen Hunit.
  exists (write_all (map snd probas)).
  split; [|split].
  - unfold assign_probabilities, io_bind, lift. now rewrite Hprobas.
  - now rewrite write_all_map, !length_map.
  - intros i p Hi.
    destruct (format_10f_probability (snd p))
      as (whole & digits & q & Hfmt & Hwhole & Hdigits & Hall & Hparse & Hq & Hnear).
    { apply Hunit. eapply nth_error_In. exact Hi. }
    exists whole, digits, q. repeat split; try assumption; try apply Hq.
    rewrite write_all_map, map_map.
    rewrite nth_error_map, Hi. cbn [option_map]. rewrite Hfmt.
    f_equal. now rewrite !string_append_assoc.
Qed.
End WriterFacts.

(** C9 on the demonstration run: three rows to classify, three lines. *)
Lemma probabilities_are_written_witness :
  exists lines,
    assign_probabilities (B := Toy.backend) Demo.self Demo.fitted Demo.files
    = (Ok tt, fs_write Demo.files (output_file Demo.self) lines)
    /\ List.length lines = 3%nat.
Proof.
  destruct (probabilities_are_written (B := Toy.backend) Demo.self Demo.fitted
              Demo.files [(1 # 4, 3 # 4); (3 # 4, 1 # 4); (1 # 4, 3 # 4)])
    as (lines & Hwrite & Hlen & _).
  - vm_compute. reflexivity.
  - reflexivity.
  - intros p [<-|[<-|[<-|[]]]]; simpl; split; discriminate.
  - exists lines. split; assumption.
Defined.

(** ** Runs on small inputs *)

Example cross_entropy_names :
  is_cross_entropy "CrossEntropyFilter.0" = true
  /\ is_cross_entropy "WordAlignFilter.CrossEntropyFilter" = true
  /\ is_cross_entropy "LengthRatioFilter" = false.
Proof. repeat split. Qed.

Example default_sweep :
  List.length default_thresholds = 16%nat
  /\ hd 0 default_thresholds == 5 # 100
  /\ last default_thresholds 0 == 20 # 100.
Proof. repeat split. Qed.

Example format_third : format_10f (1 # 3) = "0.3333333333"%string.
Proof. reflexivity. Qed.

(** A tie goes to the even neighbour: 2^-11 = 0.00048828125. *)
Example format_tie : format_10f (1 # 2048) = "0.0004882812"%string.
Proof. reflexivity. Qed.

Example format_negative : format_10f (- (5 # 4)) = "-1.2500000000"%string.
Proof. reflexivity. Qed.

Example parse_written_line :
  parse_line (format_10f (1 # 8) ++ newline) = Some (0 + 1250000000 # 10000000000).
Proof. reflexivity. Qed.

(** The discard fractions 0.2 and 0.25 give the same labels, hence the
    same model and the same AIC: whichever comes first is kept. *)
Example tie_keeps_first :
  (r <- find_best_model (B := Toy.backend) (Demo.with_sweep [2 # 10; 25 # 100]) "AIC" ;;
   Ok (snd (fst r)))
  = Ok (2 # 10)
  /\ (r <- find_best_model (B := Toy.backend) (Demo.with_sweep [25 # 100; 2 # 10]) "AIC" ;;
      Ok (snd (fst r)))
     = Ok (25 # 100).
Proof. split; vm_compute; reflexivity. Qed.

(** A criterion that is none of the three leaves [crit_value] unbound. *)
Example unknown_criterion :
  find_best_model (B := Toy.backend) Demo.self "accuracy" = Raise UnboundLocalError.
Proof. vm_compute. reflexivity. Qed.

(** The discrimination score without held-out data: the attribute
    [dev_data] was never set. *)
Example roc_auc_without_dev :
  find_best_model (B := Toy.backend) Demo.without_dev "roc_auc" = Raise AttributeError.
Proof. vm_compute. reflexivity. Qed.

(** The three lines written for the three rows to classify. *)
Example written_file :
  snd (assign_probabilities (B := Toy.backend) Demo.self Demo.fitted Demo.files)
      "tbc.jsonl.probabilities.txt"%string
  = Some [("0.7500000000" ++ newline)%string;
          ("0.2500000000" ++ newline)%string;
          ("0.7500000000" ++ newline)%string].
Proof. vm_compute. reflexivity. Qed.

(** * Further properties of the class *)

(** ** Labelling, whatever the entries *)

Lemma assigned_get (cutoffs : cutoffs_t) (key : string) :
  assigned cutoffs = true -> In key (dict_keys cutoffs) ->
  exists c, dict_get cutoffs key = Ok (Some c).
Proof.
  intros Has Hkey. destruct (dict_get_mem cutoffs key Hkey) as [v Hv].
  unfold assigned in Has. rewrite forallb_forall in Has.
  specialize (Has _ (dict_get_Ok_In _ _ _ Hv)). simpl in Has.
  destruct v as [c|]; [now exists c | discriminate].
Qed.

Lemma well_formed_entry (df : DataFrame) (key : string) (i : nat) :
  well_formed df = true -> In key (keys df) -> (i < index_len df)%nat ->
  exists col v, getitem df key = Ok col /\ nth_error col i = Some v.
Proof.
  intros Hwf Hkey Hi. destruct (getitem_key df key Hkey) as (col & Ecol & Hcol).
  destruct (nth_error col i) as [v|] eqn:Ev; [now exists col, v|].
  apply nth_error_None in Ev.
  rewrite (well_formed_length df key col Hwf Hcol) in Ev. lia.
Qed.

(** The labels [add_labels] assigns, in closed form. *)
Lemma add_labels_closed_form (self : FilterClassifier) (cutoffs : cutoffs_t) :
  let df := df_training_data self in
  training_data self = df -> well_formed df = true ->
  dict_keys cutoffs = keys df -> assigned cutoffs = true ->
  add_labels self cutoffs
  = Ok (set_labels_train self
          (map (fun i => if row_rejected df cutoffs i then 0%Z else 1%Z)
               (seq 0 (index_len df)))).
Proof.
  intros df Htd Hwf Hkeys Has. unfold add_labels. fold df.
  rewrite add_labels_loop_spec.
  - cbn [bind app]. unfold row_rejected. now rewrite Htd, Hkeys.
  - intros i key Hi Hkey. apply in_seq in Hi. rewrite Htd.
    destruct (well_formed_entry df key i Hwf) as (col & v & Hcol & Hv);
      [now rewrite <- Hkeys | lia |].
    destruct (assigned_get cutoffs key Has Hkey) as [c Hc].
    now exists col, v, c.
Qed.

Lemma rejects_nan (key : string) (v c : cell) :
  rejects key v c = false
  <-> v = None \/ c = None \/ passes key v c = true.
Proof.
  destruct v as [v|], c as [c|].
  - rewrite rejects_passes, negb_false_iff. split; [auto|].
    intros [H|[H|H]]; [discriminate | discriminate | exact H].
  - unfold rejects, cell_gtb, cell_ltb. destruct (is_cross_entropy key);
      simpl; split; auto.
  - unfold rejects, cell_gtb, cell_ltb. destruct (is_cross_entropy key);
      simpl; split; auto.
  - unfold rejects, cell_gtb, cell_ltb. destruct (is_cross_entropy key);
      simpl; split; auto.
Qed.

(** X1 (a missing entry never discards a row).  Whatever the entries of
    the training table, [add_labels] labels a row 1 exactly when each of
    its entries is NaN, or has a NaN cutoff, or passes its rule: the loop
    only tests for a value on the wrong side of the cutoff, and a
    comparison with NaN is false. *)
Theorem nan_entries_are_kept (self : FilterClassifier) (cutoffs : cutoffs_t) :
  let df := df_training_data self in
  training_data self = df -> well_formed df = true ->
  dict_keys cutoffs = keys df -> assigned cutoffs = true ->
  exists labels,
    add_labels self cutoffs = Ok (set_labels_train self labels)
    /\ forall i, (i < index_len df)%nat ->
         (nth i labels 0%Z = 1%Z
          <-> forall key, In key (keys df) ->
                value_at df key i = None
                \/ cutoff_at cutoffs key = None
                \/ passes key (value_at df key i) (cutoff_at cutoffs key) = true)
         /\ (nth i labels 0%Z = 1%Z \/ nth i labels 0%Z = 0%Z).
Proof.
  intros df Htd Hwf Hkeys Has. eexists. split.
  - now apply add_labels_closed_form.
  - intros i Hi. rewrite nth_map_seq by exact Hi.
    destruct (row_rejected (df_training_data self) cutoffs i) eqn:E;
      unfold row_rejected in E; fold df in E.
    + split; [|now right]. split; [discriminate|]. intros Hall.
      apply existsb_exists in E as (key & Hkey & Hrej).
      apply Hall, rejects_nan in Hkey. congruence.
    + split; [|now left]. split; [|reflexivity]. intros _ key Hkey.
      apply rejects_nan.
      destruct (rejects key (value_at df key i) (cutoff_at cutoffs key))
        eqn:Hrej; [|reflexivity].
      rewrite <- E. symmetry. apply existsb_exists. now exists key.
Qed.

(** X1 on the table with missing entries: the first row, whose [f2] is
    missing, is kept. *)
Lemma nan_entries_are_kept_witness :
  exists labels,
    add_labels Cases.ragged_self Cases.zero_cutoffs
    = Ok (set_labels_train Cases.ragged_self labels)
    /\ nth 0 labels 0%Z = 1%Z.
Proof.
  destruct (nan_entries_are_kept Cases.ragged_self Cases.zero_cutoffs)
    as (labels & Hadd & Hlabels); try reflexivity.
  exists labels. split; [exact Hadd|].
  apply (Hlabels 0%nat); [vm_compute; lia|].
  intros key [<-|[<-|[]]]; vm_compute; auto.
Defined.

Lemma init_cutoffs_get (ks : list string) (k : string) :
  In k ks -> dict_get (init_cutoffs ks) k = Ok None.
Proof.
  unfold init_cutoffs.
  assert (G : forall d : cutoffs_t,
            In k ks \/ dict_get d k = Ok None ->
            dict_get (fold_left (fun d key => dict_set d key None) ks d) k
            = Ok None).
  { induction ks as [|k0 ks IH]; simpl; intros d H.
    - destruct H as [[]|H]; exact H.
    - apply IH. destruct (string_dec k0 k) as [->|Hne].
      + right. apply dict_get_set_eq.
      + destruct H as [[H|H]|H]; [contradiction | now left |].
        right. now rewrite dict_get_set_neq. }
  intros Hin. apply G. now left.
Qed.

(** X2 ([add_labels] before [set_cutoffs]).  On a table with a row and a
    column, labelling with the cutoffs [find_best_model] starts from,
    every one still [None], raises [TypeError]: a float is compared with
    [None]. *)
Theorem add_labels_before_set_cutoffs (self : FilterClassifier) :
  let df := df_training_data self in
  training_data self = df -> well_formed df = true ->
  (0 < index_len df)%nat -> keys df <> [] ->
  add_labels self (init_cutoffs (keys df)) = Raise TypeError.
Proof.
  intros df Htd Hwf Hn Hk. unfold add_labels. fold df.
  pose proof (well_formed_NoDup df Hwf) as Hnd.
  destruct (index_len df) as [|n] eqn:En; [lia|].
  cbn [seq add_labels_loop].
  rewrite (init_cutoffs_keys (keys df) Hnd).
  destruct (keys df) as [|k0 rest] eqn:Ek; [contradiction|].
  cbn [label_row].
  destruct (well_formed_entry df k0 0 Hwf) as (col & v & Hcol & Hv);
    [rewrite Ek; now left | lia |].
  rewrite Htd, Hcol. cbn [bind]. unfold series_get. rewrite Hv. cbn [bind].
  rewrite init_cutoffs_get by now left. cbn [bind].
  now destruct (is_cross_entropy k0).
Qed.

Lemma add_labels_before_set_cutoffs_witness :
  add_labels Demo.self (init_cutoffs (keys (df_training_data Demo.self)))
  = Raise TypeError.
Proof.
  apply add_labels_before_set_cutoffs; try reflexivity.
  - vm_compute. lia.
  - discriminate.
Defined.

Lemma rejects_tighter (key : string) (v c c' : cell) :
  tighter key c c' -> rejects key v c = true -> rejects key v c' = true.
Proof.
  unfold tighter, rejects, cell_gtb, cell_ltb.
  destruct c as [x|], c' as [y|]; try contradiction.
  destruct v as [v|]; [|now destruct (is_cross_entropy key)].
  destruct (is_cross_entropy key); intros Hle Hlt;
    apply Qltb_lt in Hlt; apply Qltb_lt; lra.
Qed.

Lemma tighter_assigned (cutoffs cutoffs' : cutoffs_t) (ks : list string) :
  NoDup ks -> dict_keys cutoffs = ks -> dict_keys cutoffs' = ks ->
  (forall key, In key ks ->
     tighter key (cutoff_at cutoffs key) (cutoff_at cutoffs' key)) ->
  assigned cutoffs = true /\ assigned cutoffs' = true.
Proof.
  intros Hnd Hk Hk' Ht. unfold assigned. split; apply forallb_forall;
    intros [k v] Hin; simpl.
  - assert (Hkey : In k ks)
      by (rewrite <- Hk; change k with (fst (k, v)); now apply in_map).
    specialize (Ht k Hkey). unfold cutoff_at in Ht.
    rewrite (dict_get_In cutoffs k v) in Ht by (rewrite ?Hk; assumption).
    destruct v as [c|]; [reflexivity|]. contradiction.
  - assert (Hkey : In k ks)
      by (rewrite <- Hk'; change k with (fst (k, v)); now apply in_map).
    specialize (Ht k Hkey). unfold cutoff_at in Ht.
    rewrite (dict_get_In cutoffs' k v) in Ht by (rewrite ?Hk'; assumption).
    destruct v as [c|]; [reflexivity|].
    unfold tighter in Ht. now destruct (match dict_get cutoffs k with
                                        | Ok (Some c) => c
                                        | _ => None
                                        end).
Qed.

(** X3 (tighter cutoffs keep fewer rows).  When every cutoff is made more
    demanding (lowered for a cross-entropy feature, raised for any other),
    no row gains the label 1: a row kept under the tighter cutoffs was
    kept under the looser ones. *)
Theorem tighter_cutoffs_keep_fewer (self : FilterClassifier)
    (cutoffs cutoffs' : cutoffs_t) :
  let df := df_training_data self in
  training_data self = df -> well_formed df = true ->
  dict_keys cutoffs = keys df -> dict_keys cutoffs' = keys df ->
  (forall key, In key (keys df) ->
     tighter key (cutoff_at cutoffs key) (cutoff_at cutoffs' key)) ->
  exists labels labels',
    add_labels self cutoffs = Ok (set_labels_train self labels)
    /\ add_labels self cutoffs' = Ok (set_labels_train self labels')
    /\ forall i, (i < index_len df)%nat ->
         nth i labels' 0%Z = 1%Z -> nth i labels 0%Z = 1%Z.
Proof.
  intros df Htd Hwf Hk Hk' Ht.
  destruct (tighter_assigned cutoffs cutoffs' (keys df)
              (well_formed_NoDup df Hwf) Hk Hk' Ht) as [Has Has'].
  eexists. eexists. split; [|split].
  - now apply add_labels_closed_form.
  - now apply add_labels_closed_form.
  - intros i Hi. rewrite !nth_map_seq by exact Hi.
    destruct (row_rejected (df_training_data self) cutoffs i) eqn:E;
      [|reflexivity].
    unfold row_rejected in E. apply existsb_exists in E as (key & Hkey & Hrej).
    apply (rejects_tighter key _ _ _ (Ht key Hkey)) in Hrej.
    replace (row_rejected (df_training_data self) cutoffs' i) with true;
      [discriminate|].
    symmetry. apply existsb_exists. now exists key.
Qed.

(** X3 on the demonstration table: the cutoffs of discard fraction 0.4
    are tighter than those of 0.2. *)
Lemma tighter_cutoffs_keep_fewer_witness :
  exists labels labels',
    add_labels Demo.self Demo.cutoffs = Ok (set_labels_train Demo.self labels)
    /\ add_labels Demo.self Cases.cutoffs_04
       = Ok (set_labels_train Demo.self labels')
    /\ (nth 3 labels' 0%Z = 1%Z -> nth 3 labels 0%Z = 1%Z).
Proof.
  destruct (tighter_cutoffs_keep_fewer Demo.self Demo.cutoffs Cases.cutoffs_04)
    as (labels & labels' & H1 & H2 & H3); try reflexivity.
  - intros key [<-|[<-|[]]]; vm_compute; discriminate.
  - exists labels, labels'. repeat split; try assumption.
    apply H3. vm_compute. lia.
Defined.

(** ** What [add_labels] and [set_cutoffs] change *)

Lemma label_row_binary (self : FilterClassifier) (cutoffs : cutoffs_t) (i : nat) :
  forall ks label out,
  label_row self cutoffs i ks label = Ok out -> out = 0%Z \/ out = label.
Proof.
  induction ks as [|k ks IH]; simpl; intros label out H.
  - inversion H. now right.
  - destruct (getitem (training_data self) k); simpl in H; [|discriminate].
    destruct (series_get _ i); simpl in H; [|discriminate].
    destruct (dict_get cutoffs k); simpl in H; [|discriminate].
    destruct (if is_cross_entropy k then _ else _) as [b|]; simpl in H;
      [|discriminate].
    apply IH in H. destruct b; [|exact H].
    destruct H as [H|H]; now left.
Qed.

Lemma add_labels_loop_binary (self : FilterClassifier) (cutoffs : cutoffs_t) :
  forall rows labels out,
  add_labels_loop self cutoffs rows labels = Ok out ->
  exists new, out = labels ++ new
              /\ List.length new = List.length rows
              /\ binary new = true.
Proof.
  induction rows as [|i rows IH]; simpl; intros labels out H.
  - inversion H. exists []. now rewrite app_nil_r.
  - destruct (label_row self cutoffs i (dict_keys cutoffs) 1%Z) as [l|] eqn:El;
      simpl in H; [|discriminate].
    apply IH in H as (new & -> & Hlen & Hbin).
    exists (l :: new). rewrite <- app_assoc. split; [reflexivity|].
    split; [simpl; now rewrite Hlen|].
    simpl. rewrite Hbin, andb_true_r.
    apply label_row_binary in El. now destruct El as [-> | ->].
Qed.

(** X4 (what [add_labels] does to the classifier).  When [add_labels]
    returns, the classifier differs from the one it was called on in its
    labels only; the labels are one 0 or 1 per row of the training table;
    and they replace the earlier ones: labelling again, with any cutoffs,
    gives what it would have given on the original classifier. *)
Theorem add_labels_effect (self s1 : FilterClassifier) (cutoffs : cutoffs_t) :
  add_labels self cutoffs = Ok s1 ->
  same_tables self s1
  /\ (exists labels,
        labels_train s1 = Some labels
        /\ List.length labels = index_len (df_training_data self)
        /\ binary labels = true)
  /\ forall cutoffs', add_labels s1 cutoffs' = add_labels self cutoffs'.
Proof.
  intros H. pose proof (add_labels_same_tables self s1 cutoffs H) as Hs.
  split; [exact Hs|]. split.
  - unfold add_labels in H.
    destruct (add_labels_loop self cutoffs _ []) as [labels|] eqn:E;
      simpl in H; [|discriminate].
    inversion H; subst s1. exists labels. split; [reflexivity|].
    apply add_labels_loop_binary in E as (new & -> & Hlen & Hbin).
    simpl. now rewrite Hlen, length_seq.
  - intros cutoffs'. symmetry. now apply add_labels_same.
Qed.

Lemma add_labels_effect_witness :
  same_tables Demo.self Demo.labelled_self.
Proof.
  apply (add_labels_effect Demo.self Demo.labelled_self Demo.cutoffs).
  vm_compute. reflexivity.
Defined.

Section CutoffFacts.
Context {model : Type} {B : Backend model}.

Lemma fresh_cutoffs_assigned (self : FilterClassifier) (discard : Q)
    (ks : list string) (c1 : cutoffs_t) :
  fresh_cutoffs self discard ks = Ok c1 -> assigned c1 = true.
Proof.
  revert c1. induction ks as [|k ks IH]; simpl; intros c1 H.
  - now inversion H.
  - destruct (getitem (df_training_data self) k); simpl in H; [|discriminate].
    destruct (quantile _ _); simpl in H; [|discriminate].
    destruct (fresh_cutoffs self discard ks) as [more|]; simpl in H;
      [|discriminate].
    inversion H; subst c1. simpl. now apply IH.
Qed.

(** X5 ([set_cutoffs] overwrites).  On cutoffs without a repeated key,
    [set_cutoffs] keeps the keys and their order and leaves no trace of the
    values it found: setting the cutoffs of a second discard fraction
    after those of a first gives what setting the second alone gives. *)
Theorem set_cutoffs_overwrites (self : FilterClassifier) (d1 d2 : Q)
    (cutoffs c1 : cutoffs_t) :
  NoDup (dict_keys cutoffs) ->
  set_cutoffs self d1 cutoffs = Ok c1 ->
  dict_keys c1 = dict_keys cutoffs
  /\ assigned c1 = true
  /\ set_cutoffs self d2 c1 = set_cutoffs self d2 cutoffs.
Proof.
  intros Hnd H. rewrite set_cutoffs_fresh in H by exact Hnd.
  pose proof (fresh_cutoffs_keys self d1 _ _ H) as Hkeys.
  split; [exact Hkeys|]. split.
  - exact (fresh_cutoffs_assigned self d1 _ c1 H).
  - rewrite !set_cutoffs_fresh by (rewrite ?Hkeys; exact Hnd).
    now rewrite Hkeys.
Qed.

(** X6 (a cutoff key that is no column).  When the quantiles of the
    columns are defined, [set_cutoffs] on cutoffs one of whose keys is not
    a column of the training table raises [KeyError]. *)
Theorem set_cutoffs_unknown_key (self : FilterClassifier) (discard : Q)
    (cutoffs : cutoffs_t) (key : string) :
  let df := df_training_data self in
  NoDup (dict_keys cutoffs) ->
  In key (dict_keys cutoffs) -> ~ In key (keys df) ->
  (forall k col, In (k, col) (cols df) ->
     is_ok (quantile col (cutoff_fraction k discard)) = true) ->
  set_cutoffs self discard cutoffs = Raise KeyError.
Proof.
  intros df Hnd Hkey Hnot Hq. rewrite set_cutoffs_fresh by exact Hnd.
  clear Hnd. induction (dict_keys cutoffs) as [|k ks IH]; [contradiction|].
  simpl. destruct (in_dec string_dec k (keys df)) as [Hin|Hout].
  - destruct (getitem_key df k Hin) as (col & Ecol & Hcol). fold df.
    rewrite Ecol. cbn [bind]. specialize (Hq k col Hcol).
    destruct (quantile col (cutoff_fraction k discard)); [|discriminate].
    cbn [bind]. rewrite IH; [reflexivity|].
    destruct Hkey as [->|Hkey]; [contradiction | exact Hkey].
  - unfold getitem. fold df. now rewrite (dict_get_absent (cols df) k Hout).
Qed.
End CutoffFacts.

Lemma set_cutoffs_overwrites_witness :
  set_cutoffs (B := Toy.backend) Demo.self (4 # 10) Demo.cutoffs
  = set_cutoffs (B := Toy.backend) Demo.self (4 # 10)
      (init_cutoffs (keys (df_training_data Demo.self))).
Proof.
  apply (set_cutoffs_overwrites (B := Toy.backend) Demo.self (2 # 10) (4 # 10)).
  - apply init_cutoffs_NoDup.
  - vm_compute. reflexivity.
Defined.

Lemma set_cutoffs_unknown_key_witness :
  set_cutoffs (B := Toy.backend) Demo.self (2 # 10)
    [("f1"%string, None); ("f3"%string, None)]
  = Raise KeyError.
Proof.
  apply (set_cutoffs_unknown_key (B := Toy.backend) Demo.self (2 # 10) _
           "f3"%string).
  - repeat constructor; simpl; intuition discriminate.
  - simpl. tauto.
  - vm_compute. intuition discriminate.
  - intros k col [H|[H|[]]]; inversion H; vm_compute; reflexivity.
Defined.

(** ** The discard fraction 0 *)

Lemma map_seq_const {A : Type} (f : nat -> A) (a : A) (n : nat) :
  forall start,
  (forall i, (start <= i < start + n)%nat -> f i = a) ->
  map f (seq start n) = repeat a n.
Proof.
  induction n as [|n IH]; intros start H; [reflexivity|].
  cbn [seq map repeat]. rewrite (H start) by lia. f_equal.
  apply IH. intros i Hi. apply H. lia.
Qed.

Section DiscardZero.
Context {model : Type} {B : Backend model}.

(** X7 (discard fraction 0 keeps every row).  When the quantile of
    fraction 1 of a cross-entropy column is an upper bound of its numbers
    and the quantile of fraction 0 of any other column a lower bound of
    its numbers (their largest and smallest value), the labels of discard
    fraction 0 are all 1: a single class, whatever the table. *)
Theorem discard_zero_keeps_every_row (self : FilterClassifier) :
  let df := df_training_data self in
  training_data self = df -> well_formed df = true ->
  (forall key col, In (key, col) (cols df) ->
     exists c,
       quantile col (if is_cross_entropy key then 1 - 0 else 0) = Ok (Some c)
       /\ forall v, In (Some v) col ->
            if is_cross_entropy key then v <= c else c <= v) ->
  exists cutoffs labels,
    set_cutoffs self 0 (init_cutoffs (keys df)) = Ok cutoffs
    /\ add_labels self cutoffs = Ok (set_labels_train self labels)
    /\ labels = repeat 1%Z (index_len df)
    /\ single_class labels = true.
Proof.
  intros df Htd Hwf Hq.
  pose proof (well_formed_NoDup df Hwf) as Hnd.
  destruct (fresh_cutoffs_total self 0 (keys df)) as [cutoffs Hset].
  { intros key Hkey. destruct (getitem_key df key Hkey) as (col & Ecol & Hcol).
    destruct (Hq key col Hcol) as (c & Hc & _).
    exists col, (Some c). split; assumption. }
  pose proof (fresh_cutoffs_keys self 0 _ _ Hset) as Hkeys.
  pose proof (fresh_cutoffs_assigned self 0 _ _ Hset) as Has.
  rewrite <- (init_cutoffs_keys (keys df) Hnd) in Hset at 1.
  rewrite <- set_cutoffs_fresh in Hset by apply init_cutoffs_NoDup.
  assert (Hcut : forall key col, In (key, col) (cols df) ->
            exists c, cutoff_at cutoffs key = Some c
                      /\ forall v, In (Some v) col ->
                           if is_cross_entropy key then v <= c else c <= v).
  { intros key col Hcol. destruct (Hq key col Hcol) as (c & Hc & Hbound).
    exists c. split; [|exact Hbound].
    unfold set_cutoffs in Hset.
    apply set_cutoffs_loop_spec in Hset as (_ & Hin & _); [|auto].
    rewrite (init_cutoffs_keys (keys df) Hnd) in Hin.
    destruct (Hin key) as (col' & c' & Ecol & Ec & Eget).
    { change key with (fst (key, col)). now apply in_map. }
    fold df in Ecol. rewrite (getitem_In df key col Hwf Hcol) in Ecol.
    inversion Ecol; subst col'.
    unfold cutoff_fraction in Ec. rewrite Hc in Ec. inversion Ec; subst c'.
    unfold cutoff_at. now rewrite Eget. }
  assert (Hrows : forall i, (i < index_len df)%nat ->
            row_rejected df cutoffs i = false).
  { intros i Hi. unfold row_rejected.
    apply not_true_iff_false. intros E.
    apply existsb_exists in E as (key & Hkey & Hrej).
    destruct (getitem_key df key Hkey) as (col & Ecol & Hcol).
    destruct (Hcut key col Hcol) as (c & Hc & Hbound).
    unfold value_at in Hrej. rewrite Ecol, Hc in Hrej. cbn iota in Hrej.
    destruct (nth_error col i) as [v|] eqn:Ev.
    - erewrite nth_error_nth in Hrej by exact Ev.
      destruct v as [v|].
      + rewrite rejects_passes in Hrej. apply negb_true_iff in Hrej.
        specialize (Hbound v (nth_error_In _ _ Ev)).
        unfold passes, cell_geb, cell_leb in Hrej.
        destruct (is_cross_entropy key);
          apply Qle_bool_iff in Hbound; congruence.
      + rewrite (proj2 (rejects_nan key None (Some c))) in Hrej;
          [discriminate | now left].
    - apply nth_error_None in Ev.
      rewrite nth_overflow in Hrej by exact Ev.
      rewrite (proj2 (rejects_nan key None (Some c))) in Hrej;
        [discriminate | now left]. }
  exists cutoffs, (repeat 1%Z (index_len df)).
  split; [exact Hset|]. split; [|split; [reflexivity|]].
  - rewrite add_labels_closed_form by assumption. fold df. do 2 f_equal.
    apply map_seq_const. intros i Hi. rewrite Hrows by lia. reflexivity.
  - destruct (index_len df) as [|n]; [reflexivity|]. simpl.
    apply forallb_forall. intros x Hx. apply repeat_spec in Hx. now subst.
Qed.
End DiscardZero.

Lemma discard_zero_keeps_every_row_witness :
  exists cutoffs labels,
    set_cutoffs (B := Toy.backend) Demo.self 0
      (init_cutoffs (keys (df_training_data Demo.self))) = Ok cutoffs
    /\ add_labels Demo.self cutoffs
       = Ok (set_labels_train Demo.self labels)
    /\ labels = repeat 1%Z (index_len (df_training_data Demo.self))
    /\ single_class labels = true.
Proof.
  apply (discard_zero_keeps_every_row (B := Toy.backend) Demo.self).
  - reflexivity.
  - reflexivity.
  - intros key col [H|[H|[]]]; inversion H; subst; clear H.
    + eexists. split; [vm_compute; reflexivity|].
      intros v Hv. cbn [is_cross_entropy].
      change (is_cross_entropy "f1") with false. cbn iota.
      repeat (destruct Hv as [Hv|Hv]; [inversion Hv; subst; lra|]).
      destruct Hv.
    + eexists. split; [vm_compute; reflexivity|].
      intros v Hv.
      change (is_cross_entropy "CrossEntropyFilter_f2") with true. cbn iota.
      repeat (destruct Hv as [Hv|Hv]; [inversion Hv; subst; lra|]).
      destruct Hv.
Defined.

(** ** The test ['CrossEntropyFilter' in key] *)

Lemma prefix_append (sub s : string) :
  prefix sub s = true <-> exists post, s = (sub ++ post)%string.
Proof.
  revert s. induction sub as [|c sub IH]; intros s.
  - split; [intros _; now exists s | now destruct s].
  - destruct s as [|c' s]; simpl.
    + split; [discriminate | intros [post H]; discriminate].
    + destruct (ascii_dec c c') as [->|Hne].
      * rewrite IH. split; intros [post H]; exists post.
        -- now rewrite H.
        -- now inversion H.
      * split; [discriminate|]. intros [post H]. inversion H.
        exfalso. apply Hne. congruence.
Qed.

(** X8 (which features are cross-entropy features).  The rule of the
    upper cutoff applies exactly to the keys that hold the text
    [CrossEntropyFilter] somewhere: at the start, at the end or in the
    middle, in this spelling. *)
Theorem is_cross_entropy_substring (key : string) :
  is_cross_entropy key = true
  <-> exists pre post, key = (pre ++ "CrossEntropyFilter" ++ post)%string.
Proof.
  unfold is_cross_entropy. set (sub := "CrossEntropyFilter"%string).
  induction key as [|c key IH].
  - cbn [contains]. rewrite prefix_append. split.
    + intros [post H]. now exists EmptyString, post.
    + intros (pre & post & H). destruct pre as [|c pre]; [|discriminate].
      now exists post.
  - cbn [contains]. rewrite orb_true_iff, prefix_append, IH. split.
    + intros [[post H]|(pre & post & H)].
      * now exists EmptyString, post.
      * exists (String c pre), post. simpl. now rewrite H.
    + intros (pre & post & H). destruct pre as [|c' pre].
      * left. now exists post.
      * right. exists pre, post. simpl in H. now inversion H.
Qed.

(** ** The residual sum of squares *)

Lemma py_sum_squares_nonneg (l : list Z) :
  (0 <= py_sum (map (fun r => r ^ 2)%Z l))%Z.
Proof.
  unfold py_sum. induction l as [|r l IH]; cbn [map fold_left]; [lia|].
  rewrite py_sum_from, Z.pow_2_r. pose proof (Z.square_nonneg r) as Hr. lia.
Qed.

Lemma binary_cons (y : Z) (l : list Z) :
  binary (y :: l) = true <-> (y = 0 \/ y = 1)%Z /\ binary l = true.
Proof.
  unfold binary. cbn [forallb]. rewrite andb_true_iff, orb_true_iff.
  now rewrite !Z.eqb_eq.
Qed.

Lemma squares_count_mismatches (labels : list Z) :
  forall y_hat, binary labels = true -> binary y_hat = true ->
  sum_squared_residuals labels y_hat = mismatches labels y_hat
  /\ (0 <= mismatches labels y_hat <= Z.of_nat (List.length labels))%Z.
Proof.
  induction labels as [|y labels IH]; intros [|p y_hat] Hl Hp;
    cbn [sum_squared_residuals mismatches List.length]; try lia.
  apply binary_cons in Hl as [Hy Hl]. apply binary_cons in Hp as [Hp Hp'].
  destruct (IH y_hat Hl Hp') as [E Hb]. rewrite E.
  destruct Hy as [-> | ->], Hp as [-> | ->]; simpl Z.eqb; cbn iota; lia.
Qed.

Section Residuals.
Context {model : Type} {B : Backend model}.

Lemma get_sse_lower_bound (self : FilterClassifier) (m : model) (sse : Q) :
  get_sse self m = Ok sse -> 1 # 100 <= sse.
Proof.
  unfold get_sse.
  destruct (predict m (df_training_data self)); cbn [bind]; [|discriminate].
  destruct (attr (labels_train self)); cbn [bind]; [|discriminate].
  destruct (array_sub a0 a) as [resid|]; cbn [bind]; [|discriminate].
  intros [= <-].
  pose proof (py_sum_squares_nonneg resid) as Hs.
  change (0 <= py_sum (map (fun r : Z => Z.pow_pos r 2) resid))%Z in Hs.
  rewrite Zle_Qle in Hs. change (inject_Z 0) with 0 in Hs. lra.
Qed.

(** X9 (the residual sum of squares counts errors).  For classes 0 and 1,
    [get_sse] is the number of rows whose predicted class differs from
    the label, plus 0.01; it lies between 0.01 and the number of rows
    plus 0.01. *)
Theorem get_sse_counts_errors (self : FilterClassifier) (m : model)
    (labels y_hat : list Z) :
  labels_train self = Some labels ->
  predict m (df_training_data self) = Ok y_hat ->
  List.length labels = List.length y_hat ->
  binary labels = true -> binary y_hat = true ->
  get_sse self m = Ok (inject_Z (mismatches labels y_hat) + (1 # 100))
  /\ (0 <= mismatches labels y_hat <= Z.of_nat (List.length labels))%Z.
Proof.
  intros Hl Hp Hlen Hbl Hbp.
  destruct (squares_count_mismatches labels y_hat Hbl Hbp) as [E Hb].
  split; [|exact Hb].
  unfold get_sse. rewrite Hp, Hl. cbn [bind attr].
  rewrite array_sub_same_length by exact Hlen. cbn [bind].
  now rewrite py_sum_squares, E by exact Hlen.
Qed.

(** X10 (the criteria against the residuals).  With a logarithm that
    grows, [get_aic] of a model with the larger residual sum of squares is
    strictly smaller, and so is [get_bic] on a table with a row: the
    comparison of [find_best_model], which keeps the smaller value,
    prefers the model with more residual error. *)
Theorem criteria_fall_as_sse_grows (self : FilterClassifier) (m1 m2 : model)
    (sse1 sse2 : Q) :
  ln_increasing B ->
  get_sse self m1 = Ok sse1 -> get_sse self m2 = Ok sse2 ->
  sse1 < sse2 ->
  (exists aic1 aic2,
     get_aic self m1 = Ok aic1 /\ get_aic self m2 = Ok aic2
     /\ aic2 < aic1 /\ improves "AIC" aic2 aic1 = true)
  /\ ((0 < index_len (df_training_data self))%nat ->
      exists bic1 bic2,
        get_bic self m1 = Ok bic1 /\ get_bic self m2 = Ok bic2
        /\ bic2 < bic1 /\ improves "BIC" bic2 bic1 = true).
Proof.
  intros Hln H1 H2 Hlt.
  pose proof (get_sse_lower_bound self m1 sse1 H1) as Hb1.
  pose proof (get_sse_lower_bound self m2 sse2 H2) as Hb2.
  assert (Hp1 : 0 < sse1) by lra. assert (Hp2 : 0 < sse2) by lra.
  pose proof (Hln sse1 sse2 Hp1 Hlt) as Hlog.
  assert (Hm1 : math_log sse1 = Ok (ln sse1)).
  { unfold math_log. now rewrite (proj2 (Qltb_lt 0 sse1) Hp1). }
  assert (Hm2 : math_log sse2 = Ok (ln sse2)).
  { unfold math_log. now rewrite (proj2 (Qltb_lt 0 sse2) Hp2). }
  split.
  - unfold get_aic. rewrite H1, H2. cbn [bind]. rewrite Hm1, Hm2. cbn [bind].
    do 2 eexists. split; [reflexivity|]. split; [reflexivity|].
    assert (Hlt' : inject_Z (2 * Z.of_nat (snd (shape (df_training_data self))))
                   - 2 * ln sse2
                   < inject_Z (2 * Z.of_nat (snd (shape (df_training_data self))))
                     - 2 * ln sse1) by lra.
    split; [exact Hlt'|]. unfold improves. cbn. now apply Qltb_lt.
  - intros Hrows. unfold get_bic. rewrite H1, H2. cbn [bind].
    rewrite (math_log_rows (df_training_data self) Hrows). cbn [bind].
    rewrite Hm1, Hm2. cbn [bind].
    do 2 eexists. split; [reflexivity|]. split; [reflexivity|].
    match goal with |- ?a - _ < ?a - _ /\ _ =>
      assert (Hlt' : a - 2 * ln sse2 < a - 2 * ln sse1) by lra
    end.
    split; [exact Hlt'|]. unfold improves. cbn. now apply Qltb_lt.
Qed.

(** X11 ([get_bic] on a table without rows).  On a table without rows
    [get_bic] never returns a value: where [get_sse] returns, the
    logarithm of the number of rows raises [ValueError], although
    [get_aic] returns. *)
Theorem get_bic_needs_a_row (self : FilterClassifier) (m : model) :
  index_len (df_training_data self) = 0%nat ->
  (exists e, get_bic self m = Raise e)
  /\ forall sse, get_sse self m = Ok sse ->
       get_bic self m = Raise ValueError
       /\ exists aic, get_aic self m = Ok aic.
Proof.
  intros Hn. split.
  - destruct (get_sse self m) as [sse|e] eqn:E.
    + exists ValueError. now apply (get_bic_no_rows self m sse).
    + exists e. unfold get_bic. now rewrite E.
  - intros sse E. split; [now apply (get_bic_no_rows self m sse)|].
    pose proof (get_sse_lower_bound self m sse E) as Hb.
    unfold get_aic. rewrite E. cbn [bind]. unfold math_log.
    rewrite (proj2 (Qltb_lt 0 sse)) by lra. cbn [bind]. now eexists.
Qed.
End Residuals.

Lemma toy_ln_increasing : ln_increasing Toy.backend.
Proof.
  intros x y Hx Hlt. cbn [ln Toy.backend]. unfold Toy.ln.
  assert (Hy : 0 < y) by lra.
  apply Qlt_shift_div_l; [exact Hy|].
  assert (E : (x - 1) / x * y == ((x - 1) * y) / x) by (field; lra).
  rewrite E. apply Qlt_shift_div_r; [exact Hx|]. nra.
Qed.

Lemma get_sse_counts_errors_witness :
  get_sse (B := Toy.backend) Demo.labelled_self Demo.fitted
  = Ok (inject_Z (mismatches [0; 1; 1; 1; 1]%Z Demo.predictions) + (1 # 100))
  /\ (0 <= mismatches [0; 1; 1; 1; 1]%Z Demo.predictions <= 5)%Z.
Proof.
  apply (get_sse_counts_errors (B := Toy.backend) Demo.labelled_self
           Demo.fitted [0; 1; 1; 1; 1]%Z Demo.predictions);
    vm_compute; reflexivity.
Defined.

Lemma criteria_fall_as_sse_grows_witness :
  (exists aic1 aic2,
     get_aic (B := Toy.backend) Demo.labelled_self Demo.fitted = Ok aic1
     /\ get_aic (B := Toy.backend) Demo.labelled_self Cases.all_zero = Ok aic2
     /\ aic2 < aic1 /\ improves "AIC" aic2 aic1 = true)
  /\ ((0 < index_len (df_training_data Demo.labelled_self))%nat ->
      exists bic1 bic2,
        get_bic (B := Toy.backend) Demo.labelled_self Demo.fitted = Ok bic1
        /\ get_bic (B := Toy.backend) Demo.labelled_self Cases.all_zero = Ok bic2
        /\ bic2 < bic1 /\ improves "BIC" bic2 bic1 = true).
Proof.
  apply (criteria_fall_as_sse_grows (B := Toy.backend) Demo.labelled_self
           Demo.fitted Cases.all_zero (1 # 100) (401 # 100)).
  - exact toy_ln_increasing.
  - vm_compute. reflexivity.
  - vm_compute. reflexivity.
  - reflexivity.
Defined.

Lemma get_bic_needs_a_row_witness :
  exists e, get_bic (B := Toy.backend) Cases.no_rows Cases.all_zero = Raise e.
Proof.
  apply (get_bic_needs_a_row (B := Toy.backend) Cases.no_rows Cases.all_zero).
  reflexivity.
Defined.

(** ** The sweep, step by step *)

Lemma bind_Ok {A C : Type} (r : result A) (k : A -> result C) (v : C) :
  bind r k = Ok v -> exists a, r = Ok a /\ k a = Ok v.
Proof. destruct r as [a|e]; simpl; [now exists a | discriminate]. Qed.

Lemma same_tables_settings (s s' : FilterClassifier) :
  same_tables s s' ->
  tbc_data s = tbc_data s'
  /\ discard_thresholds s = discard_thresholds s'
  /\ output_file s = output_file s'
  /\ dev_data s = dev_data s'
  /\ dev_labels s = dev_labels s'.
Proof.
  unfold same_tables, set_labels_train. destruct s, s'; simpl.
  intros H. inversion H; subst. repeat split.
Qed.

Section SweepState.
Context {model : Type} {B : Backend model}.

Lemma set_cutoffs_same (s s' : FilterClassifier) (discard : Q)
    (cutoffs : cutoffs_t) :
  same_tables s s' ->
  set_cutoffs s discard cutoffs = set_cutoffs s' discard cutoffs.
Proof.
  intros H. apply same_tables_fields in H as (_ & Hdf & _).
  unfold set_cutoffs. generalize (dict_keys cutoffs) as ks. intros ks.
  revert cutoffs. induction ks as [|k ks IH]; intros cutoffs; simpl;
    [reflexivity|].
  rewrite Hdf. destruct (getitem (df_training_data s') k); simpl;
    [|reflexivity].
  destruct (if is_cross_entropy k then _ else _); simpl; [|reflexivity].
  apply IH.
Qed.

Lemma sweep_step_same (s s' : FilterClassifier) (criterion : string) (d : Q)
    (cutoffs : cutoffs_t) (best : option (candidate model)) :
  same_tables s s' ->
  sweep_step criterion d (s, cutoffs, best)
  = sweep_step criterion d (s', cutoffs, best).
Proof.
  intros H. unfold sweep_step.
  rewrite (set_cutoffs_same s s') by exact H.
  destruct (set_cutoffs s' d cutoffs) as [c1|]; cbn [bind]; [|reflexivity].
  now rewrite (add_labels_same s s') by exact H.
Qed.

Lemma find_best_model_same (s s' : FilterClassifier) (criterion : string) :
  same_tables s s' ->
  find_best_model s criterion = find_best_model s' criterion.
Proof.
  intros H. unfold find_best_model.
  destruct (same_tables_fields s s' H) as (_ & Hdf & _).
  destruct (same_tables_settings s s' H) as (_ & Hds & _).
  rewrite Hdf, Hds.
  destruct (discard_thresholds s') as [|d rest]; [reflexivity|].
  cbn [sweep]. now rewrite (sweep_step_same s s') by exact H.
Qed.

(** A turn of the loop leaves the classifier with the labels of its
    discard fraction, whatever the turns before it left. *)
Lemma sweep_step_state (self : FilterClassifier) (criterion : string) (d : Q)
    (s : FilterClassifier) (cutoffs : cutoffs_t)
    (best : option (candidate model))
    (s1 : FilterClassifier) (c1 : cutoffs_t) (b1 : option (candidate model)) :
  reachable self s cutoffs ->
  sweep_step criterion d (s, cutoffs, best) = Ok (s1, c1, b1) ->
  labelled_at self d = Ok s1 /\ reachable self s1 c1.
Proof.
  intros (Hs & Hnd & Hkeys) H. unfold sweep_step in H.
  rewrite (set_cutoffs_fresh s) in H by exact Hnd.
  rewrite <- (fresh_cutoffs_same self s) in H by exact Hs.
  rewrite Hkeys in H.
  apply bind_Ok in H as (c1' & Ec & H).
  rewrite <- (add_labels_same self s) in H by exact Hs.
  apply bind_Ok in H as (s1' & Es & H).
  apply bind_Ok in H as (LR & _ & H).
  apply bind_Ok in H as (cv & _ & H).
  apply bind_Ok in H as (b' & _ & H).
  apply bind_Ok in H as (v & _ & H).
  inversion H; subst s1' c1' b'. clear H.
  pose proof (fresh_cutoffs_keys self d _ _ Ec) as Hk1.
  split.
  - unfold labelled_at.
    rewrite (set_cutoffs_fresh self) by apply init_cutoffs_NoDup.
    rewrite Ec. exact Es.
  - split; [now apply add_labels_same_tables in Es|].
    split; [rewrite Hk1; apply init_cutoffs_NoDup | exact Hk1].
Qed.

Lemma sweep_state (self : FilterClassifier) (criterion : string) :
  forall ds s cutoffs best s1 c1 b1,
  reachable self s cutoffs ->
  sweep criterion ds (s, cutoffs, best) = Ok (s1, c1, b1) ->
  (ds = [] /\ s1 = s)
  \/ exists pre d, ds = pre ++ [d] /\ labelled_at self d = Ok s1.
Proof.
  induction ds as [|d ds IH]; intros s cutoffs best s1 c1 b1 Hr H.
  - left. cbn [sweep] in H. inversion H. now split.
  - right. cbn [sweep] in H. apply bind_Ok in H as ([[s' c'] b'] & Hstep & H).
    destruct (sweep_step_state self criterion d s cutoffs best s' c' b' Hr Hstep)
      as [Hl Hr'].
    destruct (IH s' c' b' s1 c1 b1 Hr' H) as [[-> ->]|(pre & d' & -> & Hd')].
    + now exists [], d.
    + now exists (d :: pre), d'.
Qed.

Lemma find_best_model_state (self : FilterClassifier) (criterion : string)
    (b : candidate model) (self' : FilterClassifier) :
  find_best_model self criterion = Ok (b, self') ->
  exists pre d,
    discard_thresholds self = pre ++ [d] /\ labelled_at self d = Ok self'.
Proof.
  unfold find_best_model. intros H.
  apply bind_Ok in H as ([[s1 c1] b1] & Hsweep & H).
  destruct b1 as [b1|]; [|discriminate]. inversion H; subst b1 s1. clear H.
  destruct (sweep_state self criterion _ _ _ _ _ _ _
              (reachable_init self) Hsweep) as [[Hds _]|Hlast].
  - rewrite Hds in Hsweep. cbn [sweep] in Hsweep. discriminate.
  - exact Hlast.
Qed.

Lemma labelled_at_same_tables (self : FilterClassifier) (d : Q)
    (s1 : FilterClassifier) :
  labelled_at self d = Ok s1 -> same_tables self s1.
Proof.
  unfold labelled_at. intros H. apply bind_Ok in H as (c & _ & H).
  now apply add_labels_same_tables in H.
Qed.

(** X12 (the labels [find_best_model] leaves).  When [find_best_model]
    returns, the classifier holds the labels of the last discard fraction
    of the sweep, whichever fraction the returned triple names; its
    tables and settings are those it had. *)
Theorem find_best_model_leaves_last_labels (self : FilterClassifier)
    (criterion : string) (b : candidate model) (self' : FilterClassifier) :
  find_best_model self criterion = Ok (b, self') ->
  exists pre d,
    discard_thresholds self = pre ++ [d]
    /\ labelled_at self d = Ok self'
    /\ same_tables self self'.
Proof.
  intros H.
  destruct (find_best_model_state self criterion b self' H)
    as (pre & d & Hds & Hl).
  exists pre, d. split; [exact Hds|]. split; [exact Hl|].
  exact (labelled_at_same_tables self d self' Hl).
Qed.

(** X13 ([find_best_model] again).  What [find_best_model] returns does
    not depend on the labels the classifier holds: called again on the
    classifier it left, or on any classifier with the same tables and
    settings, it returns the same triple and leaves the same classifier. *)
Theorem find_best_model_repeatable (self : FilterClassifier)
    (criterion : string) (b : candidate model) (self' : FilterClassifier) :
  find_best_model self criterion = Ok (b, self') ->
  find_best_model self' criterion = Ok (b, self')
  /\ forall s, same_tables self s ->
       find_best_model s criterion = Ok (b, self').
Proof.
  intros H.
  assert (G : forall s, same_tables self s ->
                find_best_model s criterion = Ok (b, self')).
  { intros s Hs. now rewrite <- (find_best_model_same self s) by exact Hs. }
  split; [|exact G]. apply G.
  destruct (find_best_model_state self criterion b self' H)
    as (pre & d & _ & Hl).
  exact (labelled_at_same_tables self d self' Hl).
Qed.

(** X14 (the first step that raises).  The exception of the first step
    of the sweep that raises is the exception of [find_best_model],
    whatever the exception and whatever discard fractions follow: nothing
    is returned of the steps that succeeded before it. *)
Theorem find_best_model_first_failure (self : FilterClassifier)
    (criterion : string) (pre post : list Q) (d : Q)
    (mvs : list (model * Q)) (e : exn) :
  discard_thresholds self = pre ++ d :: post ->
  Forall2 (fun d mv => trial self criterion d = Ok mv) pre mvs ->
  trial self criterion d = Raise e ->
  find_best_model self criterion = Raise e.
Proof.
  intros Hds Hpre Hd. unfold find_best_model. rewrite Hds.
  now rewrite (sweep_raise self criterion pre mvs d post e _ _ None
                 (reachable_init self) Hpre Hd).
Qed.
End SweepState.

Lemma find_best_model_leaves_last_labels_witness :
  exists pre d,
    discard_thresholds Demo.self = pre ++ [d]
    /\ labelled_at (B := Toy.backend) Demo.self d = Ok Cases.swept
    /\ same_tables Demo.self Cases.swept.
Proof.
  apply (find_best_model_leaves_last_labels (B := Toy.backend) Demo.self
           "roc_auc" Cases.best_roc_auc Cases.swept).
  vm_compute. reflexivity.
Defined.

Lemma find_best_model_repeatable_witness :
  find_best_model (B := Toy.backend) Cases.swept "roc_auc"
  = Ok (Cases.best_roc_auc, Cases.swept).
Proof.
  refine (proj1 (find_best_model_repeatable (B := Toy.backend) Demo.self
                   "roc_auc" Cases.best_roc_auc Cases.swept _)).
  vm_compute. reflexivity.
Defined.

Lemma find_best_model_first_failure_witness :
  find_best_model (B := Toy.backend) (Demo.with_sweep [2 # 10; 0; 4 # 10]) "AIC"
  = Raise ValueError.
Proof.
  eapply (find_best_model_first_failure (B := Toy.backend)
            (Demo.with_sweep [2 # 10; 0; 4 # 10]) "AIC" [2 # 10] [4 # 10] 0).
  - reflexivity.
  - constructor; [vm_compute; reflexivity | constructor].
  - vm_compute. reflexivity.
Defined.

(** ** Criteria that cannot be computed *)

Section NoCriterion.
Context {model : Type} {B : Backend model}.

Lemma trial_criterion_raises (self : FilterClassifier) (criterion : string)
    (d : Q) (e : exn) :
  (forall s m, same_tables self s -> criterion_value s criterion m = Raise e) ->
  exists e',
    trial self criterion d = Raise e'
    /\ forall s1 m, labelled_at self d = Ok s1 -> train_logreg s1 = Ok m ->
         e' = e.
Proof.
  intros Hc. unfold trial, labelled_at.
  destruct (set_cutoffs self d _) as [c|e1]; cbn [bind];
    [|exists e1; split; [reflexivity | discriminate]].
  destruct (add_labels self c) as [s1|e1] eqn:Es; cbn [bind];
    [|exists e1; split; [reflexivity | discriminate]].
  destruct (train_logreg s1) as [m|e1] eqn:Em; cbn [bind].
  - rewrite (Hc s1 m) by (now apply add_labels_same_tables in Es).
    exists e. split; [reflexivity|]. reflexivity.
  - exists e1. split; [reflexivity|]. intros s2 m [= <-]. congruence.
Qed.

Lemma find_best_model_criterion_raises (self : FilterClassifier)
    (criterion : string) (e : exn) :
  (forall s m, same_tables self s -> criterion_value s criterion m = Raise e) ->
  (exists e', find_best_model self criterion = Raise e')
  /\ forall d rest s1 m,
       discard_thresholds self = d :: rest ->
       labelled_at self d = Ok s1 -> train_logreg s1 = Ok m ->
       find_best_model self criterion = Raise e.
Proof.
  intros Hc. unfold find_best_model.
  destruct (discard_thresholds self) as [|d rest] eqn:Hds.
  - split; [now exists TypeError | discriminate].
  - destruct (trial_criterion_raises self criterion d e Hc) as (e' & Ht & He).
    pose proof (sweep_raise self criterion [] [] d rest e' _ _ None
                  (reachable_init self) (Forall2_nil _) Ht) as Hs.
    cbn [app] in Hs. rewrite Hs. cbn [bind]. split; [now exists e'|].
    intros d0 rest0 s1 m [= <- <-] Hl Hm. now rewrite (He s1 m Hl Hm).
Qed.

(** X15 (a criterion that is none of the three).  With a criterion other
    than [roc_auc], [AIC] and [BIC], [find_best_model] never returns: once
    the first model of the sweep is trained, reading the criterion value
    that no branch assigned raises [UnboundLocalError]. *)
Theorem unknown_criterion_never_returns (self : FilterClassifier)
    (criterion : string) :
  ~ In criterion criteria ->
  (exists e, find_best_model self criterion = Raise e)
  /\ forall d rest s1 m,
       discard_thresholds self = d :: rest ->
       labelled_at self d = Ok s1 -> train_logreg s1 = Ok m ->
       find_best_model self criterion = Raise UnboundLocalError.
Proof.
  intros Hc. apply find_best_model_criterion_raises.
  intros s m _. unfold criterion_value.
  destruct (String.eqb criterion "roc_auc") eqn:E1;
    [apply String.eqb_eq in E1; exfalso; apply Hc; subst; simpl; tauto|].
  destruct (String.eqb criterion "AIC") eqn:E2;
    [apply String.eqb_eq in E2; exfalso; apply Hc; subst; simpl; tauto|].
  destruct (String.eqb criterion "BIC") eqn:E3;
    [apply String.eqb_eq in E3; exfalso; apply Hc; subst; simpl; tauto|].
  reflexivity.
Qed.

(** X16 (the discrimination score without held-out data).  A classifier
    built without [dev_scores] has no attribute [dev_data]: [get_roc_auc]
    raises [AttributeError] for every model, and [find_best_model] with
    [roc_auc] never returns; once the first model of the sweep is trained
    it raises [AttributeError]. *)
Theorem roc_auc_needs_dev_data (self : FilterClassifier) :
  dev_data self = None ->
  (forall s m, same_tables self s -> get_roc_auc s m = Raise AttributeError)
  /\ (exists e, find_best_model self "roc_auc" = Raise e)
  /\ forall d rest s1 m,
       discard_thresholds self = d :: rest ->
       labelled_at self d = Ok s1 -> train_logreg s1 = Ok m ->
       find_best_model self "roc_auc" = Raise AttributeError.
Proof.
  intros Hdev.
  assert (G : forall s m, same_tables self s ->
                get_roc_auc s m = Raise AttributeError).
  { intros s m Hs. apply same_tables_settings in Hs as (_ & _ & _ & Hd & _).
    unfold get_roc_auc. now rewrite <- Hd, Hdev. }
  split; [exact G|].
  apply find_best_model_criterion_raises. intros s m Hs.
  unfold criterion_value. cbn. now apply G.
Qed.
End NoCriterion.

Lemma unknown_criterion_never_returns_witness :
  exists e, find_best_model (B := Toy.backend) Demo.self "accuracy" = Raise e.
Proof.
  apply (unknown_criterion_never_returns (B := Toy.backend) Demo.self "accuracy").
  intros [H|[H|[H|[]]]]; discriminate.
Defined.

Lemma roc_auc_needs_dev_data_witness :
  exists e,
    find_best_model (B := Toy.backend) Demo.without_dev "roc_auc" = Raise e.
Proof.
  apply (roc_auc_needs_dev_data (B := Toy.backend) Demo.without_dev).
  reflexivity.
Defined.

(** ** The discrimination score, once more *)

Section ScoreFacts.
Context {model : Type} {B : Backend model}.

(** X17 (a score of at least one half).  When the areas under the curve
    of the two probability columns add up to 1, as they do for columns
    that add up to 1 row by row, [get_roc_auc] is the larger of [auc] and
    [1 - auc] for the class-1 column: at least 1/2, and the same for a
    model and for the model that ranks the rows the other way round. *)
Theorem discrimination_score_at_least_half (self : FilterClassifier)
    (m : model) (dev : DataFrame) (labels : Series) (probs : list (Q * Q))
    (auc0 auc1 r : Q) :
  dev_data self = Some dev ->
  dev_labels self = Some labels ->
  predict_proba m dev = Ok probs ->
  roc_auc_score labels (map fst probs) = Ok auc0 ->
  roc_auc_score labels (map snd probs) = Ok auc1 ->
  auc0 + auc1 == 1 ->
  get_roc_auc self m = Ok r ->
  1 # 2 <= r /\ r == py_max (1 - auc1) auc1.
Proof.
  intros Hdev Hlabels Hprobs H0 H1 Hsum H.
  unfold get_roc_auc in H. rewrite Hdev in H. cbn [attr bind] in H.
  apply bind_Ok in H as (pred & _ & H).
  rewrite Hprobs, Hlabels in H. cbn [attr bind] in H.
  apply bind_Ok in H as (accuracy & _ & H).
  rewrite H0, H1 in H. cbn [bind] in H. injection H as <-.
  destruct (py_max_bounds auc0 auc1) as (Ha & Hb & _).
  split; [lra|].
  unfold py_max. destruct (Qltb auc0 auc1) eqn:E.
  - apply Qltb_lt in E.
    rewrite (proj2 (Qltb_lt (1 - auc1) auc1)) by lra. reflexivity.
  - apply Qltb_ge in E.
    destruct (Qltb (1 - auc1) auc1) eqn:E'.
    + apply Qltb_lt in E'. lra.
    + lra.
Qed.
End ScoreFacts.

Lemma discrimination_score_at_least_half_witness :
  exists r,
    get_roc_auc (B := Toy.backend) Demo.self Demo.fitted = Ok r
    /\ 1 # 2 <= r /\ r == py_max (1 - (4 # 4)) (4 # 4).
Proof.
  exists (4 # 4). split; [vm_compute; reflexivity|].
  eapply (discrimination_score_at_least_half (B := Toy.backend) Demo.self
            Demo.fitted).
  - reflexivity.
  - reflexivity.
  - vm_compute. reflexivity.
  - vm_compute. reflexivity.
  - vm_compute. reflexivity.
  - reflexivity.
  - vm_compute. reflexivity.
Defined.

(** ** The files [assign_probabilities] touches *)

Section OutputFacts.
Context {model : Type} {B : Backend model}.

(** X18 (one file is written).  Whether the model returns probabilities
    or raises, [assign_probabilities] leaves every file other than the
    output file as it was; the output file it leaves does not depend on
    what the file held before, so that running it again changes nothing;
    and when the model raises, no file is written at all. *)
Theorem assign_probabilities_touches_one_file (self : FilterClassifier)
    (m : model) (fs : filesystem) (path : string) :
  path <> output_file self ->
  snd (assign_probabilities self m fs) path = fs path
  /\ (forall probas old,
        predict_proba m (tbc_data self) = Ok probas ->
        snd (assign_probabilities self m (fs_write fs (output_file self) old))
            (output_file self)
        = snd (assign_probabilities self m fs) (output_file self))
  /\ (forall p,
        snd (assign_probabilities self m (snd (assign_probabilities self m fs))) p
        = snd (assign_probabilities self m fs) p)
  /\ (forall e, predict_proba m (tbc_data self) = Raise e ->
        assign_probabilities self m fs = (Raise e, fs)).
Proof.
  intros Hpath. unfold assign_probabilities, io_bind, lift.
  destruct (predict_proba m (tbc_data self)) as [probas|e]; cbn [snd fst].
  - split; [|split; [|split]].
    + unfold fs_write. apply String.eqb_neq in Hpath. now rewrite Hpath.
    + intros probas' old _. unfold fs_write. now rewrite String.eqb_refl.
    + intros p. unfold fs_write. now destruct (String.eqb p (output_file self)).
    + discriminate.
  - split; [reflexivity|]. split; [|split].
    + discriminate.
    + reflexivity.
    + now intros e' [= <-].
Qed.
End OutputFacts.

Lemma assign_probabilities_touches_one_file_witness :
  snd (assign_probabilities (B := Toy.backend) Demo.self Demo.fitted Demo.files)
      "tbc.jsonl"%string
  = Demo.files "tbc.jsonl"%string.
Proof.
  apply (assign_probabilities_touches_one_file (B := Toy.backend) Demo.self
           Demo.fitted Demo.files "tbc.jsonl"%string).
  vm_compute. discriminate.
Defined.

(** ** The constructor *)

Section Constructor.
Context {model : Type} {B : Backend model}.

Lemma output_path (to_be_classified output : option string) (out : string) :
  (if is_truthy output then attr output
   else match to_be_classified with
        | Some p => Ok (p ++ ".probabilities.txt")%string
        | None => Raise TypeError
        end) = Ok out ->
  match output with
  | Some (String c rest) => out = String c rest
  | _ => exists p, to_be_classified = Some p
                   /\ out = (p ++ ".probabilities.txt")%string
  end.
Proof.
  destruct output as [[|c rest]|]; cbn [is_truthy attr].
  - destruct to_be_classified as [p|]; [|discriminate].
    intros [= <-]. now exists p.
  - now intros [= <-].
  - destruct to_be_classified as [p|]; [|discriminate].
    intros [= <-]. now exists p.
Qed.

Lemma load_data_some (data_file : option string) (fs : filesystem)
    (data : list record) :
  fst (load_data data_file fs) = Ok data -> exists p, data_file = Some p.
Proof.
  destruct data_file as [p|]; [now exists p | discriminate].
Qed.

(** [__init__] as a function of what the three loads return. *)
Lemma init_unfold (training_scores to_be_classified : option string)
    (thresholds : option (list Q)) (output dev_scores : option string)
    (fs : filesystem) :
  __init__ training_scores to_be_classified thresholds output dev_scores fs
  = (train <- fst (load_data training_scores fs) ;;
     tbc <- fst (load_data to_be_classified fs) ;;
     out <- (if is_truthy output then attr output
             else match to_be_classified with
                  | Some p => Ok (p ++ ".probabilities.txt")%string
                  | None => Raise TypeError
                  end) ;;
     let sweep_values := match thresholds with
                         | None => default_thresholds
                         | Some l => l
                         end in
     if is_truthy dev_scores then
       dev <- fst (load_data dev_scores fs) ;;
       ' (labels, held_out) <- pop (json_normalize dev) "label" ;;
       Ok (mkFilterClassifier (json_normalize train) (json_normalize train)
             (json_normalize tbc) sweep_values out
             (Some held_out) (Some labels) None)
     else
       Ok (mkFilterClassifier (json_normalize train) (json_normalize train)
             (json_normalize tbc) sweep_values out None None None),
     fs).
Proof.
  unfold __init__, io_bind, lift, ret, load_data. cbn [fst].
  destruct (lines <- open_read fs training_scores ;; load_lines lines [])
    as [train|]; cbn [bind]; [|reflexivity].
  destruct (lines <- open_read fs to_be_classified ;; load_lines lines [])
    as [tbc|]; cbn [bind]; [|reflexivity].
  destruct (if is_truthy output then _ else _) as [out|]; cbn [bind];
    [|reflexivity].
  destruct (is_truthy dev_scores); [|reflexivity].
  destruct (lines <- open_read fs dev_scores ;; load_lines lines [])
    as [dev|]; cbn [bind]; [|reflexivity].
  destruct (pop (json_normalize dev) "label") as [[labels held_out]|];
    reflexivity.
Qed.

(** X19 (what the constructor leaves).  A constructor that returns has
    read files and written none; the classifier holds the same training
    table under both its names, well-formed tables, the given sweep or the
    default one, and no labels, so that [train_logreg] raises
    [AttributeError] until [add_labels] has run; it holds held-out data,
    one label per row, exactly when [dev_scores] is given and not empty. *)
Theorem init_postconditions
    (training_scores to_be_classified : option string)
    (thresholds : option (list Q)) (output dev_scores : option string)
    (fs : filesystem) (self : FilterClassifier) :
  fst (__init__ training_scores to_be_classified thresholds output dev_scores fs)
  = Ok self ->
  snd (__init__ training_scores to_be_classified thresholds output dev_scores fs)
  = fs
  /\ training_data self = df_training_data self
  /\ well_formed (df_training_data self) = true
  /\ well_formed (tbc_data self) = true
  /\ discard_thresholds self = match thresholds with
                               | None => default_thresholds
                               | Some l => l
                               end
  /\ labels_train self = None
  /\ train_logreg self = Raise AttributeError
  /\ if is_truthy dev_scores
     then exists held_out labels,
            dev_data self = Some held_out /\ dev_labels self = Some labels
            /\ List.length labels = index_len held_out
     else dev_data self = None /\ dev_labels self = None.
Proof.
  rewrite init_unfold. cbn [fst snd]. intros H.
  split; [reflexivity|].
  apply bind_Ok in H as (train & _ & H).
  apply bind_Ok in H as (tbc & _ & H).
  apply bind_Ok in H as (out & _ & H). cbv zeta in H.
  destruct (is_truthy dev_scores).
  - apply bind_Ok in H as (dev & _ & H).
    apply bind_Ok in H as ([labels held_out] & Hpop & H).
    injection H as <-. cbn.
    repeat split; try apply json_normalize_well_formed.
    exists held_out, labels. repeat split.
    pose proof (json_normalize_well_formed dev) as Hwf.
    destruct (pop_spec _ _ _ _ Hwf Hpop) as (Hget & Hlen & _).
    rewrite Hlen. apply (well_formed_length (json_normalize dev) "label");
      [exact Hwf|].
    now apply dict_get_Ok_In.
  - injection H as <-. cbn.
    repeat split; apply json_normalize_well_formed.
Qed.

(** X20 (the output path).  A constructor that returns was given a file
    to classify; the output path is the given one when it is not empty,
    and otherwise, also for the empty string, the path of the file to
    classify followed by [.probabilities.txt]. *)
Theorem output_file_default
    (training_scores to_be_classified : option string)
    (thresholds : option (list Q)) (output dev_scores : option string)
    (fs : filesystem) (self : FilterClassifier) :
  fst (__init__ training_scores to_be_classified thresholds output dev_scores fs)
  = Ok self ->
  exists p,
    to_be_classified = Some p
    /\ output_file self = match output with
                          | Some (String c rest) => String c rest
                          | _ => (p ++ ".probabilities.txt")%string
                          end.
Proof.
  rewrite init_unfold. cbn [fst]. intros H.
  apply bind_Ok in H as (train & _ & H).
  apply bind_Ok in H as (tbc & Htbc & H).
  apply bind_Ok in H as (out & Hout & H). cbv zeta in H.
  destruct (load_data_some _ _ _ Htbc) as [p Hp]. exists p.
  split; [exact Hp|].
  assert (E : output_file self = out).
  { destruct (is_truthy dev_scores).
    - apply bind_Ok in H as (dev & _ & H).
      apply bind_Ok in H as ([labels held_out] & _ & H).
      now injection H as <-.
    - now injection H as <-. }
  rewrite E. apply output_path in Hout.
  destruct output as [[|c rest]|]; try exact Hout.
  - destruct Hout as (p' & Hp' & ->). congruence.
  - destruct Hout as (p' & Hp' & ->). congruence.
Qed.

(** X21 (held-out data without labels).  When the three files load and
    no record of the held-out file has a [label] field, the constructor
    raises [KeyError]. *)
Theorem dev_scores_need_label
    (training_scores to_be_classified : option string)
    (thresholds : option (list Q)) (output dev_scores : option string)
    (fs : filesystem) (train tbc dev : list record) :
  is_truthy dev_scores = true ->
  fst (load_data training_scores fs) = Ok train ->
  fst (load_data to_be_classified fs) = Ok tbc ->
  fst (load_data dev_scores fs) = Ok dev ->
  ~ In "label"%string (keys (json_normalize dev)) ->
  __init__ training_scores to_be_classified thresholds output dev_scores fs
  = (Raise KeyError, fs).
Proof.
  intros Hdev Htrain Htbc Hload Hlabel. rewrite init_unfold.
  rewrite Htrain, Htbc. cbn [bind].
  destruct (load_data_some _ _ _ Htbc) as [p ->].
  assert (Hout : exists out,
            (if is_truthy output then attr output
             else Ok (p ++ ".probabilities.txt")%string) = Ok out).
  { destruct output as [[|c o]|]; cbn [is_truthy attr]; now eexists. }
  destruct Hout as [out ->]. cbn [bind]. rewrite Hdev, Hload. cbn [bind].
  unfold pop, getitem.
  now rewrite (dict_get_absent (cols (json_normalize dev)) "label" Hlabel).
Qed.

(** X22 (the first load that fails).  The exception of the first file
    that cannot be loaded, the training file before the file to classify,
    is the exception of the constructor, and no file is written; a path
    that was not given counts as a file that cannot be loaded. *)
Theorem init_raises_first_load_error
    (training_scores to_be_classified : option string)
    (thresholds : option (list Q)) (output dev_scores : option string)
    (fs : filesystem) (e : exn) :
  fst (load_data training_scores fs) = Raise e
  \/ (is_ok (fst (load_data training_scores fs)) = true
      /\ fst (load_data to_be_classified fs) = Raise e) ->
  __init__ training_scores to_be_classified thresholds output dev_scores fs
  = (Raise e, fs)
  /\ (training_scores = None -> e = TypeError).
Proof.
  intros H. rewrite init_unfold. destruct H as [H|[Hok H]].
  - rewrite H. split; [reflexivity|]. intros ->. cbn in H. congruence.
  - destruct (fst (load_data training_scores fs)) as [train|] eqn:E;
      [|discriminate].
    rewrite H. split; [reflexivity|]. intros ->. discriminate.
Qed.
End Constructor.

Lemma init_postconditions_witness :
  training_data Demo.self = df_training_data Demo.self
  /\ train_logreg (B := Toy.backend) Demo.self = Raise AttributeError.
Proof.
  destruct (init_postconditions (B := Toy.backend) (Some "train.jsonl"%string)
              (Some "tbc.jsonl"%string) (Some [2 # 10; 4 # 10]) None
              (Some "dev.jsonl"%string) Demo.files Demo.self)
    as (_ & H1 & _ & _ & _ & _ & H2 & _).
  - vm_compute. reflexivity.
  - split; assumption.
Defined.

Lemma output_file_default_witness :
  exists p,
    Some "tbc.jsonl"%string = Some p
    /\ output_file Demo.self = (p ++ ".probabilities.txt")%string.
Proof.
  apply (output_file_default (B := Toy.backend) (Some "train.jsonl"%string)
           (Some "tbc.jsonl"%string) (Some [2 # 10; 4 # 10]) None
           (Some "dev.jsonl"%string) Demo.files Demo.self).
  vm_compute. reflexivity.
Defined.

Lemma dev_scores_need_label_witness :
  __init__ (B := Toy.backend) (Some "train.jsonl"%string)
    (Some "tbc.jsonl"%string) None None (Some "tbc.jsonl"%string) Demo.files
  = (Raise KeyError, Demo.files).
Proof.
  eapply (dev_scores_need_label (B := Toy.backend)).
  - reflexivity.
  - vm_compute. reflexivity.
  - vm_compute. reflexivity.
  - vm_compute. reflexivity.
  - vm_compute. intros [H|[H|[]]]; discriminate.
Defined.

Lemma init_raises_first_load_error_witness :
  __init__ (B := Toy.backend) None None None None None Demo.files
  = (Raise TypeError, Demo.files).
Proof.
  apply (init_raises_first_load_error (B := Toy.backend) None None None None
           None Demo.files TypeError).
  left. reflexivity.
Defined.

(** ** Labels against the discard fraction *)

Section DiscardOrder.
Context {model : Type} {B : Backend model}.

Lemma set_cutoffs_init (self : FilterClassifier) (d : Q) (cutoffs : cutoffs_t) :
  well_formed (df_training_data self) = true ->
  set_cutoffs self d (init_cutoffs (keys (df_training_data self))) = Ok cutoffs ->
  dict_keys cutoffs = keys (df_training_data self)
  /\ assigned cutoffs = true
  /\ forall key col c,
       In (key, col) (cols (df_training_data self)) ->
       quantile col (cutoff_fraction key d) = Ok c ->
       cutoff_at cutoffs key = c.
Proof.
  intros Hwf Hset.
  pose proof (well_formed_NoDup _ Hwf) as Hnd.
  pose proof Hset as Hfresh.
  rewrite set_cutoffs_fresh in Hfresh by apply init_cutoffs_NoDup.
  rewrite (init_cutoffs_keys _ Hnd) in Hfresh.
  split; [exact (fresh_cutoffs_keys self d _ _ Hfresh)|].
  split; [exact (fresh_cutoffs_assigned self d _ _ Hfresh)|].
  intros key col c Hcol Hc.
  unfold set_cutoffs in Hset.
  apply set_cutoffs_loop_spec in Hset as (_ & Hin & _); [|auto].
  rewrite (init_cutoffs_keys _ Hnd) in Hin.
  destruct (Hin key) as (col' & c' & Ecol & Ec & Eget).
  { change key with (fst (key, col)). now apply in_map. }
  rewrite (getitem_In _ key col Hwf Hcol) in Ecol.
  injection Ecol as <-. rewrite Hc in Ec. injection Ec as <-.
  unfold cutoff_at. now rewrite Eget.
Qed.

(** X23 (a larger discard fraction keeps fewer rows).  Take two discard
    fractions [d1] and [d2] such that the quantiles of every column grow
    from [d1] to [d2] and from [1 - d2] to [1 - d1].  Then the labels of
    both are defined, and no row labelled 1 at [d2] is labelled 0 at
    [d1]: the lower cutoffs rise and the upper cutoffs of the
    cross-entropy features fall together. *)
Theorem larger_discard_keeps_fewer (self : FilterClassifier) (d1 d2 : Q) :
  let df := df_training_data self in
  training_data self = df -> well_formed df = true ->
  (forall key col, In (key, col) (cols df) ->
     quantile_grows col d1 d2 /\ quantile_grows col (1 - d2) (1 - d1)) ->
  exists labels1 labels2,
    labelled_at self d1 = Ok (set_labels_train self labels1)
    /\ labelled_at self d2 = Ok (set_labels_train self labels2)
    /\ forall i, (i < index_len df)%nat ->
         nth i labels2 0%Z = 1%Z -> nth i labels1 0%Z = 1%Z.
Proof.
  intros df Htd Hwf Hq.
  pose proof (well_formed_NoDup df Hwf) as Hnd.
  assert (Hpair : forall key col, In (key, col) (cols df) ->
            exists a b,
              quantile col (cutoff_fraction key d1) = Ok (Some a)
              /\ quantile col (cutoff_fraction key d2) = Ok (Some b)
              /\ tighter key (Some a) (Some b)).
  { intros key col Hcol.
    destruct (Hq key col Hcol) as [(a & b & Ha & Hb & Hab) (a' & b' & Ha' & Hb' & Hab')].
    unfold cutoff_fraction, tighter.
    destruct (is_cross_entropy key).
    - now exists b', a'.
    - now exists a, b. }
  assert (Hrun : forall d,
            (forall key col, In (key, col) (cols df) ->
               exists c, quantile col (cutoff_fraction key d) = Ok (Some c)) ->
            exists cutoffs,
              set_cutoffs self d (init_cutoffs (keys df)) = Ok cutoffs).
  { intros d Hd.
    destruct (fresh_cutoffs_total self d (keys df)) as [cutoffs Hset].
    { intros key Hkey. destruct (getitem_key df key Hkey) as (col & Ecol & Hcol).
      destruct (Hd key col Hcol) as (c & Hc).
      exists col, (Some c). split; assumption. }
    exists cutoffs.
    rewrite set_cutoffs_fresh by apply init_cutoffs_NoDup.
    now rewrite (init_cutoffs_keys (keys df) Hnd). }
  destruct (Hrun d1) as [c1 Hc1].
  { intros key col Hcol. destruct (Hpair key col Hcol) as (a & _ & Ha & _).
    now exists a. }
  destruct (Hrun d2) as [c2 Hc2].
  { intros key col Hcol. destruct (Hpair key col Hcol) as (_ & b & _ & Hb & _).
    now exists b. }
  destruct (set_cutoffs_init self d1 c1 Hwf Hc1) as (Hk1 & Has1 & Hat1).
  destruct (set_cutoffs_init self d2 c2 Hwf Hc2) as (Hk2 & Has2 & Hat2).
  fold df in Hk1, Hk2.
  exists (map (fun i => if row_rejected df c1 i then 0%Z else 1%Z)
              (seq 0 (index_len df))),
         (map (fun i => if row_rejected df c2 i then 0%Z else 1%Z)
              (seq 0 (index_len df))).
  unfold labelled_at. fold df. rewrite Hc1, Hc2. cbn [bind].
  split; [now apply add_labels_closed_form|].
  split; [now apply add_labels_closed_form|].
  intros i Hi. rewrite !nth_map_seq by exact Hi.
  destruct (row_rejected df c1 i) eqn:E; [|reflexivity].
  unfold row_rejected in E. apply existsb_exists in E as (key & Hkey & Hrej).
  destruct (getitem_key df key Hkey) as (col & _ & Hcol).
  destruct (Hpair key col Hcol) as (a & b & Ha & Hb & Hab).
  rewrite (Hat1 key col (Some a) Hcol Ha) in Hrej.
  apply (rejects_tighter key _ _ _ Hab) in Hrej.
  replace (row_rejected df c2 i) with true; [discriminate|].
  symmetry. apply existsb_exists. exists key. split; [exact Hkey|].
  now rewrite (Hat2 key col (Some b) Hcol Hb).
Qed.
End DiscardOrder.

Lemma larger_discard_keeps_fewer_witness :
  exists labels1 labels2,
    labelled_at (B := Toy.backend) Demo.self (2 # 10)
    = Ok (set_labels_train Demo.self labels1)
    /\ labelled_at (B := Toy.backend) Demo.self (4 # 10)
       = Ok (set_labels_train Demo.self labels2)
    /\ forall i, (i < index_len (df_training_data Demo.self))%nat ->
         nth i labels2 0%Z = 1%Z -> nth i labels1 0%Z = 1%Z.
Proof.
  apply (larger_discard_keeps_fewer (B := Toy.backend) Demo.self
           (2 # 10) (4 # 10)).
  - reflexivity.
  - reflexivity.
  - intros key col [H|[H|[]]]; inversion H; subst; clear H;
      split; unfold quantile_grows; do 2 eexists;
      (split; [vm_compute; reflexivity|]);
      (split; [vm_compute; reflexivity|]); vm_compute; discriminate.
Defined.
